(** * Decision and risk engine of the autonomous trading bot

    A shallow embedding of the Python services under [backend/services]
    (risk gate, advanced risk manager, technical indicators, multi-timeframe
    analysis, conditional order manager, the simulated market order of the
    trading service, the result mapping of the AI analysis service, and the
    trading cycle of the bot engine), followed by the properties established
    about them.

    Conventions of the embedding.
    - A Python [float] is an exact rational ([Q]); comparisons are the exact
      ones and results are stated up to [Qeq].  Rounding error of binary
      floating point, infinities and NaN are outside the model.
    - [round(x, n)] is round-half-to-even at [n] decimal digits.
    - A dictionary read with [d.get(key, default)] is a record field of type
      [option], read with [get].
    - A string that the code only ever compares against a fixed set of
      literals (a trend, an alignment, an order type, a status) is an
      inductive type with one constructor per literal.
    - Wall-clock readings ([datetime.now]) and answers of external
      collaborators (the order execution service) are explicit inputs. *)

From Stdlib Require Import QArith Qround Qminmax Qabs ZArith Lia Lqa.
From stdpp Require Import gmap strings list sorting.

Local Open Scope Q_scope.

(** ** Python numerics on rationals *)

Module Py.

(** [d.get(key, default)] on an optional field. *)
Definition get {A : Type} (field : option A) (default : A) : A :=
  match field with
  | Some v => v
  | None => default
  end.

Definition Qltb (x y : Q) : bool := negb (Qle_bool y x).
Definition Qleb (x y : Q) : bool := Qle_bool x y.
Definition Qeqb (x y : Q) : bool := Qeq_bool x y.

(** [min(a, b)] returns [b] only when [b < a]; [max(a, b)] returns [b] only
    when [b > a]  (the first extremal argument wins). *)
Definition min (a b : Q) : Q := if Qltb b a then b else a.
Definition max (a b : Q) : Q := if Qltb a b then b else a.

Definition abs (x : Q) : Q := if Qltb x 0 then - x else x.

(** Nearest integer, ties to the even neighbour. *)
Definition round_half_even (x : Q) : Z :=
  let f := Qfloor x in
  match Qcompare (x - inject_Z f) (1 # 2) with
  | Lt => f
  | Gt => (f + 1)%Z
  | Eq => if Z.even f then f else (f + 1)%Z
  end.

Definition pow10 (ndigits : nat) : Q := inject_Z (10 ^ Z.of_nat ndigits).

(** [round(x, ndigits)]. *)
Definition round (x : Q) (ndigits : nat) : Q :=
  inject_Z (round_half_even (x * pow10 ndigits)) / pow10 ndigits.

(** [sum(xs)] and [numpy.mean(xs)]; the running total is kept in lowest
    terms ([Qred] is the identity up to [Qeq]).  The mean of an empty array
    is left at 0 (numpy answers NaN there). *)
Definition sum (xs : list Q) : Q := foldl (fun acc x => Qred (acc + x)) 0 xs.

Definition mean (xs : list Q) : Q :=
  Qred (sum xs / inject_Z (Z.of_nat (length xs))).

(** [xs[-n:]] for [n > 0]: the last [n] elements, the whole list when it is
    shorter. *)
Definition last_n {A : Type} (n : nat) (xs : list A) : list A :=
  drop (length xs - n) xs.

(** [xs[-n:]] for any [n >= 0]: with [n = 0] the slice starts at index
    [-0 = 0] and is the whole list. *)
Definition slice_last {A : Type} (n : nat) (xs : list A) : list A :=
  match n with
  | O => xs
  | S _ => last_n n xs
  end.

(** [xs[::k]] for [k > 0]: the elements at the indices [0], [k], [2k], ...
    below the length. *)
Definition stride (k : nat) (xs : list Q) : list Q :=
  map (fun i => nth (i * k) xs 0) (seq 0 ((length xs + k - 1) / k)).

(** [numpy.diff(xs)]. *)
Fixpoint diff (xs : list Q) : list Q :=
  match xs with
  | x :: (y :: _) as rest => (y - x) :: diff rest
  | _ => []
  end.

(** [numpy.sort(xs)], by insertion into an ascending list. *)
Fixpoint insert_sorted (x : Q) (xs : list Q) : list Q :=
  match xs with
  | [] => [x]
  | y :: ys => if Qleb x y then x :: xs else y :: insert_sorted x ys
  end.

Definition sorted (xs : list Q) : list Q := foldr insert_sorted [] xs.

(** [numpy.percentile(xs, q)] for [0 <= q <= 100], with the default linear
    interpolation between the two closest ranks. *)
Definition percentile (xs : list Q) (q : Q) : Q :=
  let ranked := sorted xs in
  let virtual_index := inject_Z (Z.of_nat (length xs - 1)) * (q / 100) in
  let previous := Z.to_nat (Qfloor virtual_index) in
  let next := Nat.min (previous + 1) (length xs - 1) in
  let gamma := virtual_index - inject_Z (Qfloor virtual_index) in
  let lo := nth previous ranked 0 in
  let hi := nth next ranked 0 in
  lo + (hi - lo) * gamma.

End Py.

(** ** services/risk_manager.py *)

Module RiskManager.

Record t : Type := {
  capital_floor_pct : Q;
  max_daily_loss_pct : Q
}.

(** [RiskManager()] with the constructor's default arguments. *)
Definition default : t :=
  {| capital_floor_pct := 97 # 100; max_daily_loss_pct := 15 # 1000 |}.

Record floor_check : Type := {
  fc_equity_floor : Q;
  fc_current_equity : Q;
  fc_current_ratio : Q;
  fc_floor_breach : bool;
  fc_buffer_percent : Q;
  fc_allow_trading : bool
}.

Definition check_capital_floor (self : t) (current_equity max_equity : Q)
  : floor_check :=
  let equity_floor := max_equity * capital_floor_pct self in
  let current_ratio :=
    if Py.Qltb 0 max_equity then current_equity / max_equity else 1 in
  let breach := Py.Qltb current_equity equity_floor in
  let buffer :=
    if Py.Qltb 0 equity_floor
    then (current_equity - equity_floor) / equity_floor * 100
    else 0 in
  {| fc_equity_floor := equity_floor;
     fc_current_equity := current_equity;
     fc_current_ratio := current_ratio;
     fc_floor_breach := breach;
     fc_buffer_percent := Py.round buffer 2;
     fc_allow_trading := negb breach |}.

Record loss_check : Type := {
  lc_daily_pnl : Q;
  lc_loss_percent : Q;
  lc_max_allowed_loss : Q;
  lc_loss_breach : bool;
  lc_allow_trading : bool
}.

Definition check_daily_loss (self : t) (daily_pnl starting_equity : Q)
  : loss_check :=
  let max_loss := starting_equity * max_daily_loss_pct self in
  let loss_pct :=
    if Py.Qltb 0 starting_equity then daily_pnl / starting_equity * 100 else 0 in
  let breach := Py.Qltb daily_pnl (- max_loss) in
  {| lc_daily_pnl := daily_pnl;
     lc_loss_percent := Py.round loss_pct 2;
     lc_max_allowed_loss := max_loss;
     lc_loss_breach := breach;
     lc_allow_trading := negb breach |}.

Definition calculate_position_size
  (signal_strength confidence available_capital volatility : Q) : Q :=
  let edge := signal_strength * (confidence / 100) in
  let max_risk_per_trade := 2 # 100 in
  let kelly_fraction :=
    if Py.Qltb 0 volatility then edge / (volatility * volatility) else 0 in
  let kelly_fraction := Py.min (kelly_fraction * (25 # 100)) max_risk_per_trade in
  let position_size := available_capital * kelly_fraction in
  let position_size :=
    Py.max 10 (Py.min position_size (available_capital * (5 # 100))) in
  Py.round position_size 2.

(** The keys of the signal and of the risk snapshot that [validate_trade]
    reads; a key may be missing from the dictionary. *)
Record signal : Type := {
  sig_confidence : option Q;
  sig_buy_recommendation : option bool
}.

Record risk_metrics : Type := {
  rm_total_equity : option Q;
  rm_max_equity : option Q;
  rm_daily_pnl : option Q;
  rm_cash_balance : option Q
}.

Record validation : Type := {
  approved : bool;
  v_floor_check : bool;
  v_loss_check : bool;
  v_confidence_check : bool;
  v_signal_check : bool;
  reason : string
}.

Definition _get_rejection_reason
  (floor : floor_check) (loss : loss_check) (confidence_ok strong_signal : bool)
  : string :=
  if negb (fc_allow_trading floor) then "Capital floor breach - trading halted"
  else if negb (lc_allow_trading loss) then "Daily loss limit reached"
  else if negb confidence_ok then "Signal confidence too low"
  else if negb strong_signal then "No strong buy signal"
  else "All checks passed".

Definition validate_trade (self : t) (sig : signal) (metrics : risk_metrics)
  : validation :=
  let floor :=
    check_capital_floor self
      (Py.get (rm_total_equity metrics) 0) (Py.get (rm_max_equity metrics) 0) in
  let loss :=
    check_daily_loss self
      (Py.get (rm_daily_pnl metrics) 0) (Py.get (rm_max_equity metrics) 0) in
  let confidence_ok := Py.Qleb 60 (Py.get (sig_confidence sig) 0) in
  let strong_signal := Py.get (sig_buy_recommendation sig) false in
  let all_checks_pass :=
    fc_allow_trading floor && lc_allow_trading loss
    && confidence_ok && strong_signal in
  {| approved := all_checks_pass;
     v_floor_check := fc_allow_trading floor;
     v_loss_check := lc_allow_trading loss;
     v_confidence_check := confidence_ok;
     v_signal_check := strong_signal;
     reason := _get_rejection_reason floor loss confidence_ok strong_signal |}.

End RiskManager.

(** ** Documents of the database collections *)

Module Db.

(** A timestamp is a number of microseconds since the epoch; the code stores
    it as an ISO-8601 string of a UTC [datetime]. *)
Definition timestamp : Type := Z.

(** A document of [db.positions].  [quantity] is the capital committed in
    quote currency.  [pnl] and [high_water_mark] are the keys the engine
    reads with [get]. *)
Record position : Type := {
  p_user_id : string;
  p_symbol : string;
  p_quantity : Q;
  p_avg_price : Q;
  p_current_price : Q;
  p_pnl : option Q;
  p_pnl_percent : option Q;
  p_high_water_mark : option Q;
  p_created_at : timestamp
}.

(** A document of [db.risk_metrics] (a RiskSnapshot). *)
Record snapshot : Type := {
  s_user_id : string;
  s_total_equity : option Q;
  s_max_equity : option Q;
  s_equity_floor : Q;
  s_current_drawdown : Q;
  s_daily_pnl : option Q;
  s_positions_value : Q;
  s_cash_balance : option Q;
  s_timestamp : timestamp
}.

End Db.

(** ** services/advanced_risk_manager.py *)

Module AdvancedRiskManager.

(** [self.max_correlation]: set to 0.7 by the constructor. *)
Definition max_correlation : Q := 7 # 10.

(** [numpy.diff(a) / a[:-1]]: the simple returns of a price series. *)
Fixpoint returns (a : list Q) : list Q :=
  match a with
  | x :: (y :: _) as rest => (y - x) / x :: returns rest
  | _ => []
  end.

Definition centered (xs : list Q) : list Q :=
  let m := Py.mean xs in map (fun x => Qred (x - m)) xs.

Definition dot (xs ys : list Q) : Q := Py.sum (zip_with Qmult xs ys).

(** [round(float(numpy.corrcoef(xs, ys)[0, 1]), ndigits)].

    The coefficient is [c / sqrt (vx * vy)] with [c] the sum of products of
    the centred series and [vx], [vy] their sums of squares; it is
    irrational in general, so the model computes its rounding directly:
    with [t = (2 * 10^ndigits * |r|)^2], a rational, [Z.sqrt (Qfloor t)] is
    [floor (2 * 10^ndigits * |r|)], whose half, rounded up when odd, is the
    nearest integer to [10^ndigits * |r|] (the even neighbour on an exact
    tie).  Where numpy answers NaN (a constant series) the model answers 0;
    [check_correlation_risk] treats both alike, since neither [abs(nan) > x]
    nor [abs(0) > x] holds for a non-negative [x]. *)
Definition corrcoef_rounded (xs ys : list Q) (ndigits : nat) : Q :=
  let cx := centered xs in
  let cy := centered ys in
  let c := dot cx cy in
  let vx := dot cx cx in
  let vy := dot cy cy in
  if Py.Qeqb (vx * vy) 0 then 0
  else
    let scale := Py.pow10 ndigits in
    let t := 4 * scale * scale * ((c * c) / (vx * vy)) in
    let m := Z.sqrt (Qfloor t) in
    let half := (m / 2)%Z in
    let k :=
      if Z.even m then half
      else if Py.Qeqb t (inject_Z (m * m))
           then (if Z.even half then half else (half + 1)%Z)
           else (half + 1)%Z in
    let magnitude := inject_Z k / scale in
    if Py.Qltb c 0 then - magnitude else magnitude.

(** [a[:-1]] holds a zero: a return is infinite or NaN and so is the
    coefficient. *)
Definition has_zero_base (a : list Q) : bool :=
  existsb (fun x => Py.Qeqb x 0) (removelast a).

Definition calculate_correlation (prices_a prices_b : list Q) : Q :=
  if (length prices_a <? 20)%nat || (length prices_b <? 20)%nat then 0
  else
    let n := Nat.min (Nat.min (length prices_a) (length prices_b)) 50 in
    let a := Py.last_n n prices_a in
    let b := Py.last_n n prices_b in
    if has_zero_base a || has_zero_base b then 0
    else corrcoef_rounded (returns a) (returns b) 3.

Record correlation_check : Type := {
  allowed : bool;
  cc_max_correlation : Q;
  correlated_with : option string
}.

(** One turn of the loop over the existing positions; the state is
    [(max_corr, correlated_with)]. *)
Definition correlation_step
  (new_symbol : string) (new_prices : list Q)
  (price_history : gmap string (list Q))
  (acc : Q * option string) (pos : Db.position) : Q * option string :=
  let symbol := Db.p_symbol pos in
  if String.eqb symbol new_symbol then acc
  else
    let existing_prices := Py.get (price_history !! symbol) [] in
    if (length existing_prices <? 20)%nat then acc
    else
      let corr := calculate_correlation new_prices existing_prices in
      if Py.Qltb (Py.abs (fst acc)) (Py.abs corr) then (corr, Some symbol)
      else acc.

Definition check_correlation_risk
  (new_symbol : string) (existing_positions : list Db.position)
  (price_history : gmap string (list Q)) : correlation_check :=
  match existing_positions with
  | [] => {| allowed := true; cc_max_correlation := 0; correlated_with := None |}
  | _ :: _ =>
    let new_prices := Py.get (price_history !! new_symbol) [] in
    if (length new_prices <? 20)%nat
    then {| allowed := true; cc_max_correlation := 0; correlated_with := None |}
    else
      let '(max_corr, with_symbol) :=
        foldl (correlation_step new_symbol new_prices price_history)
              (0, None) existing_positions in
      {| allowed := Py.Qltb (Py.abs max_corr) max_correlation;
         cc_max_correlation := max_corr;
         correlated_with := with_symbol |}
  end.

(** The result is [None] where the code raises [ZeroDivisionError]
    ([heat_available / max_heat] with [max_heat == 0]). *)
Definition calculate_optimal_position_size
  (signal_strength volatility total_equity current_heat max_heat : Q)
  : option Q :=
  let edge := signal_strength in
  let kelly_fraction :=
    if Py.Qltb 0 volatility then edge / (volatility * volatility) else 0 in
  let kelly_fraction := Py.min (kelly_fraction * (25 # 100)) (2 # 100) in
  let heat_available := max_heat - current_heat in
  if Py.Qleb heat_available 0 then Some 0
  else if Py.Qeqb max_heat 0 then None
  else
    let heat_adjustment := Py.min (heat_available / max_heat) 1 in
    let position_size := total_equity * kelly_fraction * heat_adjustment in
    let position_size :=
      Py.max 10 (Py.min position_size (total_equity * (5 # 100))) in
    Some (Py.round position_size 2).

(** The dictionary returned by [calculate_portfolio_heat]. *)
Record portfolio_heat : Type := {
  total_heat : Q;
  heat_percent : Q;
  positions_at_risk : nat;
  heat_status : string
}.

(** [calculate_portfolio_heat(positions, total_equity)]: a 3% stop distance
    on the capital of every position.  Nothing in the [try] block raises on
    rationals, so the 'unknown' answer of the [except] clause is never
    given. *)
Definition calculate_portfolio_heat (positions : list Db.position)
  (total_equity : Q) : portfolio_heat :=
  match positions with
  | [] =>
    {| total_heat := 0; heat_percent := 0; positions_at_risk := 0;
       heat_status := "safe" |}
  | _ :: _ =>
    if Py.Qleb total_equity 0 then
      {| total_heat := 0; heat_percent := 0; positions_at_risk := 0;
         heat_status := "safe" |}
    else
      let stop_loss_distance := 3 # 100 in
      let '(total_risk, at_risk) :=
        foldl (fun acc pos =>
                 (fst acc + Db.p_quantity pos * stop_loss_distance, S (snd acc)))
              (0, O) positions in
      let percent :=
        if Py.Qltb 0 total_equity then total_risk / total_equity * 100 else 0 in
      let status :=
        if Py.Qltb 15 percent then "high_risk"
        else if Py.Qltb 10 percent then "elevated"
        else if Py.Qltb 5 percent then "moderate"
        else "safe" in
      {| total_heat := Py.round total_risk 2;
         heat_percent := Py.round percent 2;
         positions_at_risk := at_risk;
         heat_status := status |}
  end.

(** [calculate_cvar(returns, confidence)].  A percentile outside [0, 100]
    raises in numpy and the [except] clause answers 0.  The tail is never
    empty: the percentile is at least the smallest return. *)
Definition calculate_cvar (returns : list Q) (confidence : Q) : Q :=
  if (length returns <? 10)%nat then 0
  else
    let q := (1 - confidence) * 100 in
    if Py.Qltb q 0 || Py.Qltb 100 q then 0
    else
      let var := Py.percentile returns q in
      let tail := List.filter (fun r => Py.Qleb r var) returns in
      Py.round (Py.mean tail) 4.

(** The dictionary returned by [get_risk_assessment]. *)
Record risk_assessment : Type := {
  risk_score : Q;
  assessment : string;
  ra_portfolio_heat : portfolio_heat;
  cvar : Q;
  drawdown : Q;
  ra_daily_pnl : Q;
  allow_new_positions : bool
}.

(** [get_risk_assessment(equity_metrics, positions, recent_trades)]; a trade
    is given by its ['pnl_percent'] key, if it has one.  The result is [None]
    where the code raises: a daily loss divided by a total equity of zero. *)
Definition get_risk_assessment (equity_metrics : RiskManager.risk_metrics)
  (positions : list Db.position) (recent_trades : list (option Q))
  : option risk_assessment :=
  let total_equity := Py.get (RiskManager.rm_total_equity equity_metrics) 10000 in
  let max_equity := Py.get (RiskManager.rm_max_equity equity_metrics) 10000 in
  let daily_pnl := Py.get (RiskManager.rm_daily_pnl equity_metrics) 0 in
  let heat := calculate_portfolio_heat positions total_equity in
  let recent_returns := omap (fun t => t) (Py.last_n 20 recent_trades) in
  let cvar :=
    match recent_returns with
    | [] => 0
    | _ :: _ => calculate_cvar recent_returns (95 # 100)
    end in
  let drawdown :=
    if Py.Qltb 0 max_equity
    then (max_equity - total_equity) / max_equity * 100
    else 0 in
  if Py.Qltb daily_pnl 0 && Py.Qeqb total_equity 0 then None
  else
    let risk_score :=
      heat_percent heat / 15 * 30
      + Py.abs drawdown / 10 * 30
      + (if Py.Qltb cvar 0 then Py.abs cvar * 40 else 0)
      + (if Py.Qltb daily_pnl 0
         then Py.abs daily_pnl / total_equity * 100 * 20
         else 0) in
    let risk_score := Py.min risk_score 100 in
    let assessment :=
      if Py.Qltb risk_score 30 then "low"
      else if Py.Qltb risk_score 60 then "moderate"
      else if Py.Qltb risk_score 80 then "elevated"
      else "high" in
    Some
      {| risk_score := Py.round risk_score 2;
         assessment := assessment;
         ra_portfolio_heat := heat;
         cvar := cvar;
         drawdown := Py.round drawdown 2;
         ra_daily_pnl := daily_pnl;
         allow_new_positions :=
           Py.Qltb risk_score 75 && Py.Qltb (heat_percent heat) 15 |}.

End AdvancedRiskManager.

(** ** services/technical_indicators.py *)

Module TechnicalIndicators.

(** [_calculate_ema(prices, period)]: the mean of the first [period] prices,
    then one smoothing step per later price. *)
Definition _calculate_ema (prices : list Q) (period : nat) : Q :=
  if (length prices <? period)%nat then Py.mean prices
  else
    let multiplier := 2 / inject_Z (Z.of_nat period + 1) in
    foldl (fun ema price => Qred (price * multiplier + ema * (1 - multiplier)))
          (Py.mean (take period prices)) (drop period prices).

Record macd_result : Type := {
  macd : Q;
  signal : Q;
  histogram : Q
}.

(** The MACD line of the prefix [prices[:i+1]]. *)
Definition macd_at (prices : list Q) (fast slow i : nat) : Q :=
  _calculate_ema (take (i + 1) prices) fast
  - _calculate_ema (take (i + 1) prices) slow.

(** [macd_values]: the MACD line of every prefix [prices[:i+1]] for [i] in
    [range(slow, len(prices))]. *)
Definition macd_values (prices : list Q) (fast slow : nat) : list Q :=
  map (macd_at prices fast slow) (seq slow (length prices - slow)).

Definition calculate_macd (prices : list Q) (fast slow signal : nat)
  : macd_result :=
  if (length prices <? slow + signal)%nat
  then {| macd := 0; signal := 0; histogram := 0 |}
  else
    let ema_fast := _calculate_ema prices fast in
    let ema_slow := _calculate_ema prices slow in
    let macd_line := ema_fast - ema_slow in
    let signal_line :=
      if (slow * 2 <=? length prices)%nat then
        let values := macd_values prices fast slow in
        if (signal <=? length values)%nat
        then _calculate_ema values signal
        else macd_line
      else macd_line in
    let histogram := macd_line - signal_line in
    {| macd := Py.round macd_line 2;
       signal := Py.round signal_line 2;
       histogram := Py.round histogram 2 |}.

(** [calculate_rsi(prices, period)].  No statement of the [try] block
    raises on rationals; where numpy answers NaN (the mean of an empty slice,
    only with [period = 0]) the model follows [Py.mean]. *)
Definition calculate_rsi (prices : list Q) (period : nat) : Q :=
  if (length prices <? period + 1)%nat then 50
  else
    let deltas := Py.diff prices in
    let gains := map (fun d => if Py.Qltb 0 d then d else 0) deltas in
    let losses := map (fun d => if Py.Qltb d 0 then - d else 0) deltas in
    let avg_gain := Py.mean (Py.slice_last period gains) in
    let avg_loss := Py.mean (Py.slice_last period losses) in
    if Py.Qeqb avg_loss 0 then 100
    else
      let rs := avg_gain / avg_loss in
      let rsi := 100 - 100 / (1 + rs) in
      Py.round rsi 2.

(** The dictionary returned by [calculate_bollinger_bands]. *)
Record bollinger : Type := {
  upper : Q;
  middle : Q;
  lower : Q;
  bandwidth : Q
}.

(** [detect_market_regime].  The division by [prices[-20]] raises on a zero
    price; the [except] clause answers "uncertain". *)
Definition detect_market_regime (prices : list Q) (rsi : Q) (m : macd_result)
  (bands : bollinger) : string :=
  if (length prices <? 20)%nat then "uncertain"
  else
    let current_price := List.last prices 0 in
    let reference := nth (length prices - 20) prices 0 in
    if Py.Qeqb reference 0 then "uncertain"
    else
      let price_trend := (current_price - reference) / reference * 100 in
      let oversold := Py.Qltb rsi 30 in
      let overbought := Py.Qltb 70 rsi in
      let macd_bullish := Py.Qltb 0 (histogram m) in
      let macd_bearish := Py.Qltb (histogram m) 0 in
      let near_upper := Py.Qltb (upper bands * (98 # 100)) current_price in
      let near_lower := Py.Qltb current_price (lower bands * (102 # 100)) in
      if Py.Qltb 5 price_trend && macd_bullish && negb overbought
      then "strong_uptrend"
      else if Py.Qltb 2 price_trend && macd_bullish then "uptrend"
      else if Py.Qltb price_trend (-5) && macd_bearish && negb oversold
      then "strong_downtrend"
      else if Py.Qltb price_trend (-2) && macd_bearish then "downtrend"
      else if oversold && near_lower then "oversold_bounce"
      else if overbought && near_upper then "overbought_pullback"
      else if Py.Qltb (Py.abs price_trend) 2 then "ranging"
      else "neutral".

(** The dictionary returned by [generate_trading_signals]; the strengths
    are Python integers. *)
Record trading_signals : Type := {
  buy_strength : Q;
  sell_strength : Q;
  ts_confidence : Q;
  ts_reasons : list string;
  ts_signal : string
}.

Definition generate_trading_signals (rsi : Q) (m : macd_result)
  (bands : bollinger) (current_price : Q) (regime : string) : trading_signals :=
  (* RSI signals *)
  let '(buy, sell, reasons) :=
    if Py.Qltb rsi 30 then (25, 0, ["RSI oversold"])
    else if Py.Qltb 70 rsi then (0, 25, ["RSI overbought"])
    else (0, 0, []) in
  (* MACD signals *)
  let '(buy, sell, reasons) :=
    if Py.Qltb 0 (histogram m) && Py.Qltb (signal m) (macd m)
    then (buy + 20, sell, reasons ++ ["MACD bullish crossover"])
    else if Py.Qltb (histogram m) 0 && Py.Qltb (macd m) (signal m)
    then (buy, sell + 20, reasons ++ ["MACD bearish crossover"])
    else (buy, sell, reasons) in
  (* Bollinger Bands signals *)
  let '(buy, sell, reasons) :=
    if Py.Qltb current_price (lower bands)
    then (buy + 15, sell, reasons ++ ["Price below lower Bollinger Band"])
    else if Py.Qltb (upper bands) current_price
    then (buy, sell + 15, reasons ++ ["Price above upper Bollinger Band"])
    else (buy, sell, reasons) in
  (* Regime-based adjustments *)
  let '(buy, sell, reasons) :=
    if String.eqb regime "strong_uptrend" || String.eqb regime "uptrend"
    then (buy + 20, sell, reasons ++ [String.append "Market in " regime])
    else if String.eqb regime "strong_downtrend" || String.eqb regime "downtrend"
    then (buy, sell + 20, reasons ++ [String.append "Market in " regime])
    else if String.eqb regime "oversold_bounce"
    then (buy + 15, sell, reasons ++ ["Oversold bounce opportunity"])
    else (buy, sell, reasons) in
  (* Overall signal *)
  if Py.Qltb sell buy then
    {| buy_strength := buy; sell_strength := sell;
       ts_confidence := Py.min buy 100; ts_reasons := reasons;
       ts_signal := "BUY" |}
  else if Py.Qltb buy sell then
    {| buy_strength := buy; sell_strength := sell;
       ts_confidence := Py.min sell 100; ts_reasons := reasons;
       ts_signal := "SELL" |}
  else
    {| buy_strength := buy; sell_strength := sell;
       ts_confidence := 50; ts_reasons := reasons;
       ts_signal := "HOLD" |}.



End TechnicalIndicators.

(** ** services/multi_timeframe_analysis.py *)

Module MultiTimeframeAnalysis.

(** The values of the ['trend'] key written by [_analyze_timeframe]. *)
Inductive trend : Type := bullish | bearish | neutral.

(** The values of the ['alignment'] key. *)
Inductive alignment : Type :=
  | strong_bullish
  | align_bullish
  | strong_bearish
  | align_bearish
  | mixed
  | none.

(** The values of the ['action'] key of a recommendation. *)
Inductive action : Type := BUY | SELL | HOLD | AVOID.

Record timeframe : Type := {
  tf_trend : trend;
  tf_strength : Q;
  tf_rsi : Q;
  valid : bool
}.

(** The analysis dictionary: the four synthetic timeframes in the order
    ['5m'], ['15m'], ['1h'], ['4h'], then the two summary keys. *)
Record timeframes : Type := {
  tf_5m : timeframe;
  tf_15m : timeframe;
  tf_1h : timeframe;
  tf_4h : timeframe
}.

Record analysis : Type := {
  frames : timeframes;
  mtf_alignment : alignment;
  mtf_strength : Q
}.

Definition trend_eqb (a b : trend) : bool :=
  match a, b with
  | bullish, bullish | bearish, bearish | neutral, neutral => true
  | _, _ => false
  end.

(** [trends.count(x)]. *)
Definition count (x : trend) (trends : list trend) : nat :=
  length (List.filter (fun t => trend_eqb t x) trends).

(** The trends of the valid timeframes, in the order of the loop. *)
Definition valid_trends (a : timeframes) : list trend :=
  map tf_trend (List.filter valid [tf_5m a; tf_15m a; tf_1h a; tf_4h a]).

Definition _calculate_alignment (a : timeframes) : alignment :=
  let trends := valid_trends a in
  match trends with
  | [] => none
  | _ :: _ =>
    let bullish_count := count bullish trends in
    let bearish_count := count bearish trends in
    if (3 <=? bullish_count)%nat then strong_bullish
    else if (2 <=? bullish_count)%nat then align_bullish
    else if (3 <=? bearish_count)%nat then strong_bearish
    else if (2 <=? bearish_count)%nat then align_bearish
    else mixed
  end.

Record recommendation : Type := {
  rec_action : action;
  confidence : Q;
  reasons : list string
}.

Definition is_alignment (a b : alignment) : bool :=
  match a, b with
  | strong_bullish, strong_bullish | align_bullish, align_bullish
  | strong_bearish, strong_bearish | align_bearish, align_bearish
  | mixed, mixed | none, none => true
  | _, _ => false
  end.

Definition get_trading_recommendation
  (mtf_analysis : analysis) (current_position : bool) : recommendation :=
  let alignment := mtf_alignment mtf_analysis in
  let strength := mtf_strength mtf_analysis in
  if is_alignment alignment strong_bullish && Py.Qltb 3 strength then
    {| rec_action := if negb current_position then BUY else HOLD;
       confidence := Py.min (70 + strength * 3) 95;
       reasons := ["All timeframes bullish"] |}
  else if is_alignment alignment strong_bearish && Py.Qltb strength (-3) then
    {| rec_action := if current_position then SELL else AVOID;
       confidence := Py.min (70 + Py.abs strength * 3) 95;
       reasons := ["All timeframes bearish"] |}
  else if is_alignment alignment align_bullish && Py.Qltb 2 strength then
    {| rec_action := if negb current_position then BUY else HOLD;
       confidence := 60 + strength * 2;
       reasons := ["Multiple timeframes bullish"] |}
  else if is_alignment alignment align_bearish && Py.Qltb strength (-2) then
    {| rec_action := if current_position then SELL else AVOID;
       confidence := 60 + Py.abs strength * 2;
       reasons := ["Multiple timeframes bearish"] |}
  else
    {| rec_action := HOLD;
       confidence := 40;
       reasons := ["Mixed timeframe signals - waiting for clarity"] |}.

(** The dictionary of a timeframe without enough data; also
    [default_tf] of [_default_analysis]. *)
Definition invalid_timeframe : timeframe :=
  {| tf_trend := neutral; tf_strength := 0; tf_rsi := 50; valid := false |}.

(** [_analyze_timeframe(prices, timeframe)]; the name of the timeframe is
    not used by the code. *)
Definition _analyze_timeframe (prices : list Q) : timeframe :=
  if (length prices <? 10)%nat then invalid_timeframe
  else
    let rsi :=
      TechnicalIndicators.calculate_rsi prices (Nat.min 14 (length prices - 1)) in
    let '(short_ma, long_ma) :=
      if (20 <=? length prices)%nat
      then (Py.mean (Py.last_n 10 prices), Py.mean (Py.last_n 20 prices))
      else (Py.mean (Py.last_n 5 prices), Py.mean prices) in
    let trend_diff :=
      if Py.Qltb 0 long_ma then (short_ma - long_ma) / long_ma * 100 else 0 in
    let '(trend, strength) :=
      if Py.Qltb 2 trend_diff then (bullish, Py.min trend_diff 10)
      else if Py.Qltb trend_diff (-2) then (bearish, Py.min (Py.abs trend_diff) 10)
      else (neutral, 0) in
    {| tf_trend := trend; tf_strength := Py.round strength 2;
       tf_rsi := rsi; valid := true |}.

(** The signed strengths of the valid timeframes, in the order of the
    loop. *)
Definition signed_strengths (a : timeframes) : list Q :=
  map (fun tf =>
         if trend_eqb (tf_trend tf) bearish then - tf_strength tf
         else tf_strength tf)
      (List.filter valid [tf_5m a; tf_15m a; tf_1h a; tf_4h a]).

Definition _calculate_trend_strength (a : timeframes) : Q :=
  let strengths := signed_strengths a in
  match strengths with
  | [] => 0
  | _ :: _ =>
    let weights := take (length strengths) [1; 3 # 2; 2; 3] in
    let weighted_strength :=
      Py.sum (zip_with Qmult strengths weights) / Py.sum weights in
    Py.round weighted_strength 2
  end.

Definition _default_analysis : analysis :=
  {| frames := {| tf_5m := invalid_timeframe; tf_15m := invalid_timeframe;
                  tf_1h := invalid_timeframe; tf_4h := invalid_timeframe |};
     mtf_alignment := none;
     mtf_strength := 0 |}.

(** [analyze_timeframes(prices)].  Nothing in the [try] block raises on
    rationals, so the [except] clause is never taken. *)
Definition analyze_timeframes (prices : list Q) : analysis :=
  if (length prices <? 50)%nat then _default_analysis
  else
    let tf_5m := Py.last_n 20 prices in
    let tf_15m := Py.stride 3 (Py.last_n 60 prices) in
    let tf_1h := Py.stride 12 (Py.last_n 100 prices) in
    let tf_4h := Py.stride 48 prices in
    let a :=
      {| tf_5m := _analyze_timeframe tf_5m;
         tf_15m := _analyze_timeframe tf_15m;
         tf_1h := _analyze_timeframe tf_1h;
         tf_4h := _analyze_timeframe tf_4h |} in
    {| frames := a;
       mtf_alignment := _calculate_alignment a;
       mtf_strength := _calculate_trend_strength a |}.

End MultiTimeframeAnalysis.

(** ** services/trading_service.py (the execution collaborator) *)

Module TradingService.

(** The dictionary returned by [place_market_order]: [success] and, on
    success, possibly [filled_price]. *)
Record order_result : Type := {
  success : bool;
  filled_price : option Q
}.

(** [_simulate_market_order(symbol, side, quantity)]; [slippage] is the draw
    of [random.uniform(0.001, 0.003)].  The quantity and the market price
    play no part in the simulated fill. *)
Definition _simulate_market_order (symbol side : string) (quantity : Q)
  (slippage : Q) : order_result :=
  let base_price :=
    if String.eqb symbol "BTC-USD" then 45000
    else if String.eqb symbol "ETH-USD" then 2500
    else 1000 in
  let filled_price :=
    base_price * (if String.eqb side "BUY" then 1 + slippage else 1 - slippage) in
  {| success := true; filled_price := Some (Py.round filled_price 2) |}.

End TradingService.

(** ** services/advanced_order_manager.py *)

Module AdvancedOrderManager.

Inductive order_status : Type := PENDING | EXECUTED | CANCELLED.

(** The ['type'] key together with the price keys an order of that type
    carries. *)
Inductive order_type : Type :=
  | LIMIT (limit_price : Q)
  | STOP_LIMIT (stop_price limit_price : Q)
  | OCO (take_profit_price stop_loss_price : Q).

(** An order dictionary.  An OCO order has no ['side'] key until one of its
    legs fires. *)
Record order : Type := {
  id : string;
  user_id : string;
  symbol : string;
  side : option string;
  type : order_type;
  quantity : Q;
  status : order_status;
  created_at : Db.timestamp;
  executed_reason : option string;
  executed_at : option Db.timestamp;
  executed_price : option Q;
  cancelled_at : option Db.timestamp
}.

Definition set_fired (o : order) (why : string) : order :=
  {| id := id o; user_id := user_id o; symbol := symbol o;
     side := Some "SELL"; type := type o; quantity := quantity o;
     status := status o; created_at := created_at o;
     executed_reason := Some why; executed_at := executed_at o;
     executed_price := executed_price o; cancelled_at := cancelled_at o |}.

Definition set_executed (o : order) (now : Db.timestamp) (price : option Q)
  : order :=
  {| id := id o; user_id := user_id o; symbol := symbol o;
     side := side o; type := type o; quantity := quantity o;
     status := EXECUTED; created_at := created_at o;
     executed_reason := executed_reason o; executed_at := Some now;
     executed_price := price; cancelled_at := cancelled_at o |}.

(** [$set: {status: EXECUTED, executed_at: ...}] on a stored document. *)
Definition db_set_executed (now : Db.timestamp) (o : order) : order :=
  set_executed o now (executed_price o).

(** [$set: {status: CANCELLED, cancelled_at: ...}] on a stored document. *)
Definition db_set_cancelled (now : Db.timestamp) (o : order) : order :=
  {| id := id o; user_id := user_id o; symbol := symbol o;
     side := side o; type := type o; quantity := quantity o;
     status := CANCELLED; created_at := created_at o;
     executed_reason := executed_reason o; executed_at := executed_at o;
     executed_price := executed_price o; cancelled_at := Some now |}.

(** The manager: [self.pending_orders], a dictionary in insertion order, and
    the collection [db.pending_orders], keyed by the ['id'] of its documents
    (a fresh [uuid4] per placement). *)
Record t : Type := {
  pending_orders : list (string * order);
  db_pending_orders : gmap string order
}.

Definition empty : t := {| pending_orders := []; db_pending_orders := ∅ |}.

(** [order_id in self.pending_orders], [del self.pending_orders[order_id]]
    and the write through a shared order object. *)
Definition mem (order_id : string) (index : list (string * order)) : bool :=
  existsb (fun kv => String.eqb (fst kv) order_id) index.

Definition del (order_id : string) (index : list (string * order))
  : list (string * order) :=
  List.filter (fun kv => negb (String.eqb (fst kv) order_id)) index.

Definition store (order_id : string) (o : order) (index : list (string * order))
  : list (string * order) :=
  map (fun kv => if String.eqb (fst kv) order_id then (fst kv, o) else kv) index.

Record placed : Type := {
  p_success : bool;
  p_order_id : string;
  p_status : order_status
}.

Definition new_order (order_id uid sym : string) (sd : option string)
  (ty : order_type) (qty : Q) (now : Db.timestamp) : order :=
  {| id := order_id; user_id := uid; symbol := sym; side := sd; type := ty;
     quantity := qty; status := PENDING; created_at := now;
     executed_reason := None; executed_at := None; executed_price := None;
     cancelled_at := None |}.

(** The tail shared by the three placement methods: insert the document,
    index the order, answer PENDING.  [self.pending_orders[id] = order]
    on a key already present would overwrite in place; a fresh key is
    appended. *)
Definition place (self : t) (o : order) : t * placed :=
  ({| pending_orders :=
        if mem (id o) (pending_orders self)
        then store (id o) o (pending_orders self)
        else pending_orders self ++ [(id o, o)];
      db_pending_orders := <[id o := o]> (db_pending_orders self) |},
   {| p_success := true; p_order_id := id o; p_status := PENDING |}).

Definition place_limit_order (self : t) (order_id : string) (now : Db.timestamp)
  (uid sym sd : string) (qty limit_price : Q) : t * placed :=
  place self (new_order order_id uid sym (Some sd) (LIMIT limit_price) qty now).

Definition place_stop_limit_order (self : t) (order_id : string)
  (now : Db.timestamp) (uid sym sd : string) (qty stop_price limit_price : Q)
  : t * placed :=
  place self
    (new_order order_id uid sym (Some sd) (STOP_LIMIT stop_price limit_price) qty now).

Definition place_oco_order (self : t) (order_id : string) (now : Db.timestamp)
  (uid sym : string) (qty take_profit_price stop_loss_price : Q) : t * placed :=
  place self
    (new_order order_id uid sym None (OCO take_profit_price stop_loss_price) qty now).

Definition side_is (o : order) (s : string) : bool :=
  match side o with
  | Some s' => String.eqb s' s
  | None => false
  end.

(** The trigger tests of one loop turn: the order as the turn leaves it (an
    OCO leg that fires writes ['side'] and ['executed_reason']) and
    [should_execute]. *)
Definition trigger (o : order) (current_price : Q) : order * bool :=
  match type o with
  | LIMIT limit_price =>
    if side_is o "BUY" && Py.Qleb current_price limit_price then (o, true)
    else if side_is o "SELL" && Py.Qleb limit_price current_price then (o, true)
    else (o, false)
  | STOP_LIMIT stop_price limit_price =>
    if side_is o "BUY" && Py.Qleb stop_price current_price
    then (o, Py.Qleb current_price limit_price)
    else if side_is o "SELL" && Py.Qleb current_price stop_price
    then (o, Py.Qleb limit_price current_price)
    else (o, false)
  | OCO take_profit_price stop_loss_price =>
    if Py.Qleb take_profit_price current_price
    then (set_fired o "Take Profit", true)
    else if Py.Qleb current_price stop_loss_price
    then (set_fired o "Stop Loss", true)
    else (o, false)
  end.

(** One turn of the loop of [check_pending_orders] for the entry
    [(order_id, o)] of the snapshot [list(self.pending_orders.items())].
    [place_market_order o'] is the collaborator's answer to the call made
    for this order. *)
Definition check_order
  (current_prices : gmap string Q)
  (place_market_order : order -> TradingService.order_result)
  (now : Db.timestamp)
  (acc : t * list order) (entry : string * order) : t * list order :=
  let '(self, executed_orders) := acc in
  let '(order_id, o) := entry in
  let current_price := Py.get (current_prices !! symbol o) 0 in
  if Py.Qeqb current_price 0 then acc
  else
    let '(o, should_execute) := trigger o current_price in
    let index := store order_id o (pending_orders self) in
    if should_execute then
      let result := place_market_order o in
      if TradingService.success result then
        let o :=
          set_executed o now
            (Some (Py.get (TradingService.filled_price result) current_price)) in
        ({| pending_orders := del order_id index;
            db_pending_orders :=
              alter (db_set_executed now) order_id (db_pending_orders self) |},
         executed_orders ++ [o])
      else
        ({| pending_orders := index;
            db_pending_orders := db_pending_orders self |}, executed_orders)
    else
      ({| pending_orders := index;
          db_pending_orders := db_pending_orders self |}, executed_orders).

Definition check_pending_orders (self : t)
  (current_prices : gmap string Q)
  (place_market_order : order -> TradingService.order_result)
  (now : Db.timestamp) : t * list order :=
  foldl (check_order current_prices place_market_order now)
        (self, []) (pending_orders self).

Record response : Type := {
  r_success : bool;
  r_message : string
}.

Definition cancel_order (self : t) (order_id : string) (now : Db.timestamp)
  : t * response :=
  if mem order_id (pending_orders self) then
    ({| pending_orders := del order_id (pending_orders self);
        db_pending_orders :=
          alter (db_set_cancelled now) order_id (db_pending_orders self) |},
     {| r_success := true; r_message := "Order cancelled" |})
  else
    (self, {| r_success := false; r_message := "Order not found" |}).

End AdvancedOrderManager.

(** ** services/ai_analysis_service.py *)

Module AIAnalysisService.

(** The keys of the parsed model response that [analyze_market] reads. *)
Record response : Type := {
  r_regime : option string;
  r_recommendation : option string;
  r_confidence : option Q;
  r_reasoning : option string;
  r_risks : option string
}.

(** How the conversation with the model ends: an exception, a text that is
    not JSON, or a parsed response. *)
Inductive chat : Type :=
  | raised (message : string)
  | unparsable (text : string)
  | parsed (r : response).

(** The dictionary returned by [analyze_market] (without the symbol and the
    timestamp). *)
Record analysis : Type := {
  regime : string;
  signal : string;
  confidence : Q;
  ai_analysis : string;
  risks : string;
  buy_recommendation : bool
}.

Definition analyze_market (outcome : chat) : analysis :=
  match outcome with
  | parsed r =>
    {| regime := Py.get (r_regime r) "trend";
       signal := Py.get (r_recommendation r) "HOLD";
       confidence := Py.get (r_confidence r) 50;
       ai_analysis := Py.get (r_reasoning r) EmptyString;
       risks := Py.get (r_risks r) EmptyString;
       buy_recommendation :=
         match r_recommendation r with
         | Some s => String.eqb s "BUY"
         | None => false
         end |}
  | unparsable text =>
    {| regime := "trend"; signal := "HOLD"; confidence := 50;
       ai_analysis := String.substring 0 200 text;
       risks := "Unable to parse full analysis";
       buy_recommendation := false |}
  | raised message =>
    {| regime := "neutral"; signal := "HOLD"; confidence := 0;
       ai_analysis :=
         String.append "Analysis temporarily unavailable: " message;
       risks := "System error";
       buy_recommendation := false |}
  end.

End AIAnalysisService.

(** ** services/bot_engine.py *)

Module BotEngine.

(** The text stored under [ai_reasoning] of a SELL trade; a constructor per
    message of [check_sell_signal], with the number the message formats.
    [no_reason] is the initial empty string. *)
Inductive sell_reason : Type :=
  | no_reason
  | trailing_stop (drawdown_from_high : Q)
  | profit_target
  | stop_loss
  | technical_sell (confidence : Q)
  | rsi_overbought (rsi : Q)
  | regime_change (regime : string)
  | combined_sell
  | time_based_exit.

Inductive reasoning : Type :=
  | ai_text (text : option string)
  | exit_rule (why : sell_reason).

(** A document of [db.trades]. *)
Record trade : Type := {
  t_user_id : string;
  t_symbol : string;
  t_side : string;
  t_quantity : Q;
  t_filled_price : Q;
  t_reasoning : reasoning;
  t_regime : option string;
  t_pnl : option Q;
  t_pnl_percent : option Q;
  t_created_at : Db.timestamp
}.

(** The collections the engine writes, each in insertion order. *)
Record db : Type := {
  positions : list Db.position;
  trades : list trade;
  risk_metrics : list Db.snapshot
}.

(** The engine: the database, the market orders handed to the execution
    collaborator so far, and the shared price-history cache. *)
Record t : Type := {
  store : db;
  submitted : list (string * string * Q);
  price_history_cache : gmap string (list Q)
}.

(** The keys of the enhanced analysis that the entry and exit evaluations
    read.  [a_heat_percent] is [analysis['portfolio_heat']['heat_percent']],
    [a_rsi] and [a_tech_regime] are the keys under
    [analysis['technical_indicators']]. *)
Record analysis : Type := {
  a_confidence : option Q;
  a_buy_recommendation : option bool;
  a_heat_percent : option Q;
  a_signal : option string;
  a_combined_confidence : option Q;
  a_rsi : option Q;
  a_tech_regime : option string;
  a_ai_analysis : option string;
  a_regime : option string
}.

Record tech_signals : Type := {
  ts_signal : option string;
  ts_confidence : option Q
}.

Definition as_signal (a : analysis) : RiskManager.signal :=
  {| RiskManager.sig_confidence := a_confidence a;
     RiskManager.sig_buy_recommendation := a_buy_recommendation a |}.

Definition of_user (user_id : string) (s : Db.snapshot) : bool :=
  String.eqb (Db.s_user_id s) user_id.

(** The position in the collection of the document that
    [find_one({user_id}, sort=[(timestamp, -1)])] answers: the tenant's
    snapshot with the greatest timestamp. *)
Fixpoint latest_from (user_id : string) (coll : list Db.snapshot) (i : nat)
  (best : option (nat * Db.timestamp)) : option nat :=
  match coll with
  | [] => option_map fst best
  | s :: rest =>
    let best' :=
      if of_user user_id s then
        match best with
        | Some (_, ts) =>
          if (ts <? Db.s_timestamp s)%Z then Some (i, Db.s_timestamp s) else best
        | None => Some (i, Db.s_timestamp s)
        end
      else best in
    latest_from user_id rest (S i) best'
  end.

Definition latest_index (user_id : string) (coll : list Db.snapshot)
  : option nat :=
  latest_from user_id coll 0 None.

Definition find_latest (user_id : string) (coll : list Db.snapshot)
  : option Db.snapshot :=
  match latest_index user_id coll with
  | Some i => coll !! i
  | None => None
  end.

(** [analyze_and_trade], step 6 (lines 203-216): the tenant's latest
    snapshot is the risk-metrics dictionary handed to the entry evaluation;
    without a snapshot the engine takes the defaults. *)
Definition as_metrics (s : Db.snapshot) : RiskManager.risk_metrics :=
  {| RiskManager.rm_total_equity := Db.s_total_equity s;
     RiskManager.rm_max_equity := Db.s_max_equity s;
     RiskManager.rm_daily_pnl := Db.s_daily_pnl s;
     RiskManager.rm_cash_balance := Db.s_cash_balance s |}.

Definition current_risk_metrics (user_id : string) (coll : list Db.snapshot)
  : RiskManager.risk_metrics :=
  match find_latest user_id coll with
  | Some s => as_metrics s
  | None =>
    {| RiskManager.rm_total_equity := Some 10000;
       RiskManager.rm_max_equity := Some 10000;
       RiskManager.rm_daily_pnl := Some 0;
       RiskManager.rm_cash_balance := Some 10000 |}
  end.

(** [find_one({user_id, timestamp: {$gte: start}}, sort=[(timestamp, 1)])]:
    the tenant's earliest snapshot at or after [start]. *)
Definition find_first_since (user_id : string) (start : Db.timestamp)
  (coll : list Db.snapshot) : option Db.snapshot :=
  foldl
    (fun best s =>
       if of_user user_id s && (start <=? Db.s_timestamp s)%Z then
         match best with
         | Some b =>
           if (Db.s_timestamp s <? Db.s_timestamp b)%Z then Some s else best
         | None => Some s
         end
       else best)
    None coll.

Definition set_cash (new_cash : Q) (s : Db.snapshot) : Db.snapshot :=
  {| Db.s_user_id := Db.s_user_id s;
     Db.s_total_equity := Db.s_total_equity s;
     Db.s_max_equity := Db.s_max_equity s;
     Db.s_equity_floor := Db.s_equity_floor s;
     Db.s_current_drawdown := Db.s_current_drawdown s;
     Db.s_daily_pnl := Db.s_daily_pnl s;
     Db.s_positions_value := Db.s_positions_value s;
     Db.s_cash_balance := Some new_cash;
     Db.s_timestamp := Db.s_timestamp s |}.

(** [update_one({user_id}, {$set: {cash_balance}}, sort=[(timestamp, -1)])]. *)
Definition update_cash (user_id : string) (new_cash : Q)
  (coll : list Db.snapshot) : list Db.snapshot :=
  match latest_index user_id coll with
  | Some i => alter (set_cash new_cash) i coll
  | None => coll
  end.

(** [find({user_id}).to_list(100)]. *)
Definition positions_of (user_id : string) (ps : list Db.position)
  : list Db.position :=
  take 100 (List.filter (fun p => String.eqb (Db.p_user_id p) user_id) ps).

(** [update_risk_metrics(user_id)] on the snapshot collection; [now] is the
    clock reading stored as the timestamp and [today_start] is midnight of
    the current day. *)
Definition update_risk_metrics (user_id : string)
  (now today_start : Db.timestamp)
  (all_positions : list Db.position) (coll : list Db.snapshot)
  : list Db.snapshot :=
  let positions := positions_of user_id all_positions in
  let positions_value := Py.sum (map Db.p_quantity positions) in
  let total_pnl := Py.sum (map (fun p => Py.get (Db.p_pnl p) 0) positions) in
  let prev_metrics := find_latest user_id coll in
  let '(starting_equity, cash_balance, max_equity) :=
    match prev_metrics with
    | Some prev =>
      (Py.get (Db.s_max_equity prev) 10000,
       Py.get (Db.s_cash_balance prev) 10000,
       Py.get (Db.s_max_equity prev) 10000)
    | None => (10000, 10000, 10000)
    end in
  let total_equity := cash_balance + positions_value + total_pnl in
  let max_equity :=
    if Py.Qltb max_equity total_equity then total_equity else max_equity in
  let equity_floor := max_equity * (97 # 100) in
  let current_drawdown :=
    if Py.Qltb 0 max_equity
    then (max_equity - total_equity) / max_equity * 100
    else 0 in
  let daily_start_equity :=
    match find_first_since user_id today_start coll with
    | Some first => Py.get (Db.s_total_equity first) starting_equity
    | None => starting_equity
    end in
  let daily_pnl := total_equity - daily_start_equity in
  coll ++
  [ {| Db.s_user_id := user_id;
       Db.s_total_equity := Some total_equity;
       Db.s_max_equity := Some max_equity;
       Db.s_equity_floor := equity_floor;
       Db.s_current_drawdown := current_drawdown;
       Db.s_daily_pnl := Some daily_pnl;
       Db.s_positions_value := positions_value;
       Db.s_cash_balance := Some cash_balance;
       Db.s_timestamp := now |} ].

(** The log line a call of [check_buy_signal] ends with (the source line in
    brackets). *)
Inductive buy_log : Type :=
  | not_approved (reason : string)                (* [315] *)
  | no_buy_recommendation                         (* [319] *)
  | heat_too_high (heat_percent : Q)              (* [327] *)
  | high_correlation (max_correlation : Q) (correlated_with : option string)
                                                  (* [338] *)
  | size_too_small (position_size : Q)            (* [353] *)
  | not_approved_after_sizing (reason : string)   (* [405] *)
  | buy_raised.

(** Lines 356-403 of [check_buy_signal]: submit the market BUY and, on
    success, record the trade and the position and take the size off the
    cash balance.  The block stands after the [return] of the size test,
    inside its [if]; no execution reaches it. *)
Definition open_position (self : t) (user_id symbol : string) (a : analysis)
  (metrics : RiskManager.risk_metrics) (current_price position_size : Q)
  (now : Db.timestamp) (order_result : TradingService.order_result) : t :=
  let submitted' := submitted self ++ [(symbol, "BUY", position_size)] in
  if TradingService.success order_result then
    let filled_price :=
      Py.get (TradingService.filled_price order_result) current_price in
    let trade :=
      {| t_user_id := user_id; t_symbol := symbol; t_side := "BUY";
         t_quantity := position_size; t_filled_price := filled_price;
         t_reasoning := ai_text (a_ai_analysis a); t_regime := a_regime a;
         t_pnl := None; t_pnl_percent := None; t_created_at := now |} in
    let position :=
      {| Db.p_user_id := user_id; Db.p_symbol := symbol;
         Db.p_quantity := position_size; Db.p_avg_price := filled_price;
         Db.p_current_price := filled_price; Db.p_pnl := Some 0;
         Db.p_pnl_percent := Some 0; Db.p_high_water_mark := None;
         Db.p_created_at := now |} in
    let new_cash :=
      Py.get (RiskManager.rm_cash_balance metrics) 10000 - position_size in
    {| store :=
         {| positions := positions (store self) ++ [position];
            trades := trades (store self) ++ [trade];
            risk_metrics :=
              update_cash user_id new_cash (risk_metrics (store self)) |};
       submitted := submitted';
       price_history_cache := price_history_cache self |}
  else
    {| store := store self; submitted := submitted';
       price_history_cache := price_history_cache self |}.

(** [check_buy_signal]: every path ends in a log line and leaves the engine
    as it was.  The [else] of line 404 belongs to the size test of line 352,
    so a size of at least 10 is answered by the log line of line 405. *)
Definition check_buy_signal (self : t) (user_id symbol : string) (a : analysis)
  (metrics : RiskManager.risk_metrics) (current_price : Q)
  (all_positions : list Db.position) : t * buy_log :=
  let validation :=
    RiskManager.validate_trade RiskManager.default (as_signal a) metrics in
  if negb (RiskManager.approved validation)
  then (self, not_approved (RiskManager.reason validation))
  else if negb (Py.get (a_buy_recommendation a) false)
  then (self, no_buy_recommendation)
  else if Py.Qleb 15 (Py.get (a_heat_percent a) 0)
  then (self, heat_too_high (Py.get (a_heat_percent a) 0))
  else
    let correlation_check :=
      AdvancedRiskManager.check_correlation_risk
        symbol all_positions (price_history_cache self) in
    if negb (AdvancedRiskManager.allowed correlation_check)
    then (self,
          high_correlation
            (AdvancedRiskManager.cc_max_correlation correlation_check)
            (AdvancedRiskManager.correlated_with correlation_check))
    else
      let current_heat := Py.get (a_heat_percent a) 0 / 100 in
      match
        AdvancedRiskManager.calculate_optimal_position_size
          (Py.get (a_confidence a) 0 / 100) (10 # 100)
          (Py.get (RiskManager.rm_total_equity metrics) 10000)
          current_heat (15 # 100)
      with
      | None => (self, buy_raised)
      | Some position_size =>
        if Py.Qltb position_size 10
        then (self, size_too_small position_size)
        else (self, not_approved_after_sizing (RiskManager.reason validation))
      end.

Definition is_string (field : option string) (s : string) : bool :=
  match field with
  | Some s' => String.eqb s' s
  | None => false
  end.

(** The exit rules of [check_sell_signal], lines 428-482: the [if]/[elif]
    chain of rules 1 to 7, then the separate [if] of rule 8. *)
Definition sell_rules (pnl_percent drawdown_from_high : Q) (a : analysis)
  (tech : tech_signals) (hours_held : Q) : bool * sell_reason :=
  let rsi := Py.get (a_rsi a) 50 in
  let regime := Py.get (a_tech_regime a) "neutral" in
  let trailing_stop_percent := 2 in
  let '(should_sell, why) :=
    if Py.Qltb 3 pnl_percent && Py.Qleb trailing_stop_percent drawdown_from_high
    then (true, trailing_stop drawdown_from_high)
    else if Py.Qleb 5 pnl_percent
    then (true, profit_target)
    else if Py.Qleb pnl_percent (-3)
    then (true, stop_loss)
    else if is_string (ts_signal tech) "SELL"
            && Py.Qltb 70 (Py.get (ts_confidence tech) 0)
    then (true, technical_sell (Py.get (ts_confidence tech) 0))
    else if Py.Qltb 70 rsi && Py.Qltb 2 pnl_percent
    then (true, rsi_overbought rsi)
    else if (String.eqb regime "strong_downtrend" || String.eqb regime "downtrend")
            && Py.Qltb pnl_percent 3
    then (true, regime_change regime)
    else if (is_string (a_signal a) "SELL"
             || negb (Py.get (a_buy_recommendation a) false))
            && is_string (ts_signal tech) "SELL"
    then
      if Py.Qltb 60 (Py.get (a_combined_confidence a) 0)
      then (true, combined_sell)
      else (false, no_reason)
    else (false, no_reason) in
  if Py.Qltb 24 hours_held && Py.Qltb pnl_percent 2
  then (true, time_based_exit)
  else (should_sell, why).

Definition same_position (user_id symbol : string) (p : Db.position) : bool :=
  String.eqb (Db.p_user_id p) user_id && String.eqb (Db.p_symbol p) symbol.

Definition set_high_water_mark (hwm : Q) (p : Db.position) : Db.position :=
  {| Db.p_user_id := Db.p_user_id p; Db.p_symbol := Db.p_symbol p;
     Db.p_quantity := Db.p_quantity p; Db.p_avg_price := Db.p_avg_price p;
     Db.p_current_price := Db.p_current_price p; Db.p_pnl := Db.p_pnl p;
     Db.p_pnl_percent := Db.p_pnl_percent p;
     Db.p_high_water_mark := Some hwm;
     Db.p_created_at := Db.p_created_at p |}.

(** [update_one] and [delete_one] on [db.positions]: the first match. *)
Fixpoint update_first (f : Db.position -> Db.position)
  (user_id symbol : string) (ps : list Db.position) : list Db.position :=
  match ps with
  | [] => []
  | p :: rest =>
    if same_position user_id symbol p then f p :: rest
    else p :: update_first f user_id symbol rest
  end.

Fixpoint delete_first (user_id symbol : string) (ps : list Db.position)
  : list Db.position :=
  match ps with
  | [] => []
  | p :: rest =>
    if same_position user_id symbol p then rest
    else p :: delete_first user_id symbol rest
  end.

Definition set_pnl (current_price pnl pnl_percent : Q) (p : Db.position)
  : Db.position :=
  {| Db.p_user_id := Db.p_user_id p; Db.p_symbol := Db.p_symbol p;
     Db.p_quantity := Db.p_quantity p; Db.p_avg_price := Db.p_avg_price p;
     Db.p_current_price := current_price; Db.p_pnl := Some pnl;
     Db.p_pnl_percent := Some pnl_percent;
     Db.p_high_water_mark := Db.p_high_water_mark p;
     Db.p_created_at := Db.p_created_at p |}.

(** One turn of the loop of [update_positions] for the [i]-th document found.
    [get_current_price i symbol] is the ['price'] key of the market service's
    answer to the call of that turn, if the answer has one.  An average price
    of zero raises in the division; the [except] of the loop logs it and the
    turn writes nothing. *)
Definition update_position (get_current_price : nat -> string -> option Q)
  (user_id : string) (ps : list Db.position) (turn : nat * Db.position)
  : list Db.position :=
  let '(i, position) := turn in
  let current_price :=
    Py.get (get_current_price i (Db.p_symbol position)) (Db.p_avg_price position) in
  let quantity := Db.p_quantity position in
  let avg_price := Db.p_avg_price position in
  if Py.Qeqb avg_price 0 then ps
  else
    let position_value := quantity / avg_price * current_price in
    let pnl := position_value - quantity in
    let pnl_percent := if Py.Qltb 0 quantity then pnl / quantity * 100 else 0 in
    update_first (set_pnl current_price pnl pnl_percent) user_id
      (Db.p_symbol position) ps.

(** [update_positions(user_id)] on the position collection. *)
Definition update_positions (get_current_price : nat -> string -> option Q)
  (user_id : string) (ps : list Db.position) : list Db.position :=
  foldl (update_position get_current_price user_id) ps
        (imap pair (positions_of user_id ps)).

Inductive sell_outcome : Type :=
  | held
  | sold (why : sell_reason)
  | order_failed (why : sell_reason)
  | sell_raised.

Definition microseconds_per_hour : Z := 3600000000.

(** [check_sell_signal]; [now] is the clock reading and [order_result] the
    answer of the execution collaborator, should the engine ask.  The outcome
    is [sell_raised] where the code raises: a division by an average price of
    zero, or no snapshot to credit after the sale was recorded. *)
Definition check_sell_signal (self : t) (user_id symbol : string)
  (position : Db.position) (a : analysis) (current_price : Q)
  (tech : tech_signals) (now : Db.timestamp)
  (order_result : TradingService.order_result) : t * sell_outcome :=
  let quantity := Db.p_quantity position in
  let avg_price := Db.p_avg_price position in
  if Py.Qeqb avg_price 0 then (self, sell_raised)
  else
    let position_value := quantity / avg_price * current_price in
    let pnl := position_value - quantity in
    let pnl_percent := if Py.Qltb 0 quantity then pnl / quantity * 100 else 0 in
    let high_water_mark := Py.get (Db.p_high_water_mark position) avg_price in
    let raised_mark := Py.Qltb high_water_mark current_price in
    let high_water_mark := if raised_mark then current_price else high_water_mark in
    let positions1 :=
      if raised_mark
      then update_first (set_high_water_mark high_water_mark) user_id symbol
             (positions (store self))
      else positions (store self) in
    let drawdown_from_high :=
      if Py.Qltb 0 high_water_mark
      then (high_water_mark - current_price) / high_water_mark * 100
      else 0 in
    let hours_held :=
      inject_Z (now - Db.p_created_at position) / inject_Z microseconds_per_hour in
    let '(should_sell, why) :=
      sell_rules pnl_percent drawdown_from_high a tech hours_held in
    let db1 :=
      {| positions := positions1; trades := trades (store self);
         risk_metrics := risk_metrics (store self) |} in
    if should_sell then
      let submitted' := submitted self ++ [(symbol, "SELL", quantity)] in
      if TradingService.success order_result then
        let filled_price :=
          Py.get (TradingService.filled_price order_result) current_price in
        let final_value := quantity / avg_price * filled_price in
        let final_pnl := final_value - quantity in
        let trade :=
          {| t_user_id := user_id; t_symbol := symbol; t_side := "SELL";
             t_quantity := quantity; t_filled_price := filled_price;
             t_reasoning := exit_rule why; t_regime := a_regime a;
             t_pnl := Some final_pnl; t_pnl_percent := Some pnl_percent;
             t_created_at := now |} in
        let trades2 := trades (store self) ++ [trade] in
        let positions2 := delete_first user_id symbol positions1 in
        match find_latest user_id (risk_metrics (store self)) with
        | None =>
          ({| store :=
                {| positions := positions2; trades := trades2;
                   risk_metrics := risk_metrics (store self) |};
              submitted := submitted';
              price_history_cache := price_history_cache self |},
           sell_raised)
        | Some latest =>
          let new_cash := Py.get (Db.s_cash_balance latest) 10000 + final_value in
          ({| store :=
                {| positions := positions2; trades := trades2;
                   risk_metrics :=
                     update_cash user_id new_cash (risk_metrics (store self)) |};
              submitted := submitted';
              price_history_cache := price_history_cache self |},
           sold why)
        end
      else
        ({| store := db1; submitted := submitted';
            price_history_cache := price_history_cache self |},
         order_failed why)
    else
      ({| store := db1; submitted := submitted self;
          price_history_cache := price_history_cache self |},
       held).

(** The string of a recommended action. *)
Definition action_name (a : MultiTimeframeAnalysis.action) : string :=
  match a with
  | MultiTimeframeAnalysis.BUY => "BUY"
  | MultiTimeframeAnalysis.SELL => "SELL"
  | MultiTimeframeAnalysis.HOLD => "HOLD"
  | MultiTimeframeAnalysis.AVOID => "AVOID"
  end.

(** [analyze_and_trade], lines 254-270: the weighted confidence, reduced
    when the three signals are not all the same and raised, up to 95, when
    they are. *)
Definition combine_confidence (ai_confidence tech_confidence mtf_confidence : Q)
  (tech_signal mtf_action combined_signal : string) : Q :=
  let combined_confidence :=
    ai_confidence * (4 # 10) + tech_confidence * (3 # 10)
    + mtf_confidence * (3 # 10) in
  let signals := [tech_signal; mtf_action; combined_signal] in
  let combined_confidence :=
    if (1 <? length (remove_dups signals))%nat
    then combined_confidence * (75 # 100)
    else combined_confidence in
  if String.eqb tech_signal mtf_action && String.eqb mtf_action combined_signal
  then Py.min (combined_confidence * (115 # 100)) 95
  else combined_confidence.

Inductive cycle_outcome : Type :=
  | exit_evaluated (outcome : sell_outcome)
  | entry_evaluated (log : buy_log).

(** [analyze_and_trade(user_id, symbol, config)].  The inputs after the
    symbol are the answers of the collaborators: the ['price'] key of the
    market service, the historical prices, the Bollinger bands computed from
    them (a square root, taken as given), the analysis of the AI service,
    the clock and the answer of the execution service.  The document
    inserted into [market_analysis] is not part of the state. *)
Definition analyze_and_trade (self : t) (user_id symbol : string)
  (price : option Q) (historical_prices : list Q)
  (bands : TechnicalIndicators.bollinger) (ai : AIAnalysisService.analysis)
  (now : Db.timestamp) (order_result : TradingService.order_result)
  : t * cycle_outcome :=
  let current_price := Py.get price 0 in
  let self :=
    {| store := store self; submitted := submitted self;
       price_history_cache :=
         <[symbol := historical_prices]> (price_history_cache self) |} in
  let rsi := TechnicalIndicators.calculate_rsi historical_prices 14 in
  let macd := TechnicalIndicators.calculate_macd historical_prices 12 26 9 in
  let mtf_analysis := MultiTimeframeAnalysis.analyze_timeframes historical_prices in
  let regime :=
    TechnicalIndicators.detect_market_regime historical_prices rsi macd bands in
  let tech :=
    TechnicalIndicators.generate_trading_signals rsi macd bands current_price
      regime in
  let metrics := current_risk_metrics user_id (risk_metrics (store self)) in
  let all_positions := positions_of user_id (positions (store self)) in
  let portfolio_heat :=
    AdvancedRiskManager.calculate_portfolio_heat all_positions
      (Py.get (RiskManager.rm_total_equity metrics) 10000) in
  let existing_position :=
    List.find (same_position user_id symbol) (positions (store self)) in
  let mtf_recommendation :=
    MultiTimeframeAnalysis.get_trading_recommendation mtf_analysis
      (match existing_position with Some _ => true | None => false end) in
  let tech_signal := TechnicalIndicators.ts_signal tech in
  let mtf_action := action_name (MultiTimeframeAnalysis.rec_action mtf_recommendation) in
  let combined_confidence :=
    combine_confidence (AIAnalysisService.confidence ai)
      (TechnicalIndicators.ts_confidence tech)
      (MultiTimeframeAnalysis.confidence mtf_recommendation)
      tech_signal mtf_action (AIAnalysisService.signal ai) in
  let enhanced_analysis :=
    {| a_confidence := Some (AIAnalysisService.confidence ai);
       a_buy_recommendation := Some (AIAnalysisService.buy_recommendation ai);
       a_heat_percent := Some (AdvancedRiskManager.heat_percent portfolio_heat);
       a_signal := Some (AIAnalysisService.signal ai);
       a_combined_confidence := Some combined_confidence;
       a_rsi := Some rsi;
       a_tech_regime := Some regime;
       a_ai_analysis := Some (AIAnalysisService.ai_analysis ai);
       a_regime := Some (AIAnalysisService.regime ai) |} in
  match existing_position with
  | Some position =>
    let '(self, outcome) :=
      check_sell_signal self user_id symbol position enhanced_analysis
        current_price
        {| ts_signal := Some tech_signal;
           ts_confidence := Some (TechnicalIndicators.ts_confidence tech) |}
        now order_result in
    (self, exit_evaluated outcome)
  | None =>
    let enhanced_analysis :=
      {| a_confidence := Some combined_confidence;
         a_buy_recommendation :=
           Some (String.eqb tech_signal "BUY" && String.eqb mtf_action "BUY"
                 && AIAnalysisService.buy_recommendation ai);
         a_heat_percent := a_heat_percent enhanced_analysis;
         a_signal := a_signal enhanced_analysis;
         a_combined_confidence := a_combined_confidence enhanced_analysis;
         a_rsi := a_rsi enhanced_analysis;
         a_tech_regime := a_tech_regime enhanced_analysis;
         a_ai_analysis := a_ai_analysis enhanced_analysis;
         a_regime := a_regime enhanced_analysis |} in
    let '(self, log) :=
      check_buy_signal self user_id symbol enhanced_analysis metrics
        current_price all_positions in
    (self, entry_evaluated log)
  end.

(** The keys of a document of [bot_configs] that the cycle reads. *)
Record bot_config : Type := {
  is_active : option bool;
  symbols : option (list string)
}.

(** The answers of the collaborators to one call of [analyze_and_trade]. *)
Record market : Type := {
  m_price : option Q;
  m_historical_prices : list Q;
  m_bands : TechnicalIndicators.bollinger;
  m_ai : AIAnalysisService.analysis;
  m_now : Db.timestamp;
  m_order_result : TradingService.order_result
}.

(** [trading_cycle(user_id)]: nothing without an active configuration;
    otherwise the refresh of the positions, the snapshot, and one decision
    step per configured symbol.  An exception of a step is caught by the
    loop, which goes on with what the step had written.  [config] is the
    tenant's configuration document, if any; [answers i symbol] are the
    collaborators' answers in the [i]-th turn of the loop. *)
Definition trading_cycle (self : t) (user_id : string)
  (config : option bot_config)
  (get_current_price : nat -> string -> option Q)
  (now today_start : Db.timestamp)
  (answers : nat -> string -> market) : t :=
  match config with
  | None => self
  | Some config =>
    if negb (Py.get (is_active config) false) then self
    else
      let positions1 :=
        update_positions get_current_price user_id (positions (store self)) in
      let snapshots1 :=
        update_risk_metrics user_id now today_start positions1
          (risk_metrics (store self)) in
      let self :=
        {| store := {| positions := positions1; trades := trades (store self);
                       risk_metrics := snapshots1 |};
           submitted := submitted self;
           price_history_cache := price_history_cache self |} in
      foldl
        (fun self turn =>
           let m := answers (fst turn) (snd turn) in
           fst (analyze_and_trade self user_id (snd turn) (m_price m)
                  (m_historical_prices m) (m_bands m) (m_ai m) (m_now m)
                  (m_order_result m)))
        self
        (imap pair (Py.get (symbols config) ["BTC-USD"; "ETH-USD"]))
  end.

End BotEngine.

(** * Properties *)

(** ** Facts about the numeric layer *)

Module PyFacts.

Lemma Qltb_lt (x y : Q) : Py.Qltb x y = true <-> x < y.
Proof.
  unfold Py.Qltb. rewrite negb_true_iff, <- not_true_iff_false, Qle_bool_iff.
  split; [apply Qnot_le_lt | apply Qlt_not_le].
Qed.

Lemma Qltb_ge (x y : Q) : Py.Qltb x y = false <-> y <= x.
Proof.
  unfold Py.Qltb. rewrite negb_false_iff. apply Qle_bool_iff.
Qed.

Lemma Qleb_le (x y : Q) : Py.Qleb x y = true <-> x <= y.
Proof. apply Qle_bool_iff. Qed.

Lemma Qleb_gt (x y : Q) : Py.Qleb x y = false <-> y < x.
Proof.
  unfold Py.Qleb. rewrite <- not_true_iff_false, Qle_bool_iff.
  split; [apply Qnot_le_lt | apply Qlt_not_le].
Qed.

Lemma Qeqb_eq (x y : Q) : Py.Qeqb x y = true <-> x == y.
Proof. apply Qeq_bool_iff. Qed.

Lemma Qltb_spec (x y : Q) : reflect (x < y) (Py.Qltb x y).
Proof.
  destruct (Py.Qltb x y) eqn:E; constructor.
  - now apply Qltb_lt.
  - apply Qle_not_lt. now apply Qltb_ge.
Qed.

Lemma Qleb_spec (x y : Q) : reflect (x <= y) (Py.Qleb x y).
Proof.
  destruct (Py.Qleb x y) eqn:E; constructor.
  - now apply Qleb_le.
  - apply Qlt_not_le. now apply Qleb_gt.
Qed.

Lemma min_le_l (a b : Q) : Py.min a b <= a.
Proof. unfold Py.min. destruct (Qltb_spec b a); lra. Qed.

Lemma min_le_r (a b : Q) : Py.min a b <= b.
Proof. unfold Py.min. destruct (Qltb_spec b a); lra. Qed.

Lemma max_ge_l (a b : Q) : a <= Py.max a b.
Proof. unfold Py.max. destruct (Qltb_spec a b); lra. Qed.

Lemma max_lub (a b c : Q) : a <= c -> b <= c -> Py.max a b <= c.
Proof. unfold Py.max. destruct (Qltb_spec a b); lra. Qed.

Lemma abs_nonneg (x : Q) : 0 <= Py.abs x.
Proof. unfold Py.abs. destruct (Qltb_spec x 0); lra. Qed.

(** [round_half_even] stays within one half of its argument and never falls
    below an integer that the argument has reached. *)
Lemma round_half_even_floor (x : Q) :
  (Qfloor x <= Py.round_half_even x <= Qfloor x + 1)%Z.
Proof.
  unfold Py.round_half_even.
  destruct (Qcompare _ _); [destruct (Z.even _) | |]; lia.
Qed.

Lemma round_half_even_ge (z : Z) (x : Q) :
  inject_Z z <= x -> (z <= Py.round_half_even x)%Z.
Proof.
  intros H. apply Qfloor_resp_le in H. rewrite Qfloor_Z in H.
  pose proof (round_half_even_floor x). lia.
Qed.

Lemma round_half_even_upper (x : Q) :
  inject_Z (Py.round_half_even x) <= x + (1 # 2).
Proof.
  unfold Py.round_half_even.
  pose proof (Qfloor_le x) as Hf.
  destruct (Qcompare_spec (x - inject_Z (Qfloor x)) (1 # 2)) as [E|E|E].
  - destruct (Z.even _); [lra|]. rewrite inject_Z_plus.
    change (inject_Z 1) with 1. lra.
  - lra.
  - rewrite inject_Z_plus. change (inject_Z 1) with 1. lra.
Qed.

Lemma round_half_even_comp (x y : Q) :
  x == y -> Py.round_half_even x = Py.round_half_even y.
Proof.
  intros E. unfold Py.round_half_even.
  rewrite (Qfloor_comp _ _ E).
  assert (Qcompare (x - inject_Z (Qfloor y)) (1 # 2)
          = Qcompare (y - inject_Z (Qfloor y)) (1 # 2)) as ->; [|reflexivity].
  apply Qcompare_comp; [rewrite E|]; reflexivity.
Qed.

Lemma round2_ge_10 (x : Q) : 10 <= x -> 10 <= Py.round x 2.
Proof.
  intros H. unfold Py.round. change (Py.pow10 2) with 100.
  assert (1000 <= Py.round_half_even (x * 100))%Z as Hz.
  { apply round_half_even_ge. change (inject_Z 1000) with 1000. lra. }
  rewrite Zle_Qle in Hz. change (inject_Z 1000) with 1000 in Hz.
  apply Qle_shift_div_l; lra.
Qed.

Lemma round2_upper (x : Q) : Py.round x 2 <= x + (5 # 1000).
Proof.
  unfold Py.round. change (Py.pow10 2) with 100.
  pose proof (round_half_even_upper (x * 100)).
  apply Qle_shift_div_r; lra.
Qed.

Lemma round2_10 (x : Q) : x == 10 -> Py.round x 2 == 10.
Proof.
  intros H. unfold Py.round. change (Py.pow10 2) with 100.
  assert (x * 100 == inject_Z 1000) as E by (rewrite H; reflexivity).
  rewrite (round_half_even_comp _ _ E). reflexivity.
Qed.

Lemma py_min_Qmin (a b : Q) : Py.min a b == Qmin a b.
Proof.
  unfold Py.min. destruct (Qltb_spec b a) as [H|H].
  - symmetry. apply Q.min_r. lra.
  - symmetry. apply Q.min_l. lra.
Qed.

Lemma py_max_Qmax (a b : Q) : (if Py.Qltb a b then b else a) == Qmax a b.
Proof.
  destruct (Qltb_spec a b) as [H|H].
  - symmetry. apply Q.max_r. lra.
  - symmetry. apply Q.max_l. lra.
Qed.

Lemma py_abs_Qabs (x : Q) : Py.abs x == Qabs x.
Proof.
  unfold Py.abs. destruct (Qltb_spec x 0) as [H|H].
  - symmetry. apply Qabs_neg. lra.
  - symmetry. apply Qabs_pos. lra.
Qed.

Lemma round2_zero (x : Q) : x == 0 -> Py.round x 2 == 0.
Proof.
  intros E. unfold Py.round.
  assert (x * Py.pow10 2 == inject_Z 0) as E0 by (rewrite E; reflexivity).
  rewrite (round_half_even_comp _ _ E0). reflexivity.
Qed.

End PyFacts.

(** ** The risk gate: [validate_trade] *)

Module RiskGateFacts.
Import RiskManager.

(** The four checks of [validate_trade], stated on the inputs. *)
Definition floor_passes (self : t) (m : risk_metrics) : Prop :=
  ~ Py.get (rm_total_equity m) 0
    < Py.get (rm_max_equity m) 0 * capital_floor_pct self.

Definition loss_passes (self : t) (m : risk_metrics) : Prop :=
  ~ Py.get (rm_daily_pnl m) 0
    < - (Py.get (rm_max_equity m) 0 * max_daily_loss_pct self).

Definition confidence_passes (s : signal) : Prop :=
  60 <= Py.get (sig_confidence s) 0.

Definition signal_passes (s : signal) : Prop :=
  Py.get (sig_buy_recommendation s) false = true.


Lemma allow_floor (self : t) (s : signal) (m : risk_metrics) :
  v_floor_check (validate_trade self s m) = true <-> floor_passes self m.
Proof.
  unfold floor_passes. cbn. rewrite negb_true_iff, <- not_true_iff_false.
  now rewrite PyFacts.Qltb_lt.
Qed.

Lemma allow_loss (self : t) (s : signal) (m : risk_metrics) :
  v_loss_check (validate_trade self s m) = true <-> loss_passes self m.
Proof.
  unfold loss_passes. cbn. rewrite negb_true_iff, <- not_true_iff_false.
  now rewrite PyFacts.Qltb_lt.
Qed.

Lemma allow_confidence (self : t) (s : signal) (m : risk_metrics) :
  v_confidence_check (validate_trade self s m) = true <-> confidence_passes s.
Proof. apply PyFacts.Qleb_le. Qed.

Lemma approved_checks (self : t) (s : signal) (m : risk_metrics) :
  approved (validate_trade self s m)
  = v_floor_check (validate_trade self s m)
    && v_loss_check (validate_trade self s m)
    && v_confidence_check (validate_trade self s m)
    && v_signal_check (validate_trade self s m).
Proof. reflexivity. Qed.

Lemma reason_checks (self : t) (s : signal) (m : risk_metrics) :
  reason (validate_trade self s m)
  = if negb (v_floor_check (validate_trade self s m))
    then "Capital floor breach - trading halted"
    else if negb (v_loss_check (validate_trade self s m))
    then "Daily loss limit reached"
    else if negb (v_confidence_check (validate_trade self s m))
    then "Signal confidence too low"
    else if negb (v_signal_check (validate_trade self s m))
    then "No strong buy signal"
    else "All checks passed".
Proof. reflexivity. Qed.

(** C7.  [validate_trade] approves exactly when the capital-floor check, the
    daily-loss check, the confidence threshold of 60 and the buy flag all
    pass; a rejection carries the reason of the first failing check in the
    order floor, loss, confidence, signal. *)
Theorem validate_trade_first_failing_check
  (self : t) (s : signal) (m : risk_metrics) :
  let v := validate_trade self s m in
  (approved v = true <->
     floor_passes self m /\ loss_passes self m
     /\ confidence_passes s /\ signal_passes s)
  /\ (~ floor_passes self m ->
        reason v = "Capital floor breach - trading halted")
  /\ (floor_passes self m -> ~ loss_passes self m ->
        reason v = "Daily loss limit reached")
  /\ (floor_passes self m -> loss_passes self m -> ~ confidence_passes s ->
        reason v = "Signal confidence too low")
  /\ (floor_passes self m -> loss_passes self m -> confidence_passes s ->
        ~ signal_passes s -> reason v = "No strong buy signal").
Proof.
  intros v. subst v.
  rewrite approved_checks, reason_checks.
  rewrite <- (allow_floor self s m), <- (allow_loss self s m),
    <- (allow_confidence self s m).
  unfold signal_passes.
  change (Py.get (sig_buy_recommendation s) false)
    with (v_signal_check (validate_trade self s m)).
  destruct (v_floor_check _), (v_loss_check _), (v_confidence_check _),
    (v_signal_check _); cbn; intuition congruence.
Qed.

End RiskGateFacts.

(** ** Position sizing *)

Module PositionSizeFacts.

(** The range the sizing functions answer in: nothing, or at least the $10
    floor and at most the larger of the floor and 5% of the capital. *)
Definition sized_within (capital size : Q) : Prop :=
  size == 0 \/ (10 <= size /\ size <= Py.max 10 (capital * (5 # 100))).

(** The range of the claim as the specification words it. *)
Definition in_spec_range (capital size : Q) : Prop :=
  size == 0 \/ (10 <= size /\ size <= (5 # 100) * capital).

(** The clamp and the rounding shared by both sizing functions, for a raw
    size of at most 2% of the capital. *)
Lemma clamp_round_within (capital raw : Q) :
  0 < capital -> raw <= capital * (2 # 100) ->
  let size := Py.round (Py.max 10 (Py.min raw (capital * (5 # 100)))) 2 in
  10 <= size /\ size <= Py.max 10 (capital * (5 # 100)).
Proof.
  intros Hc Hraw size. subst size. split.
  - apply PyFacts.round2_ge_10, PyFacts.max_ge_l.
  - set (inner := Py.min raw (capital * (5 # 100))).
    assert (inner <= raw) as Hin by apply PyFacts.min_le_l.
    unfold Py.max at 1. destruct (PyFacts.Qltb_spec 10 inner) as [Hlt|Hge].
    + pose proof (PyFacts.round2_upper inner).
      pose proof (PyFacts.max_ge_l 10 (capital * (5 # 100))).
      unfold Py.max in *. destruct (PyFacts.Qltb_spec 10 (capital * (5 # 100))); lra.
    + rewrite (PyFacts.round2_10 10 (Qeq_refl _)). apply PyFacts.max_ge_l.
Qed.

Lemma kelly_capped (k : Q) : Py.min (k * (25 # 100)) (2 # 100) <= 2 # 100.
Proof. apply PyFacts.min_le_r. Qed.

Lemma position_size_within (ss conf capital vol : Q) :
  0 < capital ->
  sized_within capital (RiskManager.calculate_position_size ss conf capital vol).
Proof.
  intros Hc. right. unfold RiskManager.calculate_position_size.
  apply clamp_round_within; [assumption|].
  pose proof (kelly_capped
    (if Py.Qltb 0 vol then ss * (conf / 100) / (vol * vol) else 0)).
  nra.
Qed.

Lemma optimal_position_size_within (ss vol equity heat max_heat : Q) :
  0 < equity -> 0 < max_heat ->
  exists size,
    AdvancedRiskManager.calculate_optimal_position_size ss vol equity heat max_heat
    = Some size
    /\ sized_within equity size.
Proof.
  intros He Hm. unfold AdvancedRiskManager.calculate_optimal_position_size.
  destruct (PyFacts.Qleb_spec (max_heat - heat) 0) as [Hno|Havail].
  { exists 0. split; [reflexivity|]. left. reflexivity. }
  destruct (Py.Qeqb max_heat 0) eqn:Ez.
  { apply PyFacts.Qeqb_eq in Ez. lra. }
  eexists. split; [reflexivity|]. right.
  apply clamp_round_within; [assumption|].
  set (k := Py.min _ (2 # 100)).
  set (adj := Py.min ((max_heat - heat) / max_heat) 1).
  assert (k <= 2 # 100) as Hk by apply PyFacts.min_le_r.
  assert (adj <= 1) as Ha1 by apply PyFacts.min_le_r.
  assert (0 < adj) as Ha0.
  { unfold adj, Py.min. destruct (PyFacts.Qltb_spec 1 ((max_heat - heat) / max_heat)).
    - lra.
    - apply Qlt_shift_div_l; lra. }
  assert (k * adj <= 2 # 100) as Hka.
  { destruct (Qlt_le_dec k 0); nra. }
  nra.
Qed.

(** C3 (as the code has it).  For a positive capital (and a positive heat
    budget [max_heat]) both sizing functions answer either 0 or a size of at
    least 10 that does not exceed the larger of 10 and 5% of the capital;
    from a capital of 200 on this is the interval [10, 0.05 * capital]. *)
Theorem position_sizes_clamped (ss conf vol heat max_heat capital : Q) :
  0 < capital -> 0 < max_heat ->
  sized_within capital (RiskManager.calculate_position_size ss conf capital vol)
  /\ (exists size,
        AdvancedRiskManager.calculate_optimal_position_size
          ss vol capital heat max_heat = Some size
        /\ sized_within capital size)
  /\ (200 <= capital -> forall size,
        sized_within capital size -> in_spec_range capital size).
Proof.
  intros Hc Hm. split; [|split].
  - now apply position_size_within.
  - now apply optimal_position_size_within.
  - intros Hbig size [H0|[Hlo Hhi]]; [now left|right].
    split; [assumption|].
    unfold Py.max in Hhi. destruct (PyFacts.Qltb_spec 10 (capital * (5 # 100))); lra.
Qed.

Lemma position_sizes_clamped_witness :
  sized_within 10000
    (RiskManager.calculate_position_size (8 # 10) 80 10000 (1 # 10))
  /\ (exists size,
        AdvancedRiskManager.calculate_optimal_position_size
          (8 # 10) (1 # 10) 10000 (3 # 100) (15 # 100) = Some size
        /\ sized_within 10000 size)
  /\ (200 <= 10000 -> forall size,
        sized_within 10000 size -> in_spec_range 10000 size).
Proof.
  apply (position_sizes_clamped (8 # 10) 80 (1 # 10) (3 # 100) (15 # 100) 10000);
    reflexivity.
Defined.

(** C3 as worded fails on a small account: with a capital of 100 the $10
    floor wins over the 5% cap, and 10 is neither 0 nor within [10, 5]. *)
Lemma position_size_small_capital :
  0 < 100
  /\ RiskManager.calculate_position_size 1 100 100 (1 # 10) == 10
  /\ ~ in_spec_range 100 (RiskManager.calculate_position_size 1 100 100 (1 # 10))
  /\ (exists size,
        AdvancedRiskManager.calculate_optimal_position_size
          1 (1 # 10) 100 0 (15 # 100) = Some size
        /\ size == 10 /\ ~ in_spec_range 100 size).
Proof.
  split; [reflexivity|]. split; [apply Qeq_bool_eq; vm_compute; reflexivity|].
  split.
  - intros [H|[_ H]]; vm_compute in H; [discriminate H|]. now apply H.
  - eexists. split; [reflexivity|].
    split; [apply Qeq_bool_eq; vm_compute; reflexivity|].
    intros [H|[_ H]]; vm_compute in H; [discriminate H|]. now apply H.
Qed.

End PositionSizeFacts.

(** ** Correlation check *)

Module CorrelationFacts.
Import AdvancedRiskManager.

(** The cached series of a symbol, empty when the symbol is not cached. *)
Definition cached (price_history : gmap string (list Q)) (symbol : string)
  : list Q :=
  Py.get (price_history !! symbol) [].

(** An existing position counts when it is on another symbol with at least
    20 cached prices. *)
Definition counts (new_symbol : string) (price_history : gmap string (list Q))
  (pos : Db.position) : bool :=
  negb (String.eqb (Db.p_symbol pos) new_symbol)
  && (20 <=? length (cached price_history (Db.p_symbol pos)))%nat.

(** The correlations of the new symbol with the positions that count. *)
Definition pairwise_correlations (new_symbol : string)
  (existing_positions : list Db.position)
  (price_history : gmap string (list Q)) : list Q :=
  map (fun pos =>
         calculate_correlation (cached price_history new_symbol)
           (cached price_history (Db.p_symbol pos)))
      (List.filter (counts new_symbol price_history) existing_positions).

(** The greatest absolute value of a list, 0 for the empty list. *)
Definition max_abs (cs : list Q) : Q :=
  foldr (fun c m => Qmax (Qabs c) m) 0 cs.

Lemma max_abs_nonneg (cs : list Q) : 0 <= max_abs cs.
Proof.
  induction cs as [|c cs IH]; cbn; [lra|].
  apply Q.max_le_iff. now right.
Qed.

Lemma correlation_step_abs (new_symbol : string) (price_history : gmap string (list Q))
  (acc : Q * option string) (pos : Db.position) :
  Qabs (fst (correlation_step new_symbol (cached price_history new_symbol)
               price_history acc pos))
  == Qmax (Qabs (fst acc))
          (max_abs (pairwise_correlations new_symbol [pos] price_history)).
Proof.
  unfold correlation_step, pairwise_correlations, counts. cbn [List.filter].
  fold (cached price_history (Db.p_symbol pos)).
  pose proof (Qabs_nonneg (fst acc)) as Hacc.
  destruct (String.eqb _ _); cbn [negb andb map max_abs foldr].
  { symmetry. now apply Q.max_l. }
  rewrite Nat.ltb_antisym.
  destruct (20 <=? _)%nat; cbn [negb map max_abs foldr].
  2:{ symmetry. now apply Q.max_l. }
  set (c := calculate_correlation _ _).
  pose proof (Qabs_nonneg c) as Hc.
  rewrite (Q.max_l (Qabs c) 0) by assumption.
  destruct (PyFacts.Qltb_spec (Py.abs (fst acc)) (Py.abs c)) as [H|H];
    rewrite !PyFacts.py_abs_Qabs in H; cbn [fst].
  - symmetry. apply Q.max_r. lra.
  - symmetry. apply Q.max_l. lra.
Qed.

Lemma pairwise_correlations_cons (new_symbol : string) (pos : Db.position)
  (ps : list Db.position) (price_history : gmap string (list Q)) :
  max_abs (pairwise_correlations new_symbol (pos :: ps) price_history)
  == Qmax (max_abs (pairwise_correlations new_symbol [pos] price_history))
          (max_abs (pairwise_correlations new_symbol ps price_history)).
Proof.
  unfold pairwise_correlations. cbn [List.filter].
  destruct (counts _ _ pos); cbn [map max_abs foldr].
  - rewrite (Q.max_l (Qabs _) 0) by apply Qabs_nonneg. reflexivity.
  - symmetry. apply Q.max_r. apply max_abs_nonneg.
Qed.

Lemma correlation_loop_abs (new_symbol : string) (price_history : gmap string (list Q))
  (ps : list Db.position) (acc : Q * option string) :
  Qabs (fst (foldl (correlation_step new_symbol (cached price_history new_symbol)
                      price_history) acc ps))
  == Qmax (Qabs (fst acc))
          (max_abs (pairwise_correlations new_symbol ps price_history)).
Proof.
  revert acc. induction ps as [|pos ps IH]; intros acc.
  - cbn. symmetry. apply Q.max_l. apply Qabs_nonneg.
  - cbn [foldl]. rewrite IH, correlation_step_abs,
      (pairwise_correlations_cons new_symbol pos ps price_history).
    symmetry. apply Q.max_assoc.
Qed.

(** C6 (as the code has it).  For a new symbol with at least 20 cached
    prices the check refuses exactly when the greatest absolute correlation
    with a position that counts reaches 0.7; that greatest value is the
    magnitude of the reported [max_correlation]. *)
Theorem correlation_refused_from_threshold (new_symbol : string)
  (existing_positions : list Db.position)
  (price_history : gmap string (list Q)) :
  (20 <= length (cached price_history new_symbol))%nat ->
  let check := check_correlation_risk new_symbol existing_positions price_history in
  let worst :=
    max_abs (pairwise_correlations new_symbol existing_positions price_history) in
  Qabs (cc_max_correlation check) == worst
  /\ (allowed check = false <-> 7 # 10 <= worst).
Proof.
  intros Hlen check worst. subst check worst.
  unfold check_correlation_risk.
  destruct existing_positions as [|pos ps].
  { cbn. split; [reflexivity|]. split; [discriminate|].
    intros H. apply Qle_bool_iff in H. discriminate H. }
  fold (cached price_history new_symbol).
  destruct (Nat.ltb_spec (length (cached price_history new_symbol)) 20) as [Hs|_];
    [lia|].
  pose proof (correlation_loop_abs new_symbol price_history (pos :: ps) (0, None))
    as Hloop.
  destruct (foldl _ _ _) as [max_corr with_symbol]. cbn [fst] in Hloop.
  cbn [cc_max_correlation allowed].
  assert (Qabs max_corr
          == max_abs (pairwise_correlations new_symbol (pos :: ps) price_history))
    as Habs.
  { rewrite Hloop. apply Q.max_r. change (Qabs 0) with 0. apply max_abs_nonneg. }
  split; [exact Habs|].
  rewrite PyFacts.Qltb_ge, PyFacts.py_abs_Qabs, Habs. reflexivity.
Qed.

Definition btc_prices : list Q :=
  map inject_Z
    [101; 97; 97; 99; 100; 98; 100; 99; 97; 99;
     95; 100; 99; 98; 101; 98; 103; 98; 104; 103]%Z.

Definition eth_prices : list Q :=
  map inject_Z
    [99; 95; 96; 99; 101; 101; 102; 97; 96; 96;
     98; 98; 99; 99; 103; 97; 105; 100; 104; 104]%Z.

Definition btc_position : Db.position :=
  {| Db.p_user_id := "u1"; Db.p_symbol := "BTC-USD"; Db.p_quantity := 200;
     Db.p_avg_price := 100; Db.p_current_price := 103; Db.p_pnl := Some 6;
     Db.p_pnl_percent := Some 3; Db.p_high_water_mark := None;
     Db.p_created_at := 0%Z |}.

Definition two_series : gmap string (list Q) :=
  <["ETH-USD" := eth_prices]> (<["BTC-USD" := btc_prices]> ∅).

Lemma correlation_refused_witness :
  let check := check_correlation_risk "ETH-USD" [btc_position] two_series in
  let worst := max_abs (pairwise_correlations "ETH-USD" [btc_position] two_series) in
  Qabs (cc_max_correlation check) == worst
  /\ (allowed check = false <-> 7 # 10 <= worst).
Proof.
  apply (correlation_refused_from_threshold "ETH-USD" [btc_position] two_series).
  vm_compute. lia.
Defined.

(** C6 as worded fails at the threshold: the two series below correlate at
    0.7 after the rounding to three decimals, the greatest absolute
    correlation does not exceed 0.7, and the check refuses the trade. *)
Lemma correlation_exactly_at_threshold :
  (20 <= length (cached two_series "ETH-USD"))%nat
  /\ max_abs (pairwise_correlations "ETH-USD" [btc_position] two_series) == 7 # 10
  /\ ~ 7 # 10 < max_abs (pairwise_correlations "ETH-USD" [btc_position] two_series)
  /\ allowed (check_correlation_risk "ETH-USD" [btc_position] two_series) = false.
Proof.
  assert (max_abs (pairwise_correlations "ETH-USD" [btc_position] two_series)
          == 7 # 10) as E.
  { apply Qeq_bool_eq. vm_compute. reflexivity. }
  split; [vm_compute; lia|].
  split; [exact E|]. split; [rewrite E; apply Qlt_irrefl|].
  vm_compute. reflexivity.
Qed.

End CorrelationFacts.

(** ** MACD *)

Module MacdFacts.
Import TechnicalIndicators.

(** The MACD line of the whole series and the signal line the specification
    asks for: the EMA of span [signal] of the MACD lines of the prefixes. *)
Definition macd_line (prices : list Q) (fast slow : nat) : Q :=
  _calculate_ema prices fast - _calculate_ema prices slow.

Definition ema_of_macd_series (prices : list Q) (fast slow signal : nat) : Q :=
  _calculate_ema (macd_values prices fast slow) signal.

Lemma macd_values_length (prices : list Q) (fast slow : nat) :
  length (macd_values prices fast slow) = (length prices - slow)%nat.
Proof. unfold macd_values. now rewrite length_map, length_seq. Qed.

(** C4 (as the code has it).  Below [slow + signal] prices the result is all
    zero.  From [2 * slow] prices on (with at least [signal] MACD values) the
    signal is the EMA of the MACD-line series and the histogram is the MACD
    line minus that signal, each rounded to two decimals.  In between the
    signal is the MACD line itself and the histogram is 0. *)
Theorem calculate_macd_cases (prices : list Q) (fast slow signal : nat) :
  let r := calculate_macd prices fast slow signal in
  ((length prices < slow + signal)%nat ->
     r = {| macd := 0; TechnicalIndicators.signal := 0; histogram := 0 |})
  /\ ((slow + signal <= length prices)%nat ->
      macd r = Py.round (macd_line prices fast slow) 2)
  /\ ((slow + signal <= length prices)%nat ->
      (slow * 2 <= length prices)%nat ->
      (signal <= length prices - slow)%nat ->
      TechnicalIndicators.signal r
      = Py.round (ema_of_macd_series prices fast slow signal) 2
      /\ histogram r
         = Py.round (macd_line prices fast slow
                     - ema_of_macd_series prices fast slow signal) 2)
  /\ ((slow + signal <= length prices)%nat ->
      (length prices < slow * 2)%nat ->
      TechnicalIndicators.signal r = Py.round (macd_line prices fast slow) 2
      /\ histogram r == 0).
Proof.
  intros r. subst r. unfold calculate_macd.
  destruct (Nat.ltb_spec (length prices) (slow + signal)) as [Hshort|Hlong].
  { repeat split; intros; try lia; reflexivity. }
  fold (macd_line prices fast slow).
  split; [intros; lia|]. split; [reflexivity|]. split.
  - intros _ H2 Hs. apply Nat.leb_le in H2. rewrite H2.
    rewrite macd_values_length. apply Nat.leb_le in Hs. rewrite Hs.
    cbn. split; reflexivity.
  - intros _ H2. apply Nat.leb_gt in H2. rewrite H2. cbn.
    split; [reflexivity|]. apply PyFacts.round2_zero. ring.
Qed.

(** The prices 1, 4, 9, ..., 1225: 35 points, the shortest series that the
    guard of [calculate_macd] lets through with the default spans. *)
Definition squares : list Q :=
  map (fun i => inject_Z (Z.of_nat i * Z.of_nat i)) (seq 1 35).

(** C4 as worded fails between [slow + signal] and [2 * slow] points: on the
    35 squares the returned signal is the MACD line, 286.77, where the EMA of
    the MACD-line series is 251.99. *)
Lemma macd_signal_on_short_series :
  (26 + 9 <= length squares)%nat
  /\ TechnicalIndicators.signal (calculate_macd squares 12 26 9) == 28677 # 100
  /\ Py.round (ema_of_macd_series squares 12 26 9) 2 == 25199 # 100
  /\ ~ TechnicalIndicators.signal (calculate_macd squares 12 26 9)
        == Py.round (ema_of_macd_series squares 12 26 9) 2.
Proof.
  assert (TechnicalIndicators.signal (calculate_macd squares 12 26 9)
          == 28677 # 100) as E1
    by (apply Qeq_bool_eq; vm_compute; reflexivity).
  assert (Py.round (ema_of_macd_series squares 12 26 9) 2 == 25199 # 100) as E2
    by (apply Qeq_bool_eq; vm_compute; reflexivity).
  split; [vm_compute; lia|].
  split; [exact E1|]. split; [exact E2|].
  rewrite E1, E2. intros H. discriminate H.
Qed.

End MacdFacts.

(** ** Multi-timeframe alignment and recommendation *)

Module MultiTimeframeFacts.
Import MultiTimeframeAnalysis.

Lemma Qmin_eq_l (x y z : Q) : x == y -> Qmin x z == Qmin y z.
Proof. intros E. now rewrite E. Qed.

(** The confidence of a strong recommendation as the specification gives
    it. *)
Definition strong_confidence (strength : Q) : Q :=
  Qmin (70 + 3 * Qabs strength) 95.

Lemma is_alignment_eq (a b : alignment) : is_alignment a b = true <-> a = b.
Proof. destruct a, b; cbn; split; congruence. Qed.

(** C5 (as the code has it).  On a strong bullish alignment with strength
    above 3 the action is BUY without a position and HOLD with one; on a
    strong bearish alignment with strength below -3 it is SELL with a
    position and AVOID without one; the confidence is
    min(70 + 3 * |strength|, 95) in both. *)
Theorem strong_alignment_recommendation (a : analysis) (current_position : bool) :
  (mtf_alignment a = strong_bullish -> 3 < mtf_strength a ->
     rec_action (get_trading_recommendation a current_position)
     = (if current_position then HOLD else BUY)
     /\ confidence (get_trading_recommendation a current_position)
        == strong_confidence (mtf_strength a))
  /\ (mtf_alignment a = strong_bearish -> mtf_strength a < -3 ->
     rec_action (get_trading_recommendation a current_position)
     = (if current_position then SELL else AVOID)
     /\ confidence (get_trading_recommendation a current_position)
        == strong_confidence (mtf_strength a)).
Proof.
  unfold get_trading_recommendation, strong_confidence. split.
  - intros -> Hs. apply PyFacts.Qltb_lt in Hs as Hb. rewrite Hb. cbn.
    split; [now destruct current_position|].
    rewrite PyFacts.py_min_Qmin, (Qabs_pos (mtf_strength a)) by lra.
    apply Qmin_eq_l. ring.
  - intros -> Hs. apply PyFacts.Qltb_lt in Hs as Hb. rewrite Hb. cbn.
    split; [reflexivity|].
    rewrite PyFacts.py_min_Qmin, PyFacts.py_abs_Qabs.
    apply Qmin_eq_l. ring.
Qed.

Definition bearish_analysis : analysis :=
  let tf := {| tf_trend := bearish; tf_strength := 4; tf_rsi := 40; valid := true |} in
  {| frames := {| tf_5m := tf; tf_15m := tf; tf_1h := tf; tf_4h := tf |};
     mtf_alignment := strong_bearish;
     mtf_strength := -4 |}.

(** C5 as worded fails on the bearish side: without a position the strong
    bearish recommendation is AVOID, not SELL, and with one it is SELL, not
    AVOID. *)
Lemma strong_bearish_without_position :
  mtf_alignment bearish_analysis = strong_bearish
  /\ mtf_strength bearish_analysis < -3
  /\ rec_action (get_trading_recommendation bearish_analysis false) = AVOID
  /\ rec_action (get_trading_recommendation bearish_analysis false) <> SELL
  /\ rec_action (get_trading_recommendation bearish_analysis true) = SELL
  /\ rec_action (get_trading_recommendation bearish_analysis true) <> AVOID.
Proof. repeat split; discriminate. Qed.

(** C10.  Two bullish and two bearish valid timeframes align as [bullish]:
    the bullish count is tested first.  A bearish or strong bearish alignment
    needs a bullish count of at most 1. *)
Theorem alignment_tie_is_bullish (a : timeframes) :
  (count bullish (valid_trends a) = 2%nat ->
   count bearish (valid_trends a) = 2%nat ->
   _calculate_alignment a = align_bullish)
  /\ (_calculate_alignment a = align_bearish
      \/ _calculate_alignment a = strong_bearish ->
      (count bullish (valid_trends a) <= 1)%nat).
Proof.
  unfold _calculate_alignment. split.
  - intros Hb _. destruct (valid_trends a) as [|t ts]; [discriminate Hb|].
    now rewrite Hb.
  - destruct (valid_trends a) as [|t ts]; [intros [H|H]; discriminate H|].
    destruct (Nat.leb_spec 3 (count bullish (t :: ts))) as [H3|H3];
      [intros [E|E]; discriminate E|].
    destruct (Nat.leb_spec 2 (count bullish (t :: ts))) as [H2|H2];
      [intros [E|E]; discriminate E|].
    intros _. lia.
Qed.

(** Two bearish long timeframes against two bullish short ones still align
    as [bullish]. *)
Example two_against_two :
  let tf t := {| tf_trend := t; tf_strength := 5; tf_rsi := 50; valid := true |} in
  let a := {| tf_5m := tf bullish; tf_15m := tf bullish;
              tf_1h := tf bearish; tf_4h := tf bearish |} in
  count bullish (valid_trends a) = 2%nat
  /\ count bearish (valid_trends a) = 2%nat
  /\ _calculate_alignment a = align_bullish.
Proof. repeat split. Qed.

End MultiTimeframeFacts.

(** ** Conditional order manager *)

Module OrderFacts.
Import AdvancedOrderManager.

(** *** The index as a dictionary *)

Definition keys (index : list (string * order)) : list string := map fst index.

Lemma mem_keys (k : string) (index : list (string * order)) :
  mem k index = true <-> In k (keys index).
Proof.
  unfold mem, keys. rewrite existsb_exists, in_map_iff. split.
  - intros [kv [Hin Hk]]. apply String.eqb_eq in Hk. eauto.
  - intros [kv [Hk Hin]]. exists kv. split; [exact Hin|]. now apply String.eqb_eq.
Qed.

Lemma mem_entry (k : string) (o : order) (index : list (string * order)) :
  In (k, o) index -> mem k index = true.
Proof. intros H. apply mem_keys. apply (in_map fst) in H. exact H. Qed.

Lemma keys_store (k : string) (o : order) (index : list (string * order)) :
  keys (store k o index) = keys index.
Proof.
  unfold keys, store. rewrite map_map. apply map_ext.
  intros [k' o']. cbn. now destruct (String.eqb k' k).
Qed.

Lemma in_store (k k' : string) (o o' : order) (index : list (string * order)) :
  In (k', o') (store k o index) <->
  (k' = k /\ o' = o /\ In k (keys index)) \/ (k' <> k /\ In (k', o') index).
Proof.
  unfold store, keys. rewrite in_map_iff. split.
  - intros [[k1 o1] [Heq Hin]]. cbn in Heq.
    destruct (String.eqb_spec k1 k) as [->|Hne].
    + injection Heq as <- <-. left. repeat split.
      apply (in_map fst) in Hin. exact Hin.
    + injection Heq as <- <-. right. now split.
  - intros [(-> & -> & Hin)|(Hne & Hin)].
    + apply in_map_iff in Hin as [[k1 o1] [Hk Hin]]. cbn in Hk. subst k1.
      exists (k, o1). split; [|exact Hin]. cbn. now rewrite String.eqb_refl.
    + exists (k', o'). split; [|exact Hin]. cbn.
      destruct (String.eqb_spec k' k); [contradiction|reflexivity].
Qed.

Lemma in_del (k k' : string) (o' : order) (index : list (string * order)) :
  In (k', o') (del k index) <-> k' <> k /\ In (k', o') index.
Proof.
  unfold del. rewrite filter_In. cbn.
  destruct (String.eqb_spec k' k); cbn; intuition congruence.
Qed.

Lemma in_keys_del (k k' : string) (index : list (string * order)) :
  In k' (keys (del k index)) <-> k' <> k /\ In k' (keys index).
Proof.
  unfold keys. rewrite !in_map_iff. split.
  - intros [[k1 o1] [Hk Hin]]. cbn in Hk. subst k1.
    apply in_del in Hin as [Hne Hin]. split; [exact Hne|].
    exists (k', o1). now split.
  - intros [Hne [[k1 o1] [Hk Hin]]]. cbn in Hk. subst k1.
    exists (k', o1). split; [reflexivity|]. apply in_del. now split.
Qed.

Lemma NoDup_keys_del (k : string) (index : list (string * order)) :
  List.NoDup (keys index) -> List.NoDup (keys (del k index)).
Proof.
  unfold keys, del. induction index as [|[k1 o1] rest IH]; cbn; [trivial|].
  intros Hnd. apply List.NoDup_cons_iff in Hnd as [Hnot Hnd].
  destruct (String.eqb k1 k); cbn; [now apply IH|].
  apply List.NoDup_cons_iff. split; [|now apply IH].
  intros Hin. apply Hnot. apply (in_keys_del k k1 rest) in Hin. tauto.
Qed.

Lemma NoDup_keys_entry (k : string) (o o' : order) (index : list (string * order)) :
  List.NoDup (keys index) -> In (k, o) index -> In (k, o') index -> o = o'.
Proof.
  unfold keys. induction index as [|[k1 o1] rest IH]; cbn; [contradiction|].
  intros Hnd H1 H2. apply List.NoDup_cons_iff in Hnd as [Hnot Hnd].
  destruct H1 as [E1|H1], H2 as [E2|H2].
  - congruence.
  - injection E1 as -> ->. exfalso. apply Hnot.
    apply (in_map fst) in H2. exact H2.
  - injection E2 as -> ->. exfalso. apply Hnot.
    apply (in_map fst) in H1. exact H1.
  - now apply IH.
Qed.

Lemma del_store (k : string) (o : order) (index : list (string * order)) :
  del k (store k o index) = del k index.
Proof.
  unfold del, store. induction index as [|[k1 o1] rest IH]; [reflexivity|].
  cbn. destruct (String.eqb k1 k) eqn:E; cbn; rewrite E; cbn; now rewrite IH.
Qed.

(** *** The state the manager keeps consistent *)

(** The stored status of an order id. *)
Definition db_status (self : t) (k : string) : option order_status :=
  status <$> db_pending_orders self !! k.

(** The index has one entry per key, and every indexed order is PENDING,
    in memory and in the collection. *)
Record consistent (self : t) : Prop := {
  keys_unique : List.NoDup (keys (pending_orders self));
  indexed_pending :
    forall k o, In (k, o) (pending_orders self) ->
      status o = PENDING /\ db_status self k = Some PENDING
}.

Lemma trigger_status (o : order) (price : Q) :
  status (fst (trigger o price)) = status o.
Proof.
  unfold trigger. destruct (type o);
    repeat match goal with
           | |- context [if ?b then _ else _] => destruct b
           end; reflexivity.
Qed.

(** Whether the loop turn for [o] ends in a successful execution. *)
Definition executes (current_prices : gmap string Q)
  (place_market_order : order -> TradingService.order_result) (o : order)
  : bool :=
  let price := Py.get (current_prices !! symbol o) 0 in
  negb (Py.Qeqb price 0)
  && snd (trigger o price)
  && TradingService.success (place_market_order (fst (trigger o price))).

(** The manager after one loop turn. *)
Definition turn (current_prices : gmap string Q)
  (place_market_order : order -> TradingService.order_result)
  (now : Db.timestamp) (self : t) (entry : string * order) : t :=
  let price := Py.get (current_prices !! symbol (snd entry)) 0 in
  if Py.Qeqb price 0 then self
  else if executes current_prices place_market_order (snd entry) then
    {| pending_orders := del (fst entry) (pending_orders self);
       db_pending_orders :=
         alter (db_set_executed now) (fst entry) (db_pending_orders self) |}
  else
    {| pending_orders :=
         store (fst entry) (fst (trigger (snd entry) price)) (pending_orders self);
       db_pending_orders := db_pending_orders self |}.

Lemma check_order_turn (current_prices : gmap string Q)
  (place_market_order : order -> TradingService.order_result)
  (now : Db.timestamp) (acc : t * list order) (entry : string * order) :
  fst (check_order current_prices place_market_order now acc entry)
  = turn current_prices place_market_order now (fst acc) entry.
Proof.
  destruct acc as [self done], entry as [k o].
  unfold check_order, turn, executes. cbn [fst snd].
  destruct (Py.Qeqb _ 0); [reflexivity|]. cbn [negb andb].
  destruct (trigger o _) as [o' fire]. cbn [fst snd].
  destruct fire; [|reflexivity].
  destruct (TradingService.success _); cbn [andb fst]; [|reflexivity].
  now rewrite del_store.
Qed.

Lemma check_pending_orders_turns (self : t) (current_prices : gmap string Q)
  (place_market_order : order -> TradingService.order_result)
  (now : Db.timestamp) :
  fst (check_pending_orders self current_prices place_market_order now)
  = foldl (turn current_prices place_market_order now) self (pending_orders self).
Proof.
  unfold check_pending_orders.
  generalize (pending_orders self) as items.
  generalize (@nil order) as done. generalize self as st.
  intros st done items. revert st done.
  induction items as [|e items IH]; intros st done; [reflexivity|].
  cbn [foldl].
  rewrite <- (check_order_turn _ _ _ (st, done) e).
  destruct (check_order _ _ _ (st, done) e) as [st' done']. apply IH.
Qed.

Section Turns.

Variable current_prices : gmap string Q.
Variable place_market_order : order -> TradingService.order_result.
Variable now : Db.timestamp.

Let turn' := turn current_prices place_market_order now.
Let executes' := executes current_prices place_market_order.

Lemma turn_consistent (self : t) (k : string) (o : order) :
  consistent self -> status o = PENDING -> consistent (turn' self (k, o)).
Proof.
  intros [Hnd Hidx] Ho. unfold turn', turn. cbn [fst snd].
  destruct (Py.Qeqb _ 0); [now split|].
  destruct (executes _ _ o).
  - split; cbn [pending_orders].
    + now apply NoDup_keys_del.
    + intros k' o' Hin. apply in_del in Hin as [Hne Hin].
      destruct (Hidx k' o' Hin) as [Hs Hdb]. split; [exact Hs|].
      unfold db_status in *. cbn [db_pending_orders].
      now rewrite lookup_alter_ne by congruence.
  - split; cbn [pending_orders].
    + now rewrite keys_store.
    + intros k' o' Hin. apply in_store in Hin as [(-> & -> & Hin)|(Hne & Hin)].
      * rewrite trigger_status. split; [exact Ho|].
        apply in_map_iff in Hin as [[k1 o1] [Hk Hin]]. cbn in Hk. subst k1.
        now destruct (Hidx k o1 Hin).
      * now apply Hidx.
Qed.

Lemma turns_consistent (items : list (string * order)) (self : t) :
  consistent self ->
  (forall k o, In (k, o) items -> status o = PENDING) ->
  consistent (foldl turn' self items).
Proof.
  revert self. induction items as [|[k o] items IH]; intros self Hc Hitems;
    [exact Hc|].
  cbn [foldl]. apply IH.
  - apply turn_consistent; [exact Hc|]. apply (Hitems k o). now left.
  - intros k' o' Hin. apply (Hitems k' o'). now right.
Qed.

(** A loop turn for another key leaves the entry and the document of [k]
    alone. *)
Lemma turn_other (self : t) (k k1 : string) (o1 : order) :
  k1 <> k ->
  db_pending_orders (turn' self (k1, o1)) !! k = db_pending_orders self !! k
  /\ (forall o, In (k, o) (pending_orders (turn' self (k1, o1)))
               <-> In (k, o) (pending_orders self)).
Proof.
  intros Hne. unfold turn', turn. cbn [fst snd].
  destruct (Py.Qeqb _ 0); [tauto|].
  destruct (executes _ _ o1); cbn [pending_orders db_pending_orders].
  - split; [now apply lookup_alter_ne|].
    intros o. rewrite in_del. intuition congruence.
  - split; [reflexivity|].
    intros o. rewrite in_store. intuition congruence.
Qed.

Lemma turns_other (items : list (string * order)) (self : t) (k : string) :
  ~ In k (keys items) ->
  db_pending_orders (foldl turn' self items) !! k = db_pending_orders self !! k
  /\ (forall o, In (k, o) (pending_orders (foldl turn' self items))
               <-> In (k, o) (pending_orders self)).
Proof.
  revert self. induction items as [|[k1 o1] items IH]; intros self Hnot;
    [tauto|].
  cbn [foldl]. cbn in Hnot.
  destruct (IH (turn' self (k1, o1))) as [Hdb Hin]; [tauto|].
  destruct (turn_other self k k1 o1) as [Hdb1 Hin1]; [tauto|].
  split; [congruence|]. intros o. now rewrite Hin, Hin1.
Qed.

(** The loop turn for the entry of [k] itself. *)
Lemma turn_own (self : t) (k : string) (o : order) :
  In (k, o) (pending_orders self) ->
  if executes' o
  then ~ In k (keys (pending_orders (turn' self (k, o))))
       /\ db_pending_orders (turn' self (k, o)) !! k
          = db_set_executed now <$> db_pending_orders self !! k
  else In k (keys (pending_orders (turn' self (k, o))))
       /\ db_pending_orders (turn' self (k, o)) !! k
          = db_pending_orders self !! k.
Proof.
  intros Hin. assert (In k (keys (pending_orders self))) as Hk
    by (apply (in_map fst) in Hin; exact Hin).
  unfold executes', turn', turn. cbn [fst snd].
  destruct (Py.Qeqb (Py.get (current_prices !! symbol o) 0) 0) eqn:Hz.
  { unfold executes. rewrite Hz. cbn. now split. }
  destruct (executes _ _ o); cbn [pending_orders db_pending_orders].
  - split; [|apply lookup_alter_eq]. rewrite in_keys_del. tauto.
  - split; [|reflexivity]. now rewrite keys_store.
Qed.

Lemma turns_own (items : list (string * order)) (self : t) (k : string) (o : order) :
  List.NoDup (keys items) -> In (k, o) items -> In (k, o) (pending_orders self) ->
  if executes' o
  then ~ In k (keys (pending_orders (foldl turn' self items)))
       /\ db_pending_orders (foldl turn' self items) !! k
          = db_set_executed now <$> db_pending_orders self !! k
  else In k (keys (pending_orders (foldl turn' self items)))
       /\ db_pending_orders (foldl turn' self items) !! k
          = db_pending_orders self !! k.
Proof.
  revert self. induction items as [|[k1 o1] items IH]; intros self Hnd Hitem Hself;
    [contradiction|].
  cbn [foldl]. cbn in Hnd. apply List.NoDup_cons_iff in Hnd as [Hfresh Hnd].
  destruct Hitem as [E|Hitem].
  - injection E as -> ->.
    destruct (turns_other items (turn' self (k, o)) k Hfresh) as [Hdb Hin].
    pose proof (turn_own self k o Hself) as Hown.
    assert (forall st, In k (keys (pending_orders st))
                       <-> exists o', In (k, o') (pending_orders st)) as Hkeys.
    { intros st. unfold keys. rewrite in_map_iff. split.
      - intros [[k' o'] [Hk H]]. cbn in Hk. subst k'. eauto.
      - intros [o' H]. exists (k, o'). now split. }
    destruct (executes' o); destruct Hown as [Hidx Hdoc]; (split; [|congruence]).
    + rewrite Hkeys in *. intros [o' H]. apply Hidx. exists o'. now apply Hin.
    + rewrite Hkeys in *. destruct Hidx as [o' H]. exists o'. now apply Hin.
  - assert (k1 <> k) as Hne.
    { intros ->. apply Hfresh. apply (in_map fst) in Hitem. exact Hitem. }
    destruct (turn_other self k k1 o1 Hne) as [Hdb Hin].
    specialize (IH (turn' self (k1, o1)) Hnd Hitem (proj2 (Hin o) Hself)).
    destruct (executes' o); destruct IH as [Hidx Hdoc]; (split; [exact Hidx|congruence]).
Qed.

End Turns.

(** *** Operations and reachable states *)

(** A call on the manager.  The three placement methods differ only in the
    side and the type they give the new order; [order_id] is the [uuid4] the
    call draws. *)
Inductive op : Type :=
  | op_place (order_id : string) (now : Db.timestamp) (uid sym : string)
             (sd : option string) (ty : order_type) (qty : Q)
  | op_check (current_prices : gmap string Q)
             (place_market_order : order -> TradingService.order_result)
             (now : Db.timestamp)
  | op_cancel (order_id : string) (now : Db.timestamp).

Definition step (self : t) (c : op) : t :=
  match c with
  | op_place order_id now uid sym sd ty qty =>
    fst (place self (new_order order_id uid sym sd ty qty now))
  | op_check current_prices place_market_order now =>
    fst (check_pending_orders self current_prices place_market_order now)
  | op_cancel order_id now => fst (cancel_order self order_id now)
  end.

(** A placement draws an id that no stored order carries. *)
Definition fresh (self : t) (c : op) : Prop :=
  match c with
  | op_place order_id _ _ _ _ _ _ => db_pending_orders self !! order_id = None
  | _ => True
  end.

Inductive reachable : t -> Prop :=
  | reachable_empty : reachable empty
  | reachable_step (self : t) (c : op) :
      reachable self -> fresh self c -> reachable (step self c).

Lemma place_methods (self : t) (order_id : string) (now : Db.timestamp)
  (uid sym sd : string) (qty p1 p2 : Q) :
  fst (place_limit_order self order_id now uid sym sd qty p1)
  = step self (op_place order_id now uid sym (Some sd) (LIMIT p1) qty)
  /\ fst (place_stop_limit_order self order_id now uid sym sd qty p1 p2)
     = step self (op_place order_id now uid sym (Some sd) (STOP_LIMIT p1 p2) qty)
  /\ fst (place_oco_order self order_id now uid sym qty p1 p2)
     = step self (op_place order_id now uid sym None (OCO p1 p2) qty).
Proof. repeat split. Qed.

Lemma consistent_empty : consistent empty.
Proof. split; cbn; [constructor|contradiction]. Qed.

Lemma indexed_stored (self : t) (k : string) :
  consistent self -> In k (keys (pending_orders self)) ->
  db_status self k = Some PENDING.
Proof.
  intros [_ Hidx] Hin. apply in_map_iff in Hin as [[k' o] [Hk Hin]].
  cbn in Hk. subst k'. now destruct (Hidx k o Hin).
Qed.

Lemma place_consistent (self : t) (o : order) :
  consistent self -> status o = PENDING ->
  db_pending_orders self !! id o = None ->
  consistent (fst (place self o)).
Proof.
  intros Hc Ho Hfresh.
  assert (~ In (id o) (keys (pending_orders self))) as Hnot.
  { intros Hin. apply (indexed_stored self _ Hc) in Hin.
    unfold db_status in Hin. rewrite Hfresh in Hin. discriminate Hin. }
  unfold place. cbn [fst].
  destruct (mem (id o) (pending_orders self)) eqn:Hmem.
  { apply mem_keys in Hmem. contradiction. }
  destruct Hc as [Hnd Hidx]. split; cbn [pending_orders db_pending_orders].
  - unfold keys in *. rewrite map_app. cbn [map fst].
    apply List.NoDup_app.
    + exact Hnd.
    + repeat constructor. intros [].
    + intros k Hk [<-|[]]. exact (Hnot Hk).
  - intros k o' Hin. apply in_app_iff in Hin as [Hin|[E|[]]].
    + destruct (Hidx k o' Hin) as [Hs Hdb]. split; [exact Hs|].
      unfold db_status in *. cbn [db_pending_orders].
      rewrite lookup_insert_ne; [exact Hdb|].
      intros E. apply Hnot. rewrite E. apply (in_map fst) in Hin. exact Hin.
    + injection E as <- <-. split; [exact Ho|].
      unfold db_status. cbn [db_pending_orders].
      rewrite lookup_insert_eq. cbn. now rewrite Ho.
Qed.

Lemma cancel_consistent (self : t) (k : string) (now : Db.timestamp) :
  consistent self -> consistent (fst (cancel_order self k now)).
Proof.
  intros Hc. unfold cancel_order.
  destruct (mem k (pending_orders self)); [|exact Hc].
  destruct Hc as [Hnd Hidx]. cbn [fst]. split; cbn [pending_orders].
  - now apply NoDup_keys_del.
  - intros k' o' Hin. apply in_del in Hin as [Hne Hin].
    destruct (Hidx k' o' Hin) as [Hs Hdb]. split; [exact Hs|].
    unfold db_status in *. cbn [db_pending_orders].
    now rewrite lookup_alter_ne by congruence.
Qed.

Lemma step_consistent (self : t) (c : op) :
  consistent self -> fresh self c -> consistent (step self c).
Proof.
  intros Hc Hfresh. destruct c; cbn [step].
  - now apply place_consistent.
  - rewrite check_pending_orders_turns. apply turns_consistent; [exact Hc|].
    intros k o Hin. now destruct (indexed_pending self Hc k o Hin).
  - now apply cancel_consistent.
Qed.

Lemma reachable_consistent (self : t) : reachable self -> consistent self.
Proof.
  induction 1 as [|self c _ IH Hfresh]; [apply consistent_empty|].
  now apply step_consistent.
Qed.

(** *** Status transitions *)

Lemma not_indexed (self : t) (k : string) :
  consistent self -> db_status self k <> Some PENDING ->
  mem k (pending_orders self) = false.
Proof.
  intros Hc Hs. destruct (mem k (pending_orders self)) eqn:Hmem; [|reflexivity].
  apply mem_keys in Hmem. now apply (indexed_stored self k Hc) in Hmem.
Qed.

Lemma mem_false (k : string) (index : list (string * order)) :
  mem k index = false <-> ~ In k (keys index).
Proof. rewrite <- mem_keys. now destruct (mem k index). Qed.

Lemma in_keys_entry (k : string) (index : list (string * order)) :
  In k (keys index) -> exists o, In (k, o) index.
Proof.
  intros Hin. apply in_map_iff in Hin as [[k' o] [Hk Hin]].
  cbn in Hk. subst k'. eauto.
Qed.

(** What one call does to the stored status of one order. *)
Lemma step_status (self : t) (c : op) (k : string) (before : order_status) :
  consistent self -> fresh self c -> db_status self k = Some before ->
  db_status (step self c) k = Some before
  \/ (before = PENDING
      /\ db_status (step self c) k = Some EXECUTED
      /\ mem k (pending_orders (step self c)) = false
      /\ exists prices oracle now, c = op_check prices oracle now)
  \/ (before = PENDING
      /\ db_status (step self c) k = Some CANCELLED
      /\ mem k (pending_orders (step self c)) = false
      /\ exists now, c = op_cancel k now).
Proof.
  intros Hc Hfresh Hk.
  destruct c as [order_id now uid sym sd ty qty|prices oracle now|order_id now];
    cbn [step].
  - left. unfold place, db_status in *. cbn [fst db_pending_orders new_order id].
    cbn [fresh] in Hfresh.
    rewrite lookup_insert_ne; [exact Hk|].
    intros <-. rewrite Hfresh in Hk. discriminate Hk.
  - rewrite check_pending_orders_turns.
    destruct (in_dec String.string_dec k (keys (pending_orders self))) as [Hin|Hout].
    + destruct (in_keys_entry k _ Hin) as [o Ho].
      assert (before = PENDING) as ->.
      { apply (indexed_stored self k Hc) in Hin. congruence. }
      pose proof (turns_own prices oracle now (pending_orders self) self k o
                    (keys_unique self Hc) Ho Ho) as Hown.
      destruct (executes prices oracle o); destruct Hown as [Hidx Hdoc].
      * right. left. split; [reflexivity|]. split; [|split].
        -- unfold db_status in *. rewrite Hdoc.
           destruct (db_pending_orders self !! k); [reflexivity|discriminate Hk].
        -- now apply mem_false.
        -- eauto.
      * left. unfold db_status in *. now rewrite Hdoc.
    + left. destruct (turns_other prices oracle now (pending_orders self) self k Hout)
        as [Hdoc _].
      unfold db_status in *. now rewrite Hdoc.
  - unfold cancel_order.
    destruct (mem order_id (pending_orders self)) eqn:Hmem; [|now left].
    cbn [fst pending_orders db_pending_orders].
    destruct (String.string_dec order_id k) as [->|Hne].
    + right. right.
      assert (before = PENDING) as ->.
      { apply mem_keys in Hmem. apply (indexed_stored self k Hc) in Hmem.
        congruence. }
      split; [reflexivity|]. split; [|split].
      * unfold db_status in *. cbn [db_pending_orders]. rewrite lookup_alter_eq.
        destruct (db_pending_orders self !! k); [reflexivity|discriminate Hk].
      * apply mem_false. rewrite in_keys_del. tauto.
      * eauto.
    + left. unfold db_status in *. cbn [db_pending_orders].
      now rewrite lookup_alter_ne.
Qed.

(** A status stays, or leaves PENDING for EXECUTED or CANCELLED. *)
Definition moves (before after : order_status) : Prop :=
  after = before
  \/ (before = PENDING /\ (after = EXECUTED \/ after = CANCELLED)).

(** Every call of a sequence draws a fresh id where it places an order. *)
Fixpoint all_fresh (self : t) (calls : list op) : Prop :=
  match calls with
  | [] => True
  | c :: rest => fresh self c /\ all_fresh (step self c) rest
  end.

Lemma terminal_forever (calls : list op) (self : t) (k : string)
  (final : order_status) :
  consistent self -> all_fresh self calls ->
  db_status self k = Some final -> final <> PENDING ->
  db_status (foldl step self calls) k = Some final.
Proof.
  revert self. induction calls as [|c calls IH]; intros self Hc Hfresh Hk Hfinal;
    [exact Hk|].
  cbn [foldl]. destruct Hfresh as [Hf Hrest].
  apply IH; [now apply step_consistent|exact Hrest| |exact Hfinal].
  destruct (step_status self c k final Hc Hf Hk) as [H|[(E & _)|(E & _)]];
    [exact H|contradiction|contradiction].
Qed.

Definition not_found : response :=
  {| r_success := false; r_message := "Order not found" |}.

Definition cancelled : response :=
  {| r_success := true; r_message := "Order cancelled" |}.

(** C8.  In every state the manager can reach:
    - a call leaves the stored status of an order as it is, or takes it from
      PENDING to EXECUTED (only [check_pending_orders]) or to CANCELLED (only
      [cancel_order] of that id), and the order then is out of the index;
    - a status other than PENDING never changes again;
    - [check_pending_orders] executes and drops an indexed order exactly
      when its trigger fires and the execution succeeds, and otherwise leaves
      it PENDING in the index;
    - cancelling an indexed order succeeds; cancelling an id that is unknown
      or no longer PENDING answers "Order not found" and changes nothing. *)
Theorem pending_order_lifecycle (self : t) :
  reachable self ->
  (forall c k before,
     fresh self c -> db_status self k = Some before ->
     exists after,
       db_status (step self c) k = Some after
       /\ moves before after
       /\ (after = EXECUTED -> before = PENDING ->
             mem k (pending_orders (step self c)) = false
             /\ exists prices oracle now, c = op_check prices oracle now)
       /\ (after = CANCELLED -> before = PENDING ->
             mem k (pending_orders (step self c)) = false
             /\ exists now, c = op_cancel k now))
  /\ (forall calls k final,
        all_fresh self calls -> db_status self k = Some final ->
        final <> PENDING ->
        db_status (foldl step self calls) k = Some final)
  /\ (forall prices oracle now k o,
        In (k, o) (pending_orders self) ->
        let self' := fst (check_pending_orders self prices oracle now) in
        if executes prices oracle o
        then db_status self' k = Some EXECUTED
             /\ mem k (pending_orders self') = false
        else db_status self' k = Some PENDING
             /\ mem k (pending_orders self') = true)
  /\ (forall k now,
        mem k (pending_orders self) = true ->
        snd (cancel_order self k now) = cancelled
        /\ db_status (fst (cancel_order self k now)) k = Some CANCELLED
        /\ mem k (pending_orders (fst (cancel_order self k now))) = false)
  /\ (forall k now,
        db_status self k <> Some PENDING ->
        cancel_order self k now = (self, not_found)).
Proof.
  intros Hreach. pose proof (reachable_consistent self Hreach) as Hc.
  split; [|split; [|split; [|split]]].
  - intros c k before Hfresh Hk.
    destruct (step_status self c k before Hc Hfresh Hk)
      as [H|[(-> & H & Hm & Hop)|(-> & H & Hm & Hop)]].
    + exists before. split; [exact H|]. split; [now left|].
      split; intros -> E; discriminate E.
    + exists EXECUTED. split; [exact H|]. split; [right; auto|].
      split; [auto|intros E; discriminate E].
    + exists CANCELLED. split; [exact H|]. split; [right; auto|].
      split; [intros E; discriminate E|auto].
  - intros calls k final. now apply terminal_forever.
  - intros prices oracle now k o Ho self'. subst self'.
    rewrite check_pending_orders_turns.
    pose proof (turns_own prices oracle now (pending_orders self) self k o
                  (keys_unique self Hc) Ho Ho) as Hown.
    destruct (indexed_pending self Hc k o Ho) as [_ Hdb].
    unfold db_status in *.
    destruct (executes prices oracle o); destruct Hown as [Hidx Hdoc];
      rewrite Hdoc.
    + split; [|now apply mem_false].
      destruct (db_pending_orders self !! k); [reflexivity|discriminate Hdb].
    + split; [exact Hdb|now apply mem_keys].
  - intros k now Hmem. unfold cancel_order. rewrite Hmem. cbn [fst snd].
    split; [reflexivity|]. split.
    + apply mem_keys in Hmem. apply (indexed_stored self k Hc) in Hmem.
      unfold db_status in *. cbn [db_pending_orders]. rewrite lookup_alter_eq.
      destruct (db_pending_orders self !! k); [reflexivity|discriminate Hmem].
    + cbn [pending_orders]. apply mem_false. rewrite in_keys_del. tauto.
  - intros k now Hk. unfold cancel_order.
    now rewrite (not_indexed self k Hc Hk).
Qed.

(** An OCO order (take profit 110, stop loss 90) and a limit BUY at 50. *)
Definition two_orders : t :=
  step
    (step empty
       (op_place "o1" 1%Z "u1" "BTC-USD" None (OCO 110 90) 1))
    (op_place "o2" 2%Z "u1" "ETH-USD" (Some "BUY") (LIMIT 50) 2).

Lemma pending_order_lifecycle_witness :
  (forall c k before,
     fresh two_orders c -> db_status two_orders k = Some before ->
     exists after,
       db_status (step two_orders c) k = Some after
       /\ moves before after
       /\ (after = EXECUTED -> before = PENDING ->
             mem k (pending_orders (step two_orders c)) = false
             /\ exists prices oracle now, c = op_check prices oracle now)
       /\ (after = CANCELLED -> before = PENDING ->
             mem k (pending_orders (step two_orders c)) = false
             /\ exists now, c = op_cancel k now))
  /\ (forall calls k final,
        all_fresh two_orders calls -> db_status two_orders k = Some final ->
        final <> PENDING ->
        db_status (foldl step two_orders calls) k = Some final)
  /\ (forall prices oracle now k o,
        In (k, o) (pending_orders two_orders) ->
        let self' := fst (check_pending_orders two_orders prices oracle now) in
        if executes prices oracle o
        then db_status self' k = Some EXECUTED
             /\ mem k (pending_orders self') = false
        else db_status self' k = Some PENDING
             /\ mem k (pending_orders self') = true)
  /\ (forall k now,
        mem k (pending_orders two_orders) = true ->
        snd (cancel_order two_orders k now) = cancelled
        /\ db_status (fst (cancel_order two_orders k now)) k = Some CANCELLED
        /\ mem k (pending_orders (fst (cancel_order two_orders k now))) = false)
  /\ (forall k now,
        db_status two_orders k <> Some PENDING ->
        cancel_order two_orders k now = (two_orders, not_found)).
Proof.
  apply (pending_order_lifecycle two_orders).
  unfold two_orders.
  apply reachable_step; [apply reachable_step; [apply reachable_empty|]|];
    vm_compute; reflexivity.
Defined.

(** The scenario of the specification: with the price at 95 the OCO order
    stays PENDING; at 111 it executes on its take-profit leg as a SELL, and a
    later cancellation of it finds nothing.  A refused execution at 111
    leaves it PENDING in the index. *)
Example oco_take_profit :
  let filled (_ : order) :=
    {| TradingService.success := true; TradingService.filled_price := Some 111 |} in
  let refused (_ : order) :=
    {| TradingService.success := false; TradingService.filled_price := None |} in
  let at_95 := check_pending_orders two_orders {["BTC-USD" := 95]} filled 3%Z in
  let at_111 := check_pending_orders (fst at_95) {["BTC-USD" := 111]} filled 4%Z in
  let failed := check_pending_orders (fst at_95) {["BTC-USD" := 111]} refused 4%Z in
  snd at_95 = []
  /\ db_status (fst at_95) "o1" = Some PENDING
  /\ map (fun o => (id o, side o, executed_reason o, status o)) (snd at_111)
     = [("o1", Some "SELL", Some "Take Profit", EXECUTED)]
  /\ db_status (fst at_111) "o1" = Some EXECUTED
  /\ keys (pending_orders (fst at_111)) = ["o2"]
  /\ snd (cancel_order (fst at_111) "o1" 5%Z) = not_found
  /\ db_status (fst failed) "o1" = Some PENDING
  /\ keys (pending_orders (fst failed)) = ["o1"; "o2"].
Proof. vm_compute. repeat split. Qed.

End OrderFacts.

(** ** Risk snapshots *)

Module SnapshotFacts.
Import BotEngine.

(** What reaches the snapshot collection: a cycle tick of a tenant (the
    clock reading, midnight of its day and the positions found), or the
    cash-balance write that follows a fill. *)
Inductive event : Type :=
  | tick (user_id : string) (now today_start : Db.timestamp)
         (all_positions : list Db.position)
  | cash_write (user_id : string) (new_cash : Q).

Definition apply_event (coll : list Db.snapshot) (e : event) : list Db.snapshot :=
  match e with
  | tick user_id now today_start all_positions =>
    update_risk_metrics user_id now today_start all_positions coll
  | cash_write user_id new_cash => update_cash user_id new_cash coll
  end.

Definition run (events : list event) (coll : list Db.snapshot)
  : list Db.snapshot :=
  foldl apply_event coll events.

(** The clock readings of a tenant's ticks, in order. *)
Definition ticks_of (user_id : string) (events : list event)
  : list Db.timestamp :=
  omap (fun e =>
          match e with
          | tick u now _ _ => if String.eqb u user_id then Some now else None
          | cash_write _ _ => None
          end) events.

(** A tenant's snapshots, in insertion order, and their [max_equity]. *)
Definition history (user_id : string) (coll : list Db.snapshot)
  : list Db.snapshot :=
  List.filter (of_user user_id) coll.

Definition max_equities (user_id : string) (coll : list Db.snapshot) : list Q :=
  map (fun s => Py.get (Db.s_max_equity s) 10000) (history user_id coll).

Definition timestamps (user_id : string) (coll : list Db.snapshot) : list Z :=
  map Db.s_timestamp (history user_id coll).

(** Every pair of neighbours is in order. *)
Definition nondecreasing (l : list Q) : Prop :=
  forall (i : nat) (a b : Q), l !! i = Some a -> l !! S i = Some b -> a <= b.

Lemma nondecreasing_snoc (l : list Q) (x : Q) :
  nondecreasing l -> (forall a, last l = Some a -> a <= x) ->
  nondecreasing (l ++ [x]).
Proof.
  intros Hl Hlast i a b Ha Hb.
  destruct (decide (S i < length l)%nat) as [Hin|Hout].
  - rewrite lookup_app_l in Ha by lia. rewrite lookup_app_l in Hb by lia.
    now apply (Hl i).
  - assert (S i = length l) as Hi.
    { apply lookup_lt_Some in Hb. rewrite length_app in Hb. cbn in Hb. lia. }
    rewrite lookup_app_l in Ha by lia.
    rewrite lookup_app_r in Hb by lia.
    replace (S i - length l)%nat with 0%nat in Hb by lia. cbn in Hb.
    injection Hb as <-. apply Hlast. rewrite last_lookup, <- Hi. exact Ha.
Qed.

(** *** The latest snapshot of a tenant *)

Lemma latest_from_range (u : string) (coll : list Db.snapshot) (i : nat)
  (best : option (nat * Db.timestamp)) (k : nat) :
  latest_from u coll i best = Some k ->
  (exists t, best = Some (k, t)) \/ (i <= k < i + length coll)%nat.
Proof.
  revert i best. induction coll as [|s rest IH]; intros i best H; cbn in H.
  - destruct best as [[j t]|]; [|discriminate H]. injection H as ->. left. eauto.
  - apply IH in H as [[t Hbest]|Hk]; [|right; cbn; lia].
    destruct (of_user u s); [|left; eauto].
    destruct best as [[j t']|].
    + destruct (t' <? Db.s_timestamp s)%Z.
      * injection Hbest as <- _. right. cbn. lia.
      * left. eauto.
    + injection Hbest as <- _. right. cbn. lia.
Qed.

Lemma latest_from_snoc_other (u : string) (coll : list Db.snapshot)
  (s : Db.snapshot) (i : nat) (best : option (nat * Db.timestamp)) :
  of_user u s = false ->
  latest_from u (coll ++ [s]) i best = latest_from u coll i best.
Proof.
  intros Hs. revert i best. induction coll as [|x rest IH]; intros i best; cbn.
  - now rewrite Hs.
  - apply IH.
Qed.

Lemma latest_from_snoc_own (u : string) (coll : list Db.snapshot)
  (s : Db.snapshot) (i : nat) (best : option (nat * Db.timestamp)) :
  of_user u s = true ->
  (forall j t, best = Some (j, t) -> (t < Db.s_timestamp s)%Z) ->
  (forall x, x ∈ history u coll -> (Db.s_timestamp x < Db.s_timestamp s)%Z) ->
  latest_from u (coll ++ [s]) i best = Some (i + length coll)%nat.
Proof.
  intros Hs. revert i best.
  induction coll as [|x rest IH]; intros i best Hbest Hcoll; cbn.
  - rewrite Hs. destruct best as [[j t]|]; cbn.
    + specialize (Hbest j t eq_refl). apply Z.ltb_lt in Hbest. rewrite Hbest.
      cbn. f_equal. lia.
    + f_equal. lia.
  - rewrite IH; [f_equal; lia| |].
    + intros j t Hj. unfold history in Hcoll. cbn in Hcoll.
      destruct (of_user u x) eqn:Hx.
      * assert (Db.s_timestamp x < Db.s_timestamp s)%Z as Hlt
          by (apply Hcoll; left).
        destruct best as [[j' t']|].
        -- destruct (t' <? Db.s_timestamp x)%Z.
           ++ injection Hj as _ <-. exact Hlt.
           ++ now apply (Hbest j t).
        -- injection Hj as _ <-. exact Hlt.
      * now apply (Hbest j t).
    + intros y Hy. apply Hcoll. unfold history in *. cbn.
      destruct (of_user u x); [right|]; exact Hy.
Qed.

Lemma find_latest_snoc_other (u : string) (coll : list Db.snapshot)
  (s : Db.snapshot) :
  of_user u s = false -> find_latest u (coll ++ [s]) = find_latest u coll.
Proof.
  intros Hs. unfold find_latest, latest_index.
  rewrite latest_from_snoc_other by exact Hs.
  destruct (latest_from u coll 0 None) as [k|] eqn:Hk; [|reflexivity].
  apply latest_from_range in Hk as [[t Ht]|Hk]; [discriminate Ht|].
  apply lookup_app_l. lia.
Qed.

Lemma find_latest_snoc_own (u : string) (coll : list Db.snapshot)
  (s : Db.snapshot) :
  of_user u s = true ->
  (forall x, x ∈ history u coll -> (Db.s_timestamp x < Db.s_timestamp s)%Z) ->
  find_latest u (coll ++ [s]) = Some s.
Proof.
  intros Hs Hcoll. unfold find_latest, latest_index.
  rewrite latest_from_snoc_own; [|exact Hs|discriminate|exact Hcoll].
  cbn. apply list_lookup_middle. reflexivity.
Qed.

Lemma history_snoc (u : string) (coll : list Db.snapshot) (s : Db.snapshot) :
  history u (coll ++ [s])
  = history u coll ++ (if of_user u s then [s] else []).
Proof. unfold history. rewrite List.filter_app. reflexivity. Qed.

(** With a tenant's timestamps in increasing order, the snapshot found by
    the descending sort is the one inserted last. *)
Lemma find_latest_last (u : string) (coll : list Db.snapshot) :
  StronglySorted Z.lt (timestamps u coll) ->
  find_latest u coll = last (history u coll).
Proof.
  induction coll as [|s coll IH] using rev_ind; [reflexivity|].
  unfold timestamps. rewrite history_snoc. intros Hsorted.
  destruct (of_user u s) eqn:Hs.
  - rewrite last_snoc. apply find_latest_snoc_own; [exact Hs|].
    intros x Hx. rewrite map_app in Hsorted.
    apply (StronglySorted_app_1_elem_of _ _ _ _ _ Hsorted).
    + apply list_elem_of_fmap. eauto.
    + cbn. left.
  - rewrite app_nil_r in *. rewrite find_latest_snoc_other by exact Hs.
    now apply IH.
Qed.

(** *** One tick *)

(** The [max_equity] a tick starts from and the total equity it computes. *)
Definition previous_max (u : string) (coll : list Db.snapshot) : Q :=
  match last (history u coll) with
  | Some prev => Py.get (Db.s_max_equity prev) 10000
  | None => 10000
  end.

Definition tick_equity (u : string) (all_positions : list Db.position)
  (coll : list Db.snapshot) : Q :=
  let positions := positions_of u all_positions in
  match last (history u coll) with
  | Some prev => Py.get (Db.s_cash_balance prev) 10000
  | None => 10000
  end
  + Py.sum (map Db.p_quantity positions)
  + Py.sum (map (fun p => Py.get (Db.p_pnl p) 0) positions).

Lemma update_risk_metrics_snoc (u : string) (now today_start : Db.timestamp)
  (all_positions : list Db.position) (coll : list Db.snapshot) :
  exists s,
    update_risk_metrics u now today_start all_positions coll = coll ++ [s]
    /\ Db.s_user_id s = u /\ Db.s_timestamp s = now.
Proof.
  unfold update_risk_metrics.
  destruct (find_latest u coll); eexists; repeat split.
Qed.

Lemma update_risk_metrics_appends (u : string) (now today_start : Db.timestamp)
  (all_positions : list Db.position) (coll : list Db.snapshot) :
  StronglySorted Z.lt (timestamps u coll) ->
  exists s,
    update_risk_metrics u now today_start all_positions coll = coll ++ [s]
    /\ Db.s_user_id s = u
    /\ Db.s_timestamp s = now
    /\ Db.s_total_equity s = Some (tick_equity u all_positions coll)
    /\ Db.s_max_equity s
       = Some (if Py.Qltb (previous_max u coll) (tick_equity u all_positions coll)
               then tick_equity u all_positions coll
               else previous_max u coll).
Proof.
  intros Hsorted. unfold update_risk_metrics, previous_max, tick_equity.
  rewrite (find_latest_last u coll Hsorted).
  destruct (last (history u coll)) as [prev|]; eexists; repeat split.
Qed.

Lemma of_user_refl (u : string) (s : Db.snapshot) :
  Db.s_user_id s = u -> of_user u s = true.
Proof. intros <-. apply String.eqb_refl. Qed.

Lemma of_user_other (u u' : string) (s : Db.snapshot) :
  Db.s_user_id s = u' -> String.eqb u' u = false -> of_user u s = false.
Proof. intros <- H. exact H. Qed.

Lemma last_max_equities (u : string) (coll : list Db.snapshot) (a : Q) :
  last (max_equities u coll) = Some a -> a = previous_max u coll.
Proof.
  unfold max_equities, previous_max. change map with (@fmap list _).
  rewrite fmap_last. destruct (last (history u coll)); cbn; congruence.
Qed.

(** *** The cash-balance write *)

Lemma history_alter_cash (A : Type) (g : Db.snapshot -> A) (u : string)
  (new_cash : Q) (i : nat) (coll : list Db.snapshot) :
  (forall s, g (set_cash new_cash s) = g s) ->
  map g (history u (alter (set_cash new_cash) i coll)) = map g (history u coll).
Proof.
  intros Hg. unfold history. revert i.
  induction coll as [|s coll IH]; intros i; [reflexivity|].
  destruct i as [|i].
  - change (alter (set_cash new_cash) 0%nat (s :: coll))
      with (set_cash new_cash s :: coll).
    cbn [List.filter].
    change (of_user u (set_cash new_cash s)) with (of_user u s).
    destruct (of_user u s); cbn [map]; [rewrite Hg|]; reflexivity.
  - change (alter (set_cash new_cash) (S i) (s :: coll))
      with (s :: alter (set_cash new_cash) i coll).
    cbn [List.filter].
    destruct (of_user u s); cbn [map]; [f_equal|]; apply IH.
Qed.

Lemma update_cash_projection (A : Type) (g : Db.snapshot -> A) (u u' : string)
  (new_cash : Q) (coll : list Db.snapshot) :
  (forall s, g (set_cash new_cash s) = g s) ->
  map g (history u (update_cash u' new_cash coll)) = map g (history u coll).
Proof.
  intros Hg. unfold update_cash.
  destruct (latest_index u' coll); [|reflexivity].
  now apply history_alter_cash.
Qed.

(** *** A run of events *)

Lemma ticks_of_tick (u u' : string) (now today_start : Db.timestamp)
  (ps : list Db.position) (events : list event) :
  ticks_of u (tick u' now today_start ps :: events)
  = if String.eqb u' u then now :: ticks_of u events else ticks_of u events.
Proof. unfold ticks_of. cbn. now destruct (String.eqb u' u). Qed.

Lemma run_keeps_order (u : string) (events : list event)
  (coll : list Db.snapshot) :
  StronglySorted Z.lt (timestamps u coll ++ ticks_of u events) ->
  nondecreasing (max_equities u coll) ->
  nondecreasing (max_equities u (run events coll)).
Proof.
  revert coll. induction events as [|e events IH]; intros coll Hsorted Hmono;
    [exact Hmono|].
  cbn [run foldl].
  destruct e as [u' now today_start ps|u' new_cash]; cbn [apply_event].
  - rewrite ticks_of_tick in Hsorted. destruct (String.eqb u' u) eqn:Hu'.
    + apply String.eqb_eq in Hu' as ->.
      assert (StronglySorted Z.lt (timestamps u coll)) as Hcoll
        by (eapply StronglySorted_app_1_l; exact Hsorted).
      destruct (update_risk_metrics_appends u now today_start ps coll Hcoll)
        as (s & -> & Hu & Hts & _ & Hmax).
      apply IH.
      * unfold timestamps. rewrite history_snoc, (of_user_refl u s Hu), map_app.
        cbn [map]. rewrite Hts, <- app_assoc. exact Hsorted.
      * unfold max_equities. rewrite history_snoc, (of_user_refl u s Hu), map_app.
        cbn [map]. apply nondecreasing_snoc; [exact Hmono|].
        intros a Ha. apply last_max_equities in Ha as ->.
        rewrite Hmax. cbn [Py.get].
        destruct (PyFacts.Qltb_spec (previous_max u coll) (tick_equity u ps coll));
          lra.
    + destruct (update_risk_metrics_snoc u' now today_start ps coll)
        as (s & -> & Hu & _).
      apply IH.
      * unfold timestamps. rewrite history_snoc, (of_user_other u u' s Hu Hu').
        rewrite app_nil_r. exact Hsorted.
      * unfold max_equities. rewrite history_snoc, (of_user_other u u' s Hu Hu').
        rewrite app_nil_r. exact Hmono.
  - apply IH.
    + unfold timestamps. rewrite update_cash_projection by reflexivity.
      exact Hsorted.
    + unfold max_equities. rewrite update_cash_projection by reflexivity.
      exact Hmono.
Qed.

Lemma run_timestamps (u : string) (events : list event)
  (coll : list Db.snapshot) :
  timestamps u (run events coll) = timestamps u coll ++ ticks_of u events.
Proof.
  revert coll. induction events as [|e events IH]; intros coll.
  - cbn. now rewrite app_nil_r.
  - cbn [run foldl]. fold (run events (apply_event coll e)). rewrite IH.
    destruct e as [u' now today_start ps|u' new_cash]; cbn [apply_event].
    + rewrite ticks_of_tick.
      destruct (update_risk_metrics_snoc u' now today_start ps coll)
        as (s & -> & Hu & Hts).
      unfold timestamps. rewrite history_snoc.
      destruct (String.eqb u' u) eqn:Hu'.
      * apply String.eqb_eq in Hu' as ->.
        rewrite (of_user_refl u s Hu), map_app. cbn [map].
        now rewrite Hts, <- app_assoc.
      * now rewrite (of_user_other u u' s Hu Hu'), app_nil_r.
    + unfold timestamps. now rewrite update_cash_projection by reflexivity.
Qed.

(** C9.  Over any run of ticks and cash writes that starts from an empty
    collection, with the tenant's clock readings increasing, every snapshot
    of the tenant has a [max_equity] no smaller than the one before it; and
    the snapshot that the next tick appends carries the maximum of the
    previous [max_equity] and the total equity it has just computed. *)
Theorem max_equity_never_decreases (u : string) (events : list event) :
  StronglySorted Z.lt (ticks_of u events) ->
  (forall (i : nat) (earlier later : Q),
     max_equities u (run events []) !! i = Some earlier ->
     max_equities u (run events []) !! S i = Some later ->
     earlier <= later)
  /\ (forall (now today_start : Db.timestamp) (ps : list Db.position),
      exists (s : Db.snapshot) (equity top : Q),
        update_risk_metrics u now today_start ps (run events [])
        = run events [] ++ [s]
        /\ Db.s_total_equity s = Some equity
        /\ Db.s_max_equity s = Some top
        /\ top == Qmax (previous_max u (run events [])) equity).
Proof.
  intros Hclock. split.
  - apply run_keeps_order; [exact Hclock|].
    intros i a b Ha. discriminate Ha.
  - intros now today_start ps.
    assert (StronglySorted Z.lt (timestamps u (run events []))) as Hsorted
      by (rewrite run_timestamps; exact Hclock).
    destruct (update_risk_metrics_appends u now today_start ps _ Hsorted)
      as (s & Hrun & _ & _ & Heq & Hmax).
    exists s. eexists. eexists.
    split; [exact Hrun|]. split; [exact Heq|]. split; [exact Hmax|].
    apply PyFacts.py_max_Qmax.
Qed.

Definition small_position : Db.position :=
  {| Db.p_user_id := "u1"; Db.p_symbol := "BTC-USD"; Db.p_quantity := 200;
     Db.p_avg_price := 100; Db.p_current_price := 103; Db.p_pnl := Some 6;
     Db.p_pnl_percent := Some 3; Db.p_high_water_mark := None;
     Db.p_created_at := 0%Z |}.

(** Two tenants over three minutes: a tick with an open position, the cash
    credit of its sale, a tick of the other tenant, a tick after the sale. *)
Definition three_minutes : list event :=
  [ tick "u1" 60000000%Z 0%Z [small_position];
    cash_write "u1" 10006;
    tick "u2" 90000000%Z 0%Z [];
    tick "u1" 120000000%Z 0%Z [] ].

Lemma max_equity_never_decreases_witness :
  (forall (i : nat) (earlier later : Q),
     max_equities "u1" (run three_minutes []) !! i = Some earlier ->
     max_equities "u1" (run three_minutes []) !! S i = Some later ->
     earlier <= later)
  /\ (forall (now today_start : Db.timestamp) (ps : list Db.position),
      exists (s : Db.snapshot) (equity top : Q),
        update_risk_metrics "u1" now today_start ps (run three_minutes [])
        = run three_minutes [] ++ [s]
        /\ Db.s_total_equity s = Some equity
        /\ Db.s_max_equity s = Some top
        /\ top == Qmax (previous_max "u1" (run three_minutes [])) equity).
Proof.
  apply (max_equity_never_decreases "u1" three_minutes).
  vm_compute. repeat constructor.
Defined.

End SnapshotFacts.

(** ** Entry and exit evaluation *)

Module EntryExitFacts.
Import BotEngine.

(** Every path of [check_buy_signal] hands the engine back untouched: no
    order goes to the execution collaborator and no document is written. *)
Lemma check_buy_signal_inert (self : t) (user_id symbol : string) (a : analysis)
  (metrics : RiskManager.risk_metrics) (current_price : Q)
  (all_positions : list Db.position) :
  fst (check_buy_signal self user_id symbol a metrics current_price all_positions)
  = self.
Proof.
  unfold check_buy_signal.
  repeat match goal with
         | |- context [if ?b then _ else _] => destruct b
         | |- context [match ?o with Some _ => _ | None => _ end] => destruct o
         end; reflexivity.
Qed.

(** An entry that passes every gate: 10000 of equity at its maximum, no loss
    on the day, confidence 80 with the buy flag set, heat at 3%, no other
    position. *)
Definition fresh_engine : t :=
  {| store := {| positions := []; trades := []; risk_metrics := [] |};
     submitted := [];
     price_history_cache := ∅ |}.

Definition healthy_metrics : RiskManager.risk_metrics :=
  {| RiskManager.rm_total_equity := Some 10000;
     RiskManager.rm_max_equity := Some 10000;
     RiskManager.rm_daily_pnl := Some 0;
     RiskManager.rm_cash_balance := Some 10000 |}.

Definition buy_analysis : analysis :=
  {| a_confidence := Some 80; a_buy_recommendation := Some true;
     a_heat_percent := Some 3; a_signal := Some "BUY";
     a_combined_confidence := Some 80; a_rsi := Some 25;
     a_tech_regime := Some "uptrend"; a_ai_analysis := Some "bullish";
     a_regime := Some "uptrend" |}.

Definition filled_at (price : Q) : TradingService.order_result :=
  {| TradingService.success := true; TradingService.filled_price := Some price |}.

(** C1 on the code.  With the risk gate approving, the buy flag set, heat at
    3%, the correlation check allowing and a computed size of 160, the entry
    evaluation ends on the log line "Trade not approved ... All checks
    passed": nothing is submitted, no trade or position is recorded and the
    snapshots keep their cash balance, where the block of lines 356-403 would
    have submitted the BUY. *)
Theorem approved_entry_submits_nothing :
  let validation :=
    RiskManager.validate_trade RiskManager.default
      (as_signal buy_analysis) healthy_metrics in
  let result :=
    check_buy_signal fresh_engine "u1" "BTC-USD" buy_analysis healthy_metrics
      45000 [] in
  RiskManager.approved validation = true
  /\ Py.get (a_buy_recommendation buy_analysis) false = true
  /\ Py.get (a_heat_percent buy_analysis) 0 < 15
  /\ AdvancedRiskManager.allowed
       (AdvancedRiskManager.check_correlation_risk "BTC-USD" []
          (price_history_cache fresh_engine)) = true
  /\ (exists size,
        AdvancedRiskManager.calculate_optimal_position_size
          (80 / 100) (10 # 100) 10000 (3 / 100) (15 # 100) = Some size
        /\ size == 160 /\ 10 <= size
        /\ submitted
             (open_position fresh_engine "u1" "BTC-USD" buy_analysis
                healthy_metrics 45000 size 0%Z (filled_at 45090))
           = [("BTC-USD", "BUY", size)])
  /\ result = (fresh_engine, not_approved_after_sizing "All checks passed")
  /\ submitted (fst result) = []
  /\ trades (store (fst result)) = []
  /\ positions (store (fst result)) = [].
Proof.
  cbv zeta. split; [reflexivity|]. split; [reflexivity|].
  split; [reflexivity|]. split; [reflexivity|]. split.
  - eexists. split; [reflexivity|].
    split; [apply Qeq_bool_eq; vm_compute; reflexivity|].
    split; [apply Qle_bool_iff; vm_compute; reflexivity|reflexivity].
  - split; [vm_compute; reflexivity|]. repeat split.
Qed.

(** The exit policy as the specification words it: the eight rules in one
    chain, the first match deciding the sale and its reason. *)
Definition first_match_rules (pnl_percent drawdown_from_high : Q) (a : analysis)
  (tech : tech_signals) (hours_held : Q) : bool * sell_reason :=
  let rsi := Py.get (a_rsi a) 50 in
  let regime := Py.get (a_tech_regime a) "neutral" in
  if Py.Qltb 3 pnl_percent && Py.Qleb 2 drawdown_from_high
  then (true, trailing_stop drawdown_from_high)
  else if Py.Qleb 5 pnl_percent
  then (true, profit_target)
  else if Py.Qleb pnl_percent (-3)
  then (true, stop_loss)
  else if is_string (ts_signal tech) "SELL"
          && Py.Qltb 70 (Py.get (ts_confidence tech) 0)
  then (true, technical_sell (Py.get (ts_confidence tech) 0))
  else if Py.Qltb 70 rsi && Py.Qltb 2 pnl_percent
  then (true, rsi_overbought rsi)
  else if (String.eqb regime "strong_downtrend" || String.eqb regime "downtrend")
          && Py.Qltb pnl_percent 3
  then (true, regime_change regime)
  else if (is_string (a_signal a) "SELL"
           || negb (Py.get (a_buy_recommendation a) false))
          && is_string (ts_signal tech) "SELL"
          && Py.Qltb 60 (Py.get (a_combined_confidence a) 0)
  then (true, combined_sell)
  else if Py.Qltb 24 hours_held && Py.Qltb pnl_percent 2
  then (true, time_based_exit)
  else (false, no_reason).

(** The code and the first-match chain always agree on whether to sell, and
    on the reason too whenever the time rule does not apply. *)
Lemma sell_rules_same_decision (pnl_percent drawdown_from_high : Q)
  (a : analysis) (tech : tech_signals) (hours_held : Q) :
  fst (sell_rules pnl_percent drawdown_from_high a tech hours_held)
  = fst (first_match_rules pnl_percent drawdown_from_high a tech hours_held).
Proof.
  unfold sell_rules, first_match_rules.
  repeat match goal with
         | |- context [if ?b then _ else _] => destruct b; cbn
         end; reflexivity.
Qed.

Lemma sell_rules_without_time_rule (pnl_percent drawdown_from_high : Q)
  (a : analysis) (tech : tech_signals) (hours_held : Q) :
  Py.Qltb 24 hours_held && Py.Qltb pnl_percent 2 = false ->
  sell_rules pnl_percent drawdown_from_high a tech hours_held
  = first_match_rules pnl_percent drawdown_from_high a tech hours_held.
Proof.
  intros H. unfold sell_rules, first_match_rules. rewrite H.
  repeat match goal with
         | |- context [if ?b then _ else _] => destruct b; cbn
         end; reflexivity.
Qed.

(** A position bought at 100 for 100, now at 96 (4% down), held 25 hours,
    with nothing else calling for a sale. *)
Definition losing_position : Db.position :=
  {| Db.p_user_id := "u1"; Db.p_symbol := "BTC-USD"; Db.p_quantity := 100;
     Db.p_avg_price := 100; Db.p_current_price := 96; Db.p_pnl := Some (-4);
     Db.p_pnl_percent := Some (-4); Db.p_high_water_mark := None;
     Db.p_created_at := 0%Z |}.

Definition quiet_analysis : analysis :=
  {| a_confidence := None; a_buy_recommendation := Some true;
     a_heat_percent := Some 3; a_signal := Some "HOLD";
     a_combined_confidence := Some 50; a_rsi := Some 50;
     a_tech_regime := Some "neutral"; a_ai_analysis := None;
     a_regime := Some "neutral" |}.

Definition hold_signals : tech_signals :=
  {| ts_signal := Some "HOLD"; ts_confidence := Some 50 |}.

Definition one_snapshot : Db.snapshot :=
  {| Db.s_user_id := "u1"; Db.s_total_equity := Some 10000;
     Db.s_max_equity := Some 10000; Db.s_equity_floor := 9700;
     Db.s_current_drawdown := 0; Db.s_daily_pnl := Some 0;
     Db.s_positions_value := 100; Db.s_cash_balance := Some 9900;
     Db.s_timestamp := 0%Z |}.

Definition holding_engine : t :=
  {| store := {| positions := [losing_position]; trades := [];
                 risk_metrics := [one_snapshot] |};
     submitted := [];
     price_history_cache := ∅ |}.

Definition after_25_hours : Db.timestamp := (25 * microseconds_per_hour)%Z.

(** C2 on the code.  At a loss of 4% after 25 hours the hard stop (rule c) is
    the first rule that matches, and the first-match chain answers
    [stop_loss]; the code answers [time_based_exit], and that is the reason
    stored with the SELL trade. *)
Theorem stop_loss_recorded_as_time_exit :
  let result :=
    check_sell_signal holding_engine "u1" "BTC-USD" losing_position
      quiet_analysis 96 hold_signals after_25_hours (filled_at 96) in
  first_match_rules (-4) 4 quiet_analysis hold_signals 25 = (true, stop_loss)
  /\ sell_rules (-4) 4 quiet_analysis hold_signals 25 = (true, time_based_exit)
  /\ snd result = sold time_based_exit
  /\ map t_reasoning (trades (store (fst result))) = [exit_rule time_based_exit].
Proof.
  cbv zeta. split; [reflexivity|]. split; [reflexivity|].
  split; vm_compute; reflexivity.
Qed.

End EntryExitFacts.

(** * Further properties

    ** Sums, means and rounding *)

Module NumericFacts.

Lemma sum_from (xs : list Q) (a : Q) :
  foldl (fun acc x => Qred (acc + x)) a xs == a + foldr Qplus 0 xs.
Proof.
  revert a. induction xs as [|x xs IH]; intros a; cbn.
  - ring.
  - rewrite IH, Qred_correct. ring.
Qed.

Lemma sum_foldr (xs : list Q) : Py.sum xs == foldr Qplus 0 xs.
Proof. unfold Py.sum. rewrite sum_from. ring. Qed.

Lemma sum_cons (x : Q) (xs : list Q) : Py.sum (x :: xs) == x + Py.sum xs.
Proof. rewrite !sum_foldr. reflexivity. Qed.

Lemma sum_bounds (lo hi : Q) (xs : list Q) :
  Forall (fun x => lo <= x <= hi) xs ->
  lo * inject_Z (Z.of_nat (length xs)) <= Py.sum xs
  /\ Py.sum xs <= hi * inject_Z (Z.of_nat (length xs)).
Proof.
  induction 1 as [|x xs [Hlo Hhi] _ [IHlo IHhi]].
  - cbn. split; rewrite Qmult_0_r; apply Qle_refl.
  - rewrite sum_cons. cbn [length]. rewrite Nat2Z.inj_succ.
    unfold Z.succ. rewrite inject_Z_plus. change (inject_Z 1) with 1.
    split; lra.
Qed.

Lemma length_positive {A : Type} (xs : list A) :
  xs <> [] -> 0 < inject_Z (Z.of_nat (length xs)).
Proof.
  intros H. destruct xs as [|x xs]; [contradiction|].
  change 0 with (inject_Z 0). rewrite <- Zlt_Qlt. cbn [length]. lia.
Qed.

(** A mean lies between any bounds of the elements. *)
Lemma mean_bounds (lo hi : Q) (xs : list Q) :
  xs <> [] -> Forall (fun x => lo <= x <= hi) xs ->
  lo <= Py.mean xs <= hi.
Proof.
  intros Hne Hall. unfold Py.mean. rewrite Qred_correct.
  destruct (sum_bounds lo hi xs Hall) as [Hlo Hhi].
  pose proof (length_positive xs Hne) as Hn.
  split.
  - apply Qle_shift_div_l; [exact Hn|exact Hlo].
  - apply Qle_shift_div_r; [exact Hn|exact Hhi].
Qed.

Lemma mean_nonneg (xs : list Q) : Forall (fun x => 0 <= x) xs -> 0 <= Py.mean xs.
Proof.
  intros Hall. destruct xs as [|x xs].
  - vm_compute. discriminate.
  - unfold Py.mean. rewrite Qred_correct.
    apply Qle_shift_div_l; [now apply length_positive|].
    rewrite Qmult_0_l. rewrite sum_foldr.
    clear -Hall. induction Hall as [|y ys Hy _ IH]; cbn; lra.
Qed.

Lemma mean_zero (xs : list Q) : Forall (fun x => x == 0) xs -> Py.mean xs == 0.
Proof.
  intros Hall. unfold Py.mean. rewrite Qred_correct.
  assert (Py.sum xs == 0) as ->.
  { rewrite sum_foldr. induction Hall as [|y ys Hy _ IH]; cbn; [reflexivity|].
    rewrite Hy, IH. ring. }
  unfold Qdiv. ring.
Qed.

Lemma mean_positive (xs : list Q) :
  xs <> [] -> Forall (fun x => 0 < x) xs -> 0 < Py.mean xs.
Proof.
  intros Hne Hall. unfold Py.mean. rewrite Qred_correct.
  apply Qlt_shift_div_l; [now apply length_positive|].
  rewrite Qmult_0_l, sum_foldr.
  destruct Hall as [|y ys Hy Hall]; [contradiction|]. cbn.
  assert (0 <= foldr Qplus 0 ys) as H0.
  { clear -Hall. induction Hall as [|z zs Hz _ IH]; cbn; lra. }
  lra.
Qed.

Lemma slice_last_Forall {A : Type} (P : A -> Prop) (n : nat) (xs : list A) :
  Forall P xs -> Forall P (Py.slice_last n xs).
Proof.
  intros H. destruct n; [exact H|]. unfold Py.slice_last, Py.last_n.
  now apply Forall_drop.
Qed.

Lemma slice_last_nonempty {A : Type} (n : nat) (xs : list A) :
  xs <> [] -> Py.slice_last n xs <> [].
Proof.
  intros Hne. destruct n; [exact Hne|]. unfold Py.slice_last, Py.last_n.
  intros E. apply (f_equal length) in E. rewrite length_drop in E.
  destruct xs; [contradiction|]. cbn in E. lia.
Qed.

Lemma diff_length (xs : list Q) : length (Py.diff xs) = (length xs - 1)%nat.
Proof.
  induction xs as [|x [|y rest] IH]; [reflexivity|reflexivity|].
  cbn [Py.diff length] in *. rewrite IH. lia.
Qed.

(** Rounding is monotone and fixes the integers. *)
Lemma round_half_even_le (z : Z) (x : Q) :
  x <= inject_Z z -> (Py.round_half_even x <= z)%Z.
Proof.
  intros H. pose proof (PyFacts.round_half_even_floor x) as [_ Hup].
  pose proof (Qfloor_resp_le _ _ H) as Hf. rewrite Qfloor_Z in Hf.
  destruct (Z.eq_dec (Qfloor x) z) as [E|Hne]; [|lia].
  assert (x == inject_Z z) as Hx.
  { apply Qle_antisym; [exact H|]. rewrite <- E. apply Qfloor_le. }
  rewrite (PyFacts.round_half_even_comp _ _ Hx).
  unfold Py.round_half_even. rewrite Qfloor_Z.
  assert (Qcompare (inject_Z z - inject_Z z) (1 # 2) = Qcompare 0 (1 # 2)) as ->
    by (apply Qcompare_comp; [ring|reflexivity]).
  change (Qcompare 0 (1 # 2)) with Lt. cbv iota. lia.
Qed.

Lemma round_half_even_mono (x y : Q) :
  x <= y -> (Py.round_half_even x <= Py.round_half_even y)%Z.
Proof.
  intros H. pose proof (Qfloor_resp_le _ _ H) as Hf.
  pose proof (PyFacts.round_half_even_floor x) as [Hx1 Hx2].
  pose proof (PyFacts.round_half_even_floor y) as [Hy1 Hy2].
  destruct (Z.eq_dec (Qfloor x) (Qfloor y)) as [E|Hne]; [|lia].
  unfold Py.round_half_even. rewrite E.
  destruct (Qcompare_spec (x - inject_Z (Qfloor y)) (1 # 2)) as [Ex|Ex|Ex];
    destruct (Qcompare_spec (y - inject_Z (Qfloor y)) (1 # 2)) as [Ey|Ey|Ey];
    try destruct (Z.even (Qfloor y)); try lia; lra.
Qed.

Lemma pow10_positive (n : nat) : 0 < Py.pow10 n.
Proof.
  unfold Py.pow10. change 0 with (inject_Z 0). rewrite <- Zlt_Qlt.
  apply Z.pow_pos_nonneg; lia.
Qed.

Lemma round_mono (x y : Q) (n : nat) : x <= y -> Py.round x n <= Py.round y n.
Proof.
  intros H. unfold Py.round. pose proof (pow10_positive n) as Hp.
  apply Qmult_le_compat_r; [|apply Qlt_le_weak, Qinv_lt_0_compat, Hp].
  rewrite <- Zle_Qle. apply round_half_even_mono.
  apply Qmult_le_compat_r; [exact H|now apply Qlt_le_weak].
Qed.

Lemma round_integer (z : Z) (n : nat) : Py.round (inject_Z z) n == inject_Z z.
Proof.
  unfold Py.round, Py.pow10. rewrite <- inject_Z_mult.
  unfold Py.round_half_even. rewrite Qfloor_Z.
  assert (Qcompare (inject_Z (z * 10 ^ Z.of_nat n)
                    - inject_Z (z * 10 ^ Z.of_nat n)) (1 # 2)
          = Qcompare 0 (1 # 2)) as ->
    by (apply Qcompare_comp; [ring|reflexivity]).
  change (Qcompare 0 (1 # 2)) with Lt. cbv iota.
  rewrite inject_Z_mult. field.
  pose proof (pow10_positive n) as Hp. unfold Py.pow10 in Hp. lra.
Qed.

Lemma round_between (lo hi : Z) (x : Q) (n : nat) :
  inject_Z lo <= x <= inject_Z hi ->
  inject_Z lo <= Py.round x n <= inject_Z hi.
Proof.
  intros [Hlo Hhi]. split.
  - rewrite <- (round_integer lo n). now apply round_mono.
  - rewrite <- (round_integer hi n). now apply round_mono.
Qed.

Lemma round_comp (x y : Q) (n : nat) : x == y -> Py.round x n = Py.round y n.
Proof.
  intros E. unfold Py.round.
  rewrite (PyFacts.round_half_even_comp (x * Py.pow10 n) (y * Py.pow10 n));
    [reflexivity|]. now rewrite E.
Qed.

(** An amount in whole cents is its own rounding to two digits. *)
Lemma round_cents (z : Z) : Py.round (z # 100) 2 == z # 100.
Proof.
  unfold Py.round. change (Py.pow10 2) with 100.
  assert ((z # 100) * 100 == inject_Z z) as E.
  { unfold Qeq. cbn. lia. }
  rewrite (PyFacts.round_half_even_comp _ _ E).
  unfold Py.round_half_even. rewrite Qfloor_Z.
  assert (Qcompare (inject_Z z - inject_Z z) (1 # 2) = Qcompare 0 (1 # 2)) as ->
    by (apply Qcompare_comp; [ring|reflexivity]).
  change (Qcompare 0 (1 # 2)) with Lt. cbv iota.
  unfold Qeq, Qdiv. cbn. lia.
Qed.

End NumericFacts.

(** ** RSI, EMA and MACD *)

Module IndicatorFacts.
Import TechnicalIndicators.

(** *** RSI *)

Definition gains_of (deltas : list Q) : list Q :=
  map (fun d => if Py.Qltb 0 d then d else 0) deltas.

Definition losses_of (deltas : list Q) : list Q :=
  map (fun d => if Py.Qltb d 0 then - d else 0) deltas.

Lemma gains_nonneg (deltas : list Q) : Forall (fun x => 0 <= x) (gains_of deltas).
Proof.
  apply Forall_fmap, Forall_forall. intros d _. cbn.
  destruct (PyFacts.Qltb_spec 0 d); lra.
Qed.

Lemma losses_nonneg (deltas : list Q) : Forall (fun x => 0 <= x) (losses_of deltas).
Proof.
  apply Forall_fmap, Forall_forall. intros d _. cbn.
  destruct (PyFacts.Qltb_spec d 0); lra.
Qed.

(** X1.  With a period of at least 1 the RSI lies between 0 and 100, whatever
    the prices.  (A period of 0 makes numpy average an empty slice.) *)
Theorem rsi_in_range (prices : list Q) (period : nat) :
  (1 <= period)%nat ->
  0 <= calculate_rsi prices period <= 100.
Proof.
  intros _. unfold calculate_rsi.
  destruct (length prices <? period + 1)%nat; [split; discriminate|].
  fold (gains_of (Py.diff prices)). fold (losses_of (Py.diff prices)).
  set (avg_gain := Py.mean (Py.slice_last period (gains_of (Py.diff prices)))).
  set (avg_loss := Py.mean (Py.slice_last period (losses_of (Py.diff prices)))).
  assert (0 <= avg_gain) as Hg
    by (apply NumericFacts.mean_nonneg, NumericFacts.slice_last_Forall, gains_nonneg).
  assert (0 <= avg_loss) as Hl
    by (apply NumericFacts.mean_nonneg, NumericFacts.slice_last_Forall, losses_nonneg).
  destruct (Py.Qeqb avg_loss 0) eqn:Ez; [split; discriminate|].
  assert (0 < avg_loss) as Hpos.
  { destruct (Qlt_le_dec 0 avg_loss) as [H|H]; [exact H|].
    assert (avg_loss == 0) as E by lra.
    apply PyFacts.Qeqb_eq in E. congruence. }
  assert (0 <= avg_gain / avg_loss) as Hrs.
  { apply Qle_shift_div_l; [exact Hpos|]. lra. }
  change 0 with (inject_Z 0). change 100 with (inject_Z 100).
  apply NumericFacts.round_between. change (inject_Z 0) with 0.
  change (inject_Z 100) with 100.
  set (rs := avg_gain / avg_loss) in *.
  assert (0 < 100 / (1 + rs)) as H1 by (apply Qlt_shift_div_l; lra).
  assert (100 / (1 + rs) <= 100) as H2 by (apply Qle_shift_div_r; lra).
  lra.
Qed.

Lemma rsi_in_range_witness :
  0 <= calculate_rsi [10; 11; 10; 12; 13; 12; 14] 3 <= 100.
Proof. apply (rsi_in_range [10; 11; 10; 12; 13; 12; 14] 3). lia. Defined.

(** X2.  With enough prices, a series that never falls has an RSI of 100 and
    a series that falls at every step has an RSI of 0. *)
Theorem rsi_of_monotone_series (prices : list Q) (period : nat) :
  (1 <= period)%nat -> (period + 1 <= length prices)%nat ->
  (Forall (fun d => 0 <= d) (Py.diff prices) ->
     calculate_rsi prices period == 100)
  /\ (Forall (fun d => d < 0) (Py.diff prices) ->
     calculate_rsi prices period == 0).
Proof.
  intros Hp Hlen. unfold calculate_rsi.
  apply Nat.ltb_ge in Hlen as Hb. rewrite Hb.
  fold (gains_of (Py.diff prices)). fold (losses_of (Py.diff prices)).
  assert (Py.diff prices <> []) as Hne.
  { intros E. apply (f_equal length) in E. rewrite NumericFacts.diff_length in E.
    cbn in E. lia. }
  split; intros Hall.
  - assert (Py.mean (Py.slice_last period (losses_of (Py.diff prices))) == 0) as E.
    { apply NumericFacts.mean_zero, NumericFacts.slice_last_Forall.
      apply Forall_fmap. eapply Forall_impl; [exact Hall|].
      intros d Hd. cbn in Hd |- *. destruct (PyFacts.Qltb_spec d 0); [lra|reflexivity]. }
    apply PyFacts.Qeqb_eq in E. rewrite E. reflexivity.
  - assert (Py.mean (Py.slice_last period (gains_of (Py.diff prices))) == 0) as Eg.
    { apply NumericFacts.mean_zero, NumericFacts.slice_last_Forall.
      apply Forall_fmap. eapply Forall_impl; [exact Hall|].
      intros d Hd. cbn in Hd |- *. destruct (PyFacts.Qltb_spec 0 d); [lra|reflexivity]. }
    assert (0 < Py.mean (Py.slice_last period (losses_of (Py.diff prices)))) as Hl.
    { apply NumericFacts.mean_positive.
      - apply NumericFacts.slice_last_nonempty. unfold losses_of.
        intros E. apply Hne. now apply fmap_nil_inv in E.
      - apply NumericFacts.slice_last_Forall, Forall_fmap.
        eapply Forall_impl; [exact Hall|].
        intros d Hd. cbn in Hd |- *. destruct (PyFacts.Qltb_spec d 0); lra. }
    destruct (Py.Qeqb _ 0) eqn:Ez.
    { apply PyFacts.Qeqb_eq in Ez. lra. }
    apply PyFacts.round2_zero. rewrite Eg. field. lra.
Qed.

Lemma rsi_of_monotone_series_witness :
  (Forall (fun d => 0 <= d) (Py.diff [1; 2; 2; 3; 5]) ->
     calculate_rsi [1; 2; 2; 3; 5] 3 == 100)
  /\ (Forall (fun d => d < 0) (Py.diff [1; 2; 2; 3; 5]) ->
     calculate_rsi [1; 2; 2; 3; 5] 3 == 0).
Proof. apply (rsi_of_monotone_series [1; 2; 2; 3; 5] 3); cbn; lia. Defined.

(** *** EMA and MACD *)

Lemma ema_multiplier (period : nat) :
  (1 <= period)%nat ->
  0 < 2 / inject_Z (Z.of_nat period + 1) <= 1.
Proof.
  intros Hp.
  assert (2 <= inject_Z (Z.of_nat period + 1)) as H.
  { change 2 with (inject_Z 2). rewrite <- Zle_Qle. lia. }
  split.
  - apply Qlt_shift_div_l; lra.
  - apply Qle_shift_div_r; lra.
Qed.

Lemma ema_steps_between (lo hi m : Q) (rest : list Q) (start : Q) :
  0 < m <= 1 -> lo <= start <= hi ->
  Forall (fun p => lo <= p <= hi) rest ->
  lo <= foldl (fun ema price => Qred (price * m + ema * (1 - m))) start rest <= hi.
Proof.
  intros Hm Hstart Hrest. revert start Hstart.
  induction Hrest as [|p rest Hp _ IH]; intros start Hstart; [exact Hstart|].
  cbn [foldl]. apply IH. rewrite Qred_correct. split; nra.
Qed.



(** The EMA of a constant series is the constant. *)
Lemma ema_of_constant (prices : list Q) (period : nat) (c : Q) :
  (1 <= period)%nat -> prices <> [] ->
  Forall (fun p => c <= p <= c) prices ->
  _calculate_ema prices period == c.
Proof.
  intros Hp Hne Hall.
  assert (c <= _calculate_ema prices period <= c) as [H1 H2]; [|lra].
  unfold _calculate_ema.
  destruct (Nat.ltb_spec (length prices) period) as [Hshort|Hlong].
  - now apply NumericFacts.mean_bounds.
  - apply ema_steps_between.
    + now apply ema_multiplier.
    + apply NumericFacts.mean_bounds; [|now apply Forall_take].
      intros E. apply (f_equal length) in E. rewrite length_take in E.
      destruct prices; [contradiction|]. cbn in E. lia.
    + now apply Forall_drop.
Qed.

Lemma macd_at_flat (prices : list Q) (fast slow i : nat) (c : Q) :
  (1 <= fast)%nat -> (1 <= slow)%nat ->
  Forall (fun p => c <= p <= c) prices -> prices <> [] ->
  macd_at prices fast slow i == 0.
Proof.
  intros Hf Hs Hall Hne. unfold macd_at.
  assert (take (i + 1) prices <> []) as Hne'.
  { destruct prices; [contradiction|]. rewrite Nat.add_1_r. discriminate. }
  pose proof (ema_of_constant (take (i + 1) prices) fast c Hf Hne'
                (Forall_take _ _ _ Hall)).
  pose proof (ema_of_constant (take (i + 1) prices) slow c Hs Hne'
                (Forall_take _ _ _ Hall)).
  lra.
Qed.

(** X4.  On a flat series (every price equal to [c]) the MACD line, the
    signal line and the histogram are all 0, whatever the length and the
    (positive) spans. *)
Theorem macd_of_flat_series (prices : list Q) (fast slow sig : nat) (c : Q) :
  (1 <= fast)%nat -> (1 <= slow)%nat -> (1 <= sig)%nat ->
  Forall (fun p => p == c) prices ->
  macd (calculate_macd prices fast slow sig) == 0
  /\ signal (calculate_macd prices fast slow sig) == 0
  /\ histogram (calculate_macd prices fast slow sig) == 0.
Proof.
  intros Hf Hs Hg Hall.
  assert (Forall (fun p => c <= p <= c) prices) as Hb.
  { eapply Forall_impl; [exact Hall|]. intros p Hp. cbn in Hp. lra. }
  unfold calculate_macd.
  destruct (Nat.ltb_spec (length prices) (slow + sig)) as [Hshort|Hlong];
    [repeat split; reflexivity|].
  assert (prices <> []) as Hne.
  { intros ->. cbn in Hlong. lia. }
  pose proof (ema_of_constant prices fast c Hf Hne Hb) as Hef.
  pose proof (ema_of_constant prices slow c Hs Hne Hb) as Hes.
  set (line := _calculate_ema prices fast - _calculate_ema prices slow).
  assert (line == 0) as Hline by (unfold line; lra).
  assert ((if (slow * 2 <=? length prices)%nat
           then if (sig <=? length (macd_values prices fast slow))%nat
                then _calculate_ema (macd_values prices fast slow) sig
                else line
           else line) == 0) as Hsig.
  { destruct (slow * 2 <=? length prices)%nat; [|exact Hline].
    destruct (Nat.leb_spec sig (length (macd_values prices fast slow)))
      as [Hen|_]; [|exact Hline].
    assert (macd_values prices fast slow <> []) as Hv.
    { intros E. rewrite E in Hen. cbn in Hen. lia. }
    assert (Forall (fun v => 0 <= v <= 0) (macd_values prices fast slow)) as Hz.
    { unfold macd_values. apply Forall_fmap, Forall_forall. intros i _. cbn.
      pose proof (macd_at_flat prices fast slow i c Hf Hs Hb Hne). lra. }
    exact (ema_of_constant _ sig 0 Hg Hv Hz). }
  cbn [macd signal histogram].
  split; [now apply PyFacts.round2_zero|].
  split; [now apply PyFacts.round2_zero|].
  apply PyFacts.round2_zero. fold line. lra.
Qed.

Lemma macd_of_flat_series_witness :
  macd (calculate_macd (repeat 7 60) 12 26 9) == 0
  /\ signal (calculate_macd (repeat 7 60) 12 26 9) == 0
  /\ histogram (calculate_macd (repeat 7 60) 12 26 9) == 0.
Proof.
  apply (macd_of_flat_series (repeat 7 60) 12 26 9 7); try lia.
  apply Forall_forall. intros p Hp. apply list_elem_of_In, repeat_spec in Hp.
  now subst p.
Defined.

End IndicatorFacts.

(** ** Technical signals and market regime *)

Module SignalFacts.
Import TechnicalIndicators.

(** The four bearish contributions of [generate_trading_signals]. *)
Definition all_bearish (rsi : Q) (m : macd_result) (bands : bollinger)
  (current_price : Q) (regime : string) : Prop :=
  70 < rsi
  /\ (histogram m < 0 /\ macd m < signal m)
  /\ (lower bands <= current_price /\ upper bands < current_price)
  /\ (regime = "strong_downtrend" \/ regime = "downtrend").

Lemma downtrend_label (regime : string) :
  String.eqb regime "strong_downtrend" || String.eqb regime "downtrend" = true
  <-> regime = "strong_downtrend" \/ regime = "downtrend".
Proof. now rewrite orb_true_iff, !String.eqb_eq. Qed.

Lemma uptrend_not_downtrend (regime : string) :
  String.eqb regime "strong_uptrend" || String.eqb regime "uptrend" = true ->
  String.eqb regime "strong_downtrend" || String.eqb regime "downtrend" = false.
Proof.
  rewrite orb_true_iff, !String.eqb_eq. intros [->| ->]; reflexivity.
Qed.

Lemma Qltb_exclusive (x lo hi : Q) :
  lo <= hi -> Py.Qltb x lo = true -> Py.Qltb hi x = false.
Proof.
  intros H Hx. apply PyFacts.Qltb_lt in Hx. apply PyFacts.Qltb_ge. lra.
Qed.

(** X5.  The technical signal is SELL with a confidence above 70 exactly
    when all four bearish contributions are present: RSI above 70, a bearish
    MACD crossover, the price above the upper band (and not below the lower
    one) and a downtrend regime. *)
Theorem strong_sell_needs_everything (rsi : Q) (m : macd_result)
  (bands : bollinger) (current_price : Q) (regime : string) :
  let s := generate_trading_signals rsi m bands current_price regime in
  (ts_signal s = "SELL" /\ 70 < ts_confidence s)
  <-> all_bearish rsi m bands current_price regime.
Proof.
  intros s. subst s. unfold all_bearish, generate_trading_signals.
  rewrite <- downtrend_label.
  rewrite <- (PyFacts.Qltb_lt 70 rsi), <- (PyFacts.Qltb_lt (histogram m) 0),
    <- (PyFacts.Qltb_lt (macd m) (signal m)),
    <- (PyFacts.Qltb_ge current_price (lower bands)),
    <- (PyFacts.Qltb_lt (upper bands) current_price), <- andb_true_iff.
  pose proof (uptrend_not_downtrend regime) as Hg.
  pose proof (Qltb_exclusive rsi 30 70 ltac:(discriminate)) as Hr.
  assert (Py.Qltb 0 (histogram m) && Py.Qltb (signal m) (macd m) = true ->
          Py.Qltb (histogram m) 0 && Py.Qltb (macd m) (signal m) = false) as Hm.
  { rewrite andb_true_iff. intros [H _]. apply PyFacts.Qltb_lt in H.
    apply andb_false_iff. left. apply PyFacts.Qltb_ge. lra. }
  set (r1 := Py.Qltb rsi 30) in *. set (r2 := Py.Qltb 70 rsi) in *.
  set (m1 := Py.Qltb 0 (histogram m) && Py.Qltb (signal m) (macd m)) in *.
  set (m2 := Py.Qltb (histogram m) 0 && Py.Qltb (macd m) (signal m)) in *.
  set (b1 := Py.Qltb current_price (lower bands)) in *.
  set (b2 := Py.Qltb (upper bands) current_price) in *.
  set (g1 := String.eqb regime "strong_uptrend" || String.eqb regime "uptrend") in *.
  set (g2 := String.eqb regime "strong_downtrend" || String.eqb regime "downtrend")
    in *.
  set (g3 := String.eqb regime "oversold_bounce") in *.
  clearbody r1 r2 m1 m2 b1 b2 g1 g2 g3.
  destruct r1; [rewrite (Hr eq_refl)|destruct r2]; clear Hr;
    (destruct m1; [rewrite (Hm eq_refl)|destruct m2]); clear Hm;
    (destruct b1; [|destruct b2]);
    (destruct g1; [rewrite (Hg eq_refl)|destruct g2; [|destruct g3]]); clear Hg;
    vm_compute;
    (split; [intros [H1 H2]; try discriminate H1; try discriminate H2;
             repeat split; reflexivity
            |intros (H1 & H2 & [H4 H5] & H6);
             try discriminate H1; try discriminate H2;
             try discriminate H4; try discriminate H5; try discriminate H6;
             split; reflexivity]).
Qed.

(** The shape of a result of [generate_trading_signals], as a test. *)
Definition signal_shape (s : trading_signals) : bool :=
  Py.Qleb 15 (ts_confidence s) && Py.Qleb (ts_confidence s) 80
  && ((String.eqb (ts_signal s) "BUY"
       && Py.Qltb (sell_strength s) (buy_strength s)
       && Py.Qeqb (ts_confidence s) (buy_strength s))
      || (String.eqb (ts_signal s) "SELL"
          && Py.Qltb (buy_strength s) (sell_strength s)
          && Py.Qeqb (ts_confidence s) (sell_strength s))
      || (String.eqb (ts_signal s) "HOLD"
          && Py.Qeqb (buy_strength s) (sell_strength s)
          && Py.Qeqb (ts_confidence s) 50)).

Lemma signal_shape_holds (rsi : Q) (m : macd_result)
  (bands : bollinger) (current_price : Q) (regime : string) :
  signal_shape (generate_trading_signals rsi m bands current_price regime) = true.
Proof.
  unfold generate_trading_signals.
  destruct (Py.Qltb rsi 30); [|destruct (Py.Qltb 70 rsi)];
    (destruct (Py.Qltb 0 (histogram m) && Py.Qltb (signal m) (macd m));
     [|destruct (Py.Qltb (histogram m) 0 && Py.Qltb (macd m) (signal m))]);
    (destruct (Py.Qltb current_price (lower bands));
     [|destruct (Py.Qltb (upper bands) current_price)]);
    (destruct (String.eqb regime "strong_uptrend" || String.eqb regime "uptrend");
     [|destruct (String.eqb regime "strong_downtrend"
                 || String.eqb regime "downtrend");
       [|destruct (String.eqb regime "oversold_bounce")]]);
    vm_compute; reflexivity.
Qed.

(** X6.  The confidence of the technical signal is 50 on a tie (HOLD) and
    otherwise the winning strength, which lies between 15 and 80: the cap at
    100 never binds. *)
Theorem signal_confidence_range (rsi : Q) (m : macd_result)
  (bands : bollinger) (current_price : Q) (regime : string) :
  let s := generate_trading_signals rsi m bands current_price regime in
  15 <= ts_confidence s <= 80
  /\ (ts_signal s = "BUY" /\ sell_strength s < buy_strength s
                         /\ ts_confidence s == buy_strength s
      \/ ts_signal s = "SELL" /\ buy_strength s < sell_strength s
                             /\ ts_confidence s == sell_strength s
      \/ ts_signal s = "HOLD" /\ buy_strength s == sell_strength s
                             /\ ts_confidence s == 50).
Proof.
  intros s. pose proof (signal_shape_holds rsi m bands current_price regime) as H.
  fold s in H. unfold signal_shape in H.
  rewrite !andb_true_iff, !orb_true_iff, !andb_true_iff in H.
  rewrite !String.eqb_eq, !PyFacts.Qleb_le, !PyFacts.Qltb_lt, !PyFacts.Qeqb_eq in H.
  tauto.
Qed.

(** *** Market regime *)

(** The 20-period change in percent that [detect_market_regime] computes. *)
Definition price_trend (prices : list Q) : Q :=
  (List.last prices 0 - nth (length prices - 20) prices 0)
  / nth (length prices - 20) prices 0 * 100.

(** The regime can be computed: 20 prices and a non-zero reference price. *)
Definition classifiable (prices : list Q) : Prop :=
  (20 <= length prices)%nat /\ ~ nth (length prices - 20) prices 0 == 0.

(** X7.  The regime is a downtrend label exactly when the series fell by
    more than 2% over 20 periods on a negative MACD histogram, and an uptrend
    label exactly when it rose by more than 2% on a positive histogram; a
    series that is too short or has a zero reference price is "uncertain". *)
Theorem trend_regimes (prices : list Q) (rsi : Q) (m : macd_result)
  (bands : bollinger) :
  let regime := detect_market_regime prices rsi m bands in
  ((regime = "strong_downtrend" \/ regime = "downtrend")
     <-> classifiable prices /\ price_trend prices < -2 /\ histogram m < 0)
  /\ ((regime = "strong_uptrend" \/ regime = "uptrend")
     <-> classifiable prices /\ 2 < price_trend prices /\ 0 < histogram m)
  /\ (~ classifiable prices -> regime = "uncertain").
Proof.
  intros regime. subst regime. unfold detect_market_regime, classifiable.
  destruct (Nat.ltb_spec (length prices) 20) as [Hshort|Hlong].
  { split; [|split]; [| |reflexivity];
      (split; [intros [E|E]; discriminate E|intros [[Hl _] _]; lia]). }
  destruct (Py.Qeqb (nth (length prices - 20) prices 0) 0) eqn:Hz.
  { apply PyFacts.Qeqb_eq in Hz.
    split; [|split]; [| |reflexivity];
      (split; [intros [E|E]; discriminate E|intros [[_ Hl] _]; tauto]). }
  assert (~ nth (length prices - 20) prices 0 == 0) as Hnz.
  { intros E. apply PyFacts.Qeqb_eq in E. congruence. }
  fold (price_trend prices). set (t := price_trend prices).
  match goal with
  | |- context [if ?c then "oversold_bounce" else ?r] =>
    set (rest := if c then "oversold_bounce" else r)
  end.
  assert (rest <> "strong_downtrend" /\ rest <> "downtrend"
          /\ rest <> "strong_uptrend" /\ rest <> "uptrend") as Hrest.
  { unfold rest.
    repeat match goal with
           | |- context [if ?c then _ else _] => destruct c
           end; repeat split; discriminate. }
  clearbody rest. destruct Hrest as (R1 & R2 & R3 & R4).
  assert ((20 <= length prices)%nat
          /\ ~ nth (length prices - 20) prices 0 == 0) as Hc by now split.
  destruct (PyFacts.Qltb_spec 0 (histogram m)) as [Hbull|Hbull];
    destruct (PyFacts.Qltb_spec (histogram m) 0) as [Hbear|Hbear];
    try lra;
    destruct (PyFacts.Qltb_spec 5 t) as [T5|T5];
    destruct (PyFacts.Qltb_spec 2 t) as [T2|T2]; try lra;
    destruct (PyFacts.Qltb_spec t (-5)) as [M5|M5];
    destruct (PyFacts.Qltb_spec t (-2)) as [M2|M2]; try lra;
    destruct (Py.Qltb 70 rsi); destruct (Py.Qltb rsi 30);
    cbn [andb negb];
    (split; [|split]);
    try (intros Hn; exfalso; apply Hn; exact Hc);
    (split;
     [intros [Hl|Hl]; try discriminate Hl; try contradiction;
      repeat split; try assumption; try lia; lra
     |intros (_ & H1 & H2); try lra;
      first [left; reflexivity|right; reflexivity]]).
Qed.

End SignalFacts.

(** ** Sampled timeframes *)

Module TimeframeFacts.
Import MultiTimeframeAnalysis.

Lemma stride_length (k : nat) (xs : list Q) :
  length (Py.stride k xs) = ((length xs + k - 1) / k)%nat.
Proof. unfold Py.stride. now rewrite length_map, length_seq. Qed.

Lemma last_n_length {A : Type} (n : nat) (xs : list A) :
  length (Py.last_n n xs) = Nat.min n (length xs).
Proof. unfold Py.last_n. rewrite length_drop. lia. Qed.

Lemma analyze_timeframe_valid (prices : list Q) :
  valid (_analyze_timeframe prices) = negb (length prices <? 10)%nat.
Proof.
  unfold _analyze_timeframe. destruct (length prices <? 10)%nat; [reflexivity|].
  repeat match goal with
         | |- context [if ?c then _ else _] => destruct c
         end; reflexivity.
Qed.

Lemma hour_sample_short (prices : list Q) :
  (length (Py.stride 12 (Py.last_n 100 prices)) < 10)%nat.
Proof.
  rewrite stride_length, last_n_length.
  apply Nat.Div0.div_lt_upper_bound. lia.
Qed.

Lemma four_hour_sample (prices : list Q) :
  (10 <= length (Py.stride 48 prices))%nat <-> (433 <= length prices)%nat.
Proof.
  rewrite stride_length. split; intros H.
  - destruct (Nat.le_gt_cases 433 (length prices)) as [Hle|Hgt]; [exact Hle|].
    assert ((length prices + 48 - 1) / 48 < 10)%nat
      by (apply Nat.Div0.div_lt_upper_bound; lia).
    lia.
  - apply Nat.div_le_lower_bound; lia.
Qed.

(** X8.  The '1h' timeframe of [analyze_timeframes] is never valid: a
    stride of 12 over the last 100 prices yields at most 9 samples, below
    the 10 that [_analyze_timeframe] asks for.  The '4h' timeframe is valid
    exactly from 433 prices on. *)
Theorem long_timeframes_validity (prices : list Q) :
  valid (tf_1h (frames (analyze_timeframes prices))) = false
  /\ (valid (tf_4h (frames (analyze_timeframes prices))) = true
      <-> (433 <= length prices)%nat).
Proof.
  unfold analyze_timeframes.
  destruct (Nat.ltb_spec (length prices) 50) as [Hshort|Hlong]; cbn [frames tf_1h tf_4h].
  - split; [reflexivity|]. cbn. split; [discriminate|lia].
  - rewrite !analyze_timeframe_valid. split.
    + apply negb_false_iff, Nat.ltb_lt, hour_sample_short.
    + rewrite negb_true_iff, Nat.ltb_ge. apply four_hour_sample.
Qed.

(** No more than two timeframes being valid, neither count reaches 3. *)
Lemma alignment_of_two (a : timeframes) :
  valid (tf_1h a) = false -> valid (tf_4h a) = false ->
  _calculate_alignment a <> strong_bullish
  /\ _calculate_alignment a <> strong_bearish.
Proof.
  intros H1 H4. unfold _calculate_alignment, valid_trends. cbn [List.filter].
  rewrite H1, H4.
  destruct (valid (tf_5m a)), (valid (tf_15m a)); cbn [map];
    destruct (tf_trend (tf_5m a)), (tf_trend (tf_15m a));
    cbn; split; discriminate.
Qed.

(** The two long samples of a series of at most 432 prices. *)
Lemma long_samples_short (prices : list Q) :
  (length prices <= 432)%nat ->
  valid (_analyze_timeframe (Py.stride 12 (Py.last_n 100 prices))) = false
  /\ valid (_analyze_timeframe (Py.stride 48 prices)) = false.
Proof.
  intros Hlen. rewrite !analyze_timeframe_valid, !negb_false_iff, !Nat.ltb_lt.
  split; [apply hour_sample_short|].
  destruct (Nat.le_gt_cases 10 (length (Py.stride 48 prices))) as [H|H]; [|exact H].
  apply four_hour_sample in H. lia.
Qed.

(** *** Strengths *)

Lemma frame_strength_range (prices : list Q) :
  0 <= tf_strength (_analyze_timeframe prices) <= 10.
Proof.
  unfold _analyze_timeframe.
  destruct (length prices <? 10)%nat; [split; discriminate|].
  destruct (20 <=? length prices)%nat;
    match goal with
    | |- context [if Py.Qltb 2 ?d then _ else _] => set (diff := d)
    end;
    (destruct (PyFacts.Qltb_spec 2 diff) as [Hb|Hb];
     [|destruct (PyFacts.Qltb_spec diff (-2)) as [Hs|Hs]]);
    cbn [tf_strength];
    change 0 with (inject_Z 0); change 10 with (inject_Z 10);
    apply NumericFacts.round_between;
    change (inject_Z 0) with 0; change (inject_Z 10) with 10;
    try (split; discriminate);
    (split; [|apply PyFacts.min_le_r]);
    unfold Py.min;
    match goal with
    | |- context [Py.Qltb 10 ?x] => destruct (PyFacts.Qltb_spec 10 x)
    end; try lra; try apply PyFacts.abs_nonneg.
Qed.

Definition frame_in_range (tf : timeframe) : Prop := 0 <= tf_strength tf <= 10.

Lemma trend_strength_range (a : timeframes) :
  frame_in_range (tf_5m a) -> frame_in_range (tf_15m a) ->
  frame_in_range (tf_1h a) -> frame_in_range (tf_4h a) ->
  -10 <= _calculate_trend_strength a <= 10.
Proof.
  unfold frame_in_range. intros H1 H2 H3 H4.
  unfold _calculate_trend_strength, signed_strengths. cbn [List.filter].
  destruct (valid (tf_5m a)), (valid (tf_15m a)), (valid (tf_1h a)),
    (valid (tf_4h a)); cbn [map length take zip_with];
    try (split; discriminate);
    change (-10) with (inject_Z (-10)); change 10 with (inject_Z 10);
    apply NumericFacts.round_between;
    change (inject_Z (-10)) with (-10); change (inject_Z 10) with 10;
    rewrite !NumericFacts.sum_foldr; cbn [foldr];
    repeat match goal with
           | |- context [if trend_eqb ?t bearish then _ else _] =>
             destruct (trend_eqb t bearish)
           end;
    (split; [apply Qle_shift_div_l|apply Qle_shift_div_r]); lra.
Qed.

Lemma analysis_strength_range (prices : list Q) :
  -10 <= mtf_strength (analyze_timeframes prices) <= 10.
Proof.
  unfold analyze_timeframes.
  destruct (length prices <? 50)%nat; [split; discriminate|].
  cbn [mtf_strength]. apply trend_strength_range; apply frame_strength_range.
Qed.

Ltac recommendation_cases :=
  unfold get_trading_recommendation;
  repeat match goal with
         | |- context [if ?c && Py.Qltb ?x ?y then _ else _] =>
           destruct c; cbn [andb]; [destruct (PyFacts.Qltb_spec x y)|]
         end; cbn [confidence rec_action]; try (split; discriminate);
  unfold Py.min, Py.abs;
  repeat match goal with
         | |- context [Py.Qltb ?x ?y] => destruct (PyFacts.Qltb_spec x y)
         end.

Lemma recommendation_confidence_le_95 (prices : list Q) (current_position : bool) :
  confidence
    (get_trading_recommendation (analyze_timeframes prices) current_position)
  <= 95.
Proof.
  pose proof (analysis_strength_range prices) as [Hlo Hhi].
  recommendation_cases; try discriminate; lra.
Qed.

(** X9.  On at most 432 prices (the engine asks for 100) the alignment is
    never strong: the '1h' and '4h' timeframes are invalid, so at most two
    timeframes can agree.  The recommendation then never takes a strong
    branch, and its confidence stays at 80 or below. *)
Theorem no_strong_alignment_below_433 (prices : list Q) (current_position : bool) :
  (length prices <= 432)%nat ->
  mtf_alignment (analyze_timeframes prices) <> strong_bullish
  /\ mtf_alignment (analyze_timeframes prices) <> strong_bearish
  /\ confidence
       (get_trading_recommendation (analyze_timeframes prices) current_position)
     <= 80.
Proof.
  intros Hlen.
  assert (mtf_alignment (analyze_timeframes prices) <> strong_bullish
          /\ mtf_alignment (analyze_timeframes prices) <> strong_bearish)
    as [Hb Hs].
  { destruct (long_samples_short prices Hlen) as [H1 H4].
    unfold analyze_timeframes.
    destruct (length prices <? 50)%nat; [split; discriminate|].
    cbn [mtf_alignment]. now apply alignment_of_two. }
  split; [exact Hb|]. split; [exact Hs|].
  pose proof (analysis_strength_range prices) as [Hlo Hhi].
  unfold get_trading_recommendation.
  set (s := mtf_strength (analyze_timeframes prices)) in *.
  destruct (mtf_alignment (analyze_timeframes prices)); try contradiction;
    cbn [is_alignment andb];
    repeat match goal with
           | |- context [if Py.Qltb ?x ?y then _ else _] =>
             destruct (PyFacts.Qltb_spec x y)
           end; cbn [confidence]; try discriminate;
    unfold Py.abs;
    repeat match goal with
           | |- context [Py.Qltb ?x ?y] => destruct (PyFacts.Qltb_spec x y)
           end; lra.
Qed.

Lemma no_strong_alignment_below_433_witness :
  mtf_alignment (analyze_timeframes (repeat 5 60)) <> strong_bullish
  /\ mtf_alignment (analyze_timeframes (repeat 5 60)) <> strong_bearish
  /\ confidence
       (get_trading_recommendation (analyze_timeframes (repeat 5 60)) false)
     <= 80.
Proof. apply (no_strong_alignment_below_433 (repeat 5 60) false). cbn. lia. Defined.

(** X10.  Whatever the prices and the position, the recommendation drawn
    from [analyze_timeframes] has a confidence between 40 and 95; on fewer
    than 50 prices it is HOLD at 40. *)
Theorem recommendation_confidence_range (prices : list Q) (current_position : bool) :
  let r := get_trading_recommendation (analyze_timeframes prices) current_position in
  40 <= confidence r <= 95
  /\ ((length prices < 50)%nat -> rec_action r = HOLD /\ confidence r == 40).
Proof.
  intros r. subst r.
  pose proof (analysis_strength_range prices) as [Hlo Hhi].
  split.
  - recommendation_cases; split; lra.
  - intros Hshort. apply Nat.ltb_lt in Hshort.
    unfold analyze_timeframes. rewrite Hshort. split; reflexivity.
Qed.

End TimeframeFacts.

(** ** Portfolio heat *)

Module HeatFacts.
Import AdvancedRiskManager.

(** The capital committed to a list of positions. *)
Definition committed (positions : list Db.position) : Q :=
  foldr (fun pos total => Db.p_quantity pos + total) 0 positions.

Lemma heat_loop (positions : list Db.position) (acc : Q * nat) :
  fst (foldl (fun acc pos =>
                (fst acc + Db.p_quantity pos * (3 # 100), S (snd acc)))
             acc positions)
  == fst acc + (3 # 100) * committed positions.
Proof.
  revert acc. induction positions as [|pos rest IH]; intros acc.
  - unfold committed. cbn [foldl foldr]. ring.
  - cbn [foldl]. rewrite IH. unfold committed. cbn [fst foldr]. ring.
Qed.

Lemma heat_gate_passes self user_id symbol a metrics price all_positions
  (percent x : Q) :
  BotEngine.a_heat_percent a = Some percent -> percent < 15 ->
  snd (BotEngine.check_buy_signal self user_id symbol a metrics price
         all_positions)
  <> BotEngine.heat_too_high x.
Proof.
  intros Ha Hlt. unfold BotEngine.check_buy_signal. rewrite Ha. cbn [Py.get].
  destruct (PyFacts.Qleb_spec 15 percent) as [Hge|_]; [lra|].
  repeat match goal with
         | |- context [if ?c then _ else _] => destruct c
         | |- context [match ?o with Some _ => _ | None => _ end] => destruct o
         end; cbn [snd]; discriminate.
Qed.

(** X11.  With a positive equity, the heat is 3% of the committed capital
    over the equity.  An account that commits no more than its equity is
    "safe" at a heat of at most 3%; below 4.99 times the equity the heat stays
    under 15, and [check_buy_signal] never rejects for heat; from 5 times the
    equity on the heat is at least 15. *)
Theorem heat_needs_leverage (positions : list Db.position) (equity : Q) :
  0 < equity ->
  let h := calculate_portfolio_heat positions equity in
  (committed positions <= equity ->
     heat_percent h <= 3 /\ heat_status h = "safe")
  /\ (committed positions <= (499 # 100) * equity ->
      heat_percent h < 15
      /\ forall self user_id symbol a metrics price all_positions x,
           BotEngine.a_heat_percent a = Some (heat_percent h) ->
           snd (BotEngine.check_buy_signal self user_id symbol a metrics price
                  all_positions)
           <> BotEngine.heat_too_high x)
  /\ (5 * equity <= committed positions -> 15 <= heat_percent h).
Proof.
  intros Heq h. subst h. unfold calculate_portfolio_heat.
  destruct positions as [|pos rest].
  { cbn. split; [|split].
    - intros _. split; [unfold Qle; cbn; lia|reflexivity].
    - intros _. split; [reflexivity|].
      intros self user_id symbol a metrics price all_positions x Ha.
      apply (heat_gate_passes _ _ _ _ _ _ _ _ _ Ha). reflexivity.
    - intros H. unfold committed in H. cbn in H. lra. }
  set (positions := pos :: rest).
  destruct (PyFacts.Qleb_spec equity 0) as [Hle|_]; [lra|].
  pose proof (heat_loop positions (0, O)) as Hloop. cbn [fst] in Hloop.
  destruct (foldl _ (0, O) positions) as [total_risk at_risk]. cbn [fst] in Hloop.
  destruct (PyFacts.Qltb_spec 0 equity) as [_|Hn]; [|lra].
  set (percent := total_risk / equity * 100).
  assert (percent * equity == 3 * committed positions) as Hp.
  { unfold percent. rewrite Hloop. field. lra. }
  cbn [heat_percent heat_status].
  split; [|split].
  - intros Hc. assert (percent <= 3) as H3 by nra. split.
    + rewrite <- (NumericFacts.round_integer 3 2). now apply NumericFacts.round_mono.
    + destruct (PyFacts.Qltb_spec 15 percent); [lra|].
      destruct (PyFacts.Qltb_spec 10 percent); [lra|].
      destruct (PyFacts.Qltb_spec 5 percent); [lra|reflexivity].
  - intros Hc. assert (percent <= 1497 # 100) as H3 by nra.
    assert (Py.round percent 2 < 15) as Hlt.
    { apply Qle_lt_trans with (Py.round (1497 # 100) 2).
      - now apply NumericFacts.round_mono.
      - rewrite NumericFacts.round_cents. reflexivity. }
    split; [exact Hlt|].
    intros self user_id symbol a metrics price all_positions x Ha.
    now apply (heat_gate_passes _ _ _ _ _ _ _ _ _ Ha).
  - intros Hc. assert (15 <= percent) as H15 by nra.
    rewrite <- (NumericFacts.round_integer 15 2). now apply NumericFacts.round_mono.
Qed.

Definition one_position : Db.position :=
  {| Db.p_user_id := "u1"; Db.p_symbol := "BTC-USD"; Db.p_quantity := 200;
     Db.p_avg_price := 100; Db.p_current_price := 103; Db.p_pnl := Some 6;
     Db.p_pnl_percent := Some 3; Db.p_high_water_mark := None;
     Db.p_created_at := 0%Z |}.

Lemma heat_needs_leverage_witness :
  let h := calculate_portfolio_heat [one_position] 10000 in
  (committed [one_position] <= 10000 ->
     heat_percent h <= 3 /\ heat_status h = "safe")
  /\ (committed [one_position] <= (499 # 100) * 10000 ->
      heat_percent h < 15
      /\ forall self user_id symbol a metrics price all_positions x,
           BotEngine.a_heat_percent a = Some (heat_percent h) ->
           snd (BotEngine.check_buy_signal self user_id symbol a metrics price
                  all_positions)
           <> BotEngine.heat_too_high x)
  /\ (5 * 10000 <= committed [one_position] -> 15 <= heat_percent h).
Proof. apply (heat_needs_leverage [one_position] 10000). reflexivity. Defined.

End HeatFacts.

(** ** Risk limits and the snapshot ledger *)

Module LimitFacts.
Import RiskManager.

(** X12.  A snapshot without a [max_equity] key (or with a zero one) puts both
    limits at zero: the floor check passes exactly when the equity is not
    negative, and the daily-loss check fails on any loss at all. *)
Theorem limits_without_max_equity (s : signal) (m : risk_metrics) :
  Py.get (rm_max_equity m) 0 == 0 ->
  let v := validate_trade default s m in
  (v_floor_check v = true <-> 0 <= Py.get (rm_total_equity m) 0)
  /\ (v_loss_check v = true <-> 0 <= Py.get (rm_daily_pnl m) 0).
Proof.
  intros Hmax v. subst v.
  unfold validate_trade, check_capital_floor, check_daily_loss.
  cbn [v_floor_check v_loss_check fc_allow_trading lc_allow_trading].
  cbn [default capital_floor_pct max_daily_loss_pct].
  rewrite !negb_true_iff. split.
  - destruct (PyFacts.Qltb_spec (Py.get (rm_total_equity m) 0)
               (Py.get (rm_max_equity m) 0 * (97 # 100))) as [H|H];
      rewrite Hmax in H; split; intros H'; try reflexivity; try discriminate H'; lra.
  - destruct (PyFacts.Qltb_spec (Py.get (rm_daily_pnl m) 0)
               (- (Py.get (rm_max_equity m) 0 * (15 # 1000)))) as [H|H];
      rewrite Hmax in H; split; intros H'; try reflexivity; try discriminate H'; lra.
Qed.

Definition losing_a_cent : risk_metrics :=
  {| rm_total_equity := Some 9000; rm_max_equity := None;
     rm_daily_pnl := Some (- (1 # 100)); rm_cash_balance := Some 9000 |}.

Definition sure_signal : signal :=
  {| sig_confidence := Some 90; sig_buy_recommendation := Some true |}.

Lemma limits_without_max_equity_witness :
  let v := validate_trade default sure_signal losing_a_cent in
  (v_floor_check v = true <-> 0 <= Py.get (rm_total_equity losing_a_cent) 0)
  /\ (v_loss_check v = true <-> 0 <= Py.get (rm_daily_pnl losing_a_cent) 0).
Proof. apply (limits_without_max_equity sure_signal losing_a_cent). reflexivity. Defined.

End LimitFacts.

Module LedgerFacts.
Import BotEngine SnapshotFacts.

(** What every stored snapshot satisfies. *)
Definition well_formed (s : Db.snapshot) : Prop :=
  exists equity top : Q,
    Db.s_total_equity s = Some equity
    /\ Db.s_max_equity s = Some top
    /\ 10000 <= top
    /\ equity <= top
    /\ Db.s_equity_floor s == top * (97 # 100)
    /\ Db.s_current_drawdown s == (top - equity) / top * 100
    /\ 0 <= Db.s_current_drawdown s.

Lemma find_latest_In (u : string) (coll : list Db.snapshot) (s : Db.snapshot) :
  find_latest u coll = Some s -> s ∈ coll.
Proof.
  unfold find_latest. destruct (latest_index u coll) as [i|]; [|discriminate].
  apply list_elem_of_lookup_2.
Qed.

Lemma tick_well_formed (u : string) (now today_start : Db.timestamp)
  (ps : list Db.position) (coll : list Db.snapshot) :
  Forall well_formed coll ->
  Forall well_formed (update_risk_metrics u now today_start ps coll).
Proof.
  intros Hcoll. unfold update_risk_metrics.
  assert (exists cash top0,
            10000 <= top0
            /\ match find_latest u coll with
               | Some prev =>
                 (Py.get (Db.s_max_equity prev) 10000,
                  Py.get (Db.s_cash_balance prev) 10000,
                  Py.get (Db.s_max_equity prev) 10000)
               | None => (10000, 10000, 10000)
               end = (top0, cash, top0)) as (cash & top0 & Htop & ->).
  { destruct (find_latest u coll) as [prev|] eqn:Hprev.
    - apply find_latest_In in Hprev.
      rewrite Forall_forall in Hcoll.
      destruct (Hcoll prev Hprev) as (e & m & _ & Hm & Hge & _).
      rewrite Hm. cbn [Py.get]. eauto.
    - exists 10000, 10000. split; [lra|reflexivity]. }
  apply Forall_app. split; [exact Hcoll|]. apply Forall_singleton.
  set (equity := cash + _ + _).
  exists equity, (if Py.Qltb top0 equity then equity else top0).
  cbn [Db.s_total_equity Db.s_max_equity Db.s_equity_floor Db.s_current_drawdown].
  destruct (PyFacts.Qltb_spec top0 equity) as [Hlt|Hge].
  - destruct (PyFacts.Qltb_spec 0 equity) as [_|Hn]; [|lra].
    repeat split; try reflexivity; try lra.
    assert ((equity - equity) / equity * 100 == 0) as -> by (field; lra). lra.
  - destruct (PyFacts.Qltb_spec 0 top0) as [_|Hn]; [|lra].
    repeat split; try reflexivity; try lra.
    assert ((top0 - equity) / top0 * 100 == (top0 - equity) * (100 / top0)) as ->
      by (field; lra).
    apply Qmult_le_0_compat; [lra|]. apply Qlt_le_weak.
    apply Qlt_shift_div_l; lra.
Qed.

Lemma cash_write_well_formed (u : string) (new_cash : Q) (coll : list Db.snapshot) :
  Forall well_formed coll -> Forall well_formed (update_cash u new_cash coll).
Proof.
  intros Hcoll. unfold update_cash.
  destruct (latest_index u coll) as [i|]; [|exact Hcoll].
  apply Forall_alter; [exact Hcoll|]. intros s _ Hs. exact Hs.
Qed.


(** X13.  However ticks of any tenants and cash writes interleave from the
    empty collection, each stored snapshot keeps a maximum equity of at
    least the initial 10000, a total equity no greater than it, the floor at
    97% of it, and a drawdown that is the non-negative distance of the
    equity from the maximum, in percent of the maximum. *)
Theorem snapshots_well_formed (events : list event) :
  Forall well_formed (run events []).
Proof.
  induction events as [|e events IH] using rev_ind; [constructor|].
  unfold run in *. rewrite foldl_app. cbn [foldl].
  destruct e as [u now today_start ps|u new_cash]; cbn [apply_event].
  - now apply tick_well_formed.
  - now apply cash_write_well_formed.
Qed.



End LedgerFacts.

(** ** The order index against the collection *)

Module OrderBookFacts.
Import AdvancedOrderManager OrderFacts.

(** *** The index against the collection *)

(** Every PENDING document is indexed, and every entry sits under the id of
    its order. *)
Definition mirrored (self : t) : Prop :=
  forall k, db_status self k = Some PENDING -> In k (keys (pending_orders self)).

Definition keyed (index : list (string * order)) : Prop :=
  forall k o, In (k, o) index -> id o = k.

Lemma trigger_id (o : order) (price : Q) : id (fst (trigger o price)) = id o.
Proof.
  unfold trigger. destruct (type o);
    repeat match goal with
           | |- context [if ?b then _ else _] => destruct b
           end; reflexivity.
Qed.

Lemma turn_mirrored (prices : gmap string Q)
  (oracle : order -> TradingService.order_result) (now : Db.timestamp)
  (self : t) (entry : string * order) :
  mirrored self -> mirrored (turn prices oracle now self entry).
Proof.
  intros Hm k. unfold turn. destruct (Py.Qeqb _ 0); [apply Hm|].
  destruct (executes _ _ _); unfold db_status;
    cbn [pending_orders db_pending_orders].
  - destruct (String.eqb_spec (fst entry) k) as [->|Hne].
    + rewrite lookup_alter_eq.
      destruct (db_pending_orders self !! k); intros H; cbn in H;
        discriminate H.
    + rewrite lookup_alter_ne by exact Hne. intros H.
      apply in_keys_del. split; [congruence|]. now apply Hm.
  - rewrite keys_store. apply Hm.
Qed.

Lemma turn_keyed (prices : gmap string Q)
  (oracle : order -> TradingService.order_result) (now : Db.timestamp)
  (self : t) (entry : string * order) :
  keyed (pending_orders self) -> id (snd entry) = fst entry ->
  keyed (pending_orders (turn prices oracle now self entry)).
Proof.
  intros Hk He. unfold turn. destruct (Py.Qeqb _ 0); [exact Hk|].
  destruct (executes _ _ _); cbn [pending_orders]; intros k o Hin.
  - apply in_del in Hin as [_ Hin]. now apply Hk.
  - apply in_store in Hin as [(-> & -> & _)|(_ & Hin)]; [|now apply Hk].
    now rewrite trigger_id.
Qed.

Lemma turns_mirrored_keyed (prices : gmap string Q)
  (oracle : order -> TradingService.order_result) (now : Db.timestamp)
  (items : list (string * order)) (self : t) :
  mirrored self -> keyed (pending_orders self) -> keyed items ->
  mirrored (foldl (turn prices oracle now) self items)
  /\ keyed (pending_orders (foldl (turn prices oracle now) self items)).
Proof.
  revert self. induction items as [|[k o] items IH]; intros self Hm Hk Hi;
    [now split|].
  cbn [foldl]. apply IH.
  - now apply turn_mirrored.
  - apply turn_keyed; [exact Hk|]. apply (Hi k o). now left.
  - intros k' o' Hin. apply (Hi k' o'). now right.
Qed.

Lemma step_mirrored_keyed (self : t) (c : op) :
  consistent self -> fresh self c ->
  mirrored self /\ keyed (pending_orders self) ->
  mirrored (step self c) /\ keyed (pending_orders (step self c)).
Proof.
  intros Hc Hfresh [Hm Hk].
  destruct c as [order_id now uid sym sd ty qty|prices oracle now|order_id now];
    cbn [step].
  - cbn [fresh] in Hfresh. unfold place. cbn [fst new_order id].
    assert (mem order_id (pending_orders self) = false) as ->.
    { apply not_indexed; [exact Hc|]. unfold db_status. rewrite Hfresh. discriminate. }
    split.
    + intros k. unfold db_status. cbn [pending_orders db_pending_orders].
      unfold keys. rewrite map_app, in_app_iff. cbn [map fst].
      destruct (String.eqb_spec order_id k) as [->|Hne]; [intros _; right; now left|].
      rewrite lookup_insert_ne by exact Hne. intros H. left. now apply Hm.
    + cbn [pending_orders]. intros k o Hin.
      apply in_app_iff in Hin as [Hin|[E|[]]]; [now apply Hk|].
      now injection E as <- <-.
  - rewrite check_pending_orders_turns.
    now apply turns_mirrored_keyed.
  - unfold cancel_order.
    destruct (mem order_id (pending_orders self)); [|now split].
    cbn [fst]. split.
    + intros k. unfold db_status. cbn [pending_orders db_pending_orders].
      destruct (String.eqb_spec order_id k) as [->|Hne].
      * rewrite lookup_alter_eq.
        destruct (db_pending_orders self !! k); intros H; cbn in H;
          discriminate H.
      * rewrite lookup_alter_ne by exact Hne. intros H.
        apply in_keys_del. split; [congruence|]. now apply Hm.
    + cbn [pending_orders]. intros k o Hin.
      apply in_del in Hin as [_ Hin]. now apply Hk.
Qed.

Lemma reachable_mirrored_keyed (self : t) :
  reachable self -> mirrored self /\ keyed (pending_orders self).
Proof.
  induction 1 as [|self c Hr IH Hfresh].
  - split; [intros k H; discriminate H|intros k o []].
  - apply step_mirrored_keyed; [now apply reachable_consistent|exact Hfresh|exact IH].
Qed.

(** X15.  In every state the manager can reach, the in-memory index and the
    PENDING documents of the collection list the same orders, each entry
    is filed under the id of its order, and no id is indexed twice. *)
Theorem index_mirrors_pending_documents (self : t) :
  reachable self ->
  (forall k, mem k (pending_orders self) = true <-> db_status self k = Some PENDING)
  /\ (forall k o, In (k, o) (pending_orders self) -> id o = k /\ status o = PENDING)
  /\ List.NoDup (keys (pending_orders self)).
Proof.
  intros Hr. pose proof (reachable_consistent self Hr) as Hc.
  destruct (reachable_mirrored_keyed self Hr) as [Hm Hk].
  split; [|split].
  - intros k. rewrite mem_keys. split; [now apply indexed_stored|apply Hm].
  - intros k o Hin. split; [now apply Hk|].
    now destruct (indexed_pending self Hc k o Hin).
  - exact (keys_unique self Hc).
Qed.

(** A limit SELL placed, executed and so gone, and an OCO order still open. *)
Definition after_a_fill : t :=
  step
    (step
       (step empty (op_place "a" 1%Z "u1" "BTC-USD" (Some "SELL") (LIMIT 100) 5))
       (op_place "b" 2%Z "u1" "ETH-USD" None (OCO 110 90) 1))
    (op_check {["BTC-USD" := 101]}
       (fun _ => {| TradingService.success := true;
                    TradingService.filled_price := Some 101 |}) 3%Z).

Lemma index_mirrors_pending_documents_witness :
  (forall k, mem k (pending_orders after_a_fill) = true
             <-> db_status after_a_fill k = Some PENDING)
  /\ (forall k o, In (k, o) (pending_orders after_a_fill) ->
                  id o = k /\ status o = PENDING)
  /\ List.NoDup (keys (pending_orders after_a_fill)).
Proof.
  apply (index_mirrors_pending_documents after_a_fill).
  unfold after_a_fill.
  apply reachable_step;
    [apply reachable_step; [apply reachable_step; [apply reachable_empty|]|]|];
    vm_compute; try reflexivity; exact I.
Defined.

(** *** What one check returns and leaves *)




Lemma del_absent (k : string) (index : list (string * order)) :
  ~ In k (keys index) -> del k index = index.
Proof.
  unfold del, keys. induction index as [|[k1 o1] rest IH]; [reflexivity|].
  cbn. intros Hnot. destruct (String.eqb_spec k1 k) as [->|Hne]; [tauto|].
  cbn. f_equal. apply IH. tauto.
Qed.













(** X17.  Placing an order under a fresh id and cancelling it gives the index
    back as it was: the placement answers PENDING with that id, the
    cancellation answers "Order cancelled", the document stays in the
    collection as CANCELLED, and no other document changes. *)
Theorem place_then_cancel (self : t) (order_id : string)
  (now later : Db.timestamp) (uid sym sd : string) (qty limit_price : Q) :
  reachable self -> db_pending_orders self !! order_id = None ->
  let placed := place_limit_order self order_id now uid sym sd qty limit_price in
  let gone := cancel_order (fst placed) order_id later in
  snd placed = {| p_success := true; p_order_id := order_id; p_status := PENDING |}
  /\ db_status (fst placed) order_id = Some PENDING
  /\ snd gone = cancelled
  /\ pending_orders (fst gone) = pending_orders self
  /\ db_status (fst gone) order_id = Some CANCELLED
  /\ (forall k, k <> order_id ->
        db_pending_orders (fst gone) !! k = db_pending_orders self !! k).
Proof.
  intros Hr Hfresh placed gone. subst placed gone.
  pose proof (reachable_consistent self Hr) as Hc.
  assert (~ In order_id (keys (pending_orders self))) as Hnot.
  { intros Hin. apply (indexed_stored self _ Hc) in Hin.
    unfold db_status in Hin. rewrite Hfresh in Hin. discriminate Hin. }
  unfold place_limit_order.
  set (o := new_order order_id uid sym (Some sd) (LIMIT limit_price) qty now).
  unfold place. change (id o) with order_id.
  rewrite (proj2 (mem_false order_id (pending_orders self)) Hnot).
  cbn [fst snd].
  split; [reflexivity|]. split.
  { unfold db_status. cbn [db_pending_orders]. now rewrite lookup_insert_eq. }
  unfold cancel_order. cbn [pending_orders db_pending_orders].
  assert (mem order_id (pending_orders self ++ [(order_id, o)]) = true) as ->.
  { apply mem_keys. unfold keys. rewrite map_app, in_app_iff. right. now left. }
  cbn [fst snd pending_orders db_pending_orders].
  split; [reflexivity|]. split; [|split].
  - unfold del. rewrite List.filter_app. cbn [List.filter fst].
    rewrite String.eqb_refl. cbn [negb]. rewrite app_nil_r.
    now apply del_absent.
  - unfold db_status. cbn [db_pending_orders].
    now rewrite lookup_alter_eq, lookup_insert_eq.
  - intros k Hne.
    rewrite lookup_alter_ne by congruence. now rewrite lookup_insert_ne by congruence.
Qed.

Lemma place_then_cancel_witness :
  let placed := place_limit_order after_a_fill "c" 4%Z "u1" "BTC-USD" "BUY" 2 90 in
  let gone := cancel_order (fst placed) "c" 5%Z in
  snd placed = {| p_success := true; p_order_id := "c"; p_status := PENDING |}
  /\ db_status (fst placed) "c" = Some PENDING
  /\ snd gone = cancelled
  /\ pending_orders (fst gone) = pending_orders after_a_fill
  /\ db_status (fst gone) "c" = Some CANCELLED
  /\ (forall k, k <> "c" ->
        db_pending_orders (fst gone) !! k = db_pending_orders after_a_fill !! k).
Proof.
  apply (place_then_cancel after_a_fill "c" 4%Z 5%Z "u1" "BTC-USD" "BUY" 2 90).
  - unfold after_a_fill.
    apply reachable_step;
      [apply reachable_step; [apply reachable_step; [apply reachable_empty|]|]|];
      vm_compute; try reflexivity; exact I.
  - vm_compute. reflexivity.
Defined.

End OrderBookFacts.

(** ** Stop loss and profit target *)

Module ExitFacts.
Import BotEngine.










End ExitFacts.

(** ** Tenants *)

Module TenantFacts.
Import BotEngine SnapshotFacts.

(** The documents of one tenant, in collection order. *)
Definition positions_owned (u : string) (ps : list Db.position)
  : list Db.position :=
  List.filter (fun p => String.eqb (Db.p_user_id p) u) ps.

Definition trades_owned (u : string) (ts : list trade) : list trade :=
  List.filter (fun t => String.eqb (t_user_id t) u) ts.

Lemma same_position_user (u symbol : string) (p : Db.position) :
  same_position u symbol p = true -> Db.p_user_id p = u.
Proof.
  unfold same_position. intros H. apply andb_true_iff in H as [H _].
  now apply String.eqb_eq.
Qed.

Lemma eqb_other (u other : string) : other <> u -> String.eqb u other = false.
Proof. intros H. apply String.eqb_neq. congruence. Qed.

Lemma update_first_others (f : Db.position -> Db.position)
  (u other symbol : string) (ps : list Db.position) :
  (forall p, Db.p_user_id (f p) = Db.p_user_id p) -> other <> u ->
  positions_owned other (update_first f u symbol ps) = positions_owned other ps.
Proof.
  intros Hf Hne. unfold positions_owned.
  induction ps as [|p rest IH]; [reflexivity|]. cbn [update_first].
  destruct (same_position u symbol p) eqn:Hp; cbn [List.filter].
  - rewrite Hf. apply same_position_user in Hp. rewrite Hp.
    now rewrite (eqb_other u other Hne).
  - now rewrite IH.
Qed.

Lemma delete_first_others (u other symbol : string) (ps : list Db.position) :
  other <> u ->
  positions_owned other (delete_first u symbol ps) = positions_owned other ps.
Proof.
  intros Hne. unfold positions_owned.
  induction ps as [|p rest IH]; [reflexivity|]. cbn [delete_first].
  destruct (same_position u symbol p) eqn:Hp; cbn [List.filter].
  - apply same_position_user in Hp. rewrite Hp.
    now rewrite (eqb_other u other Hne).
  - now rewrite IH.
Qed.

Lemma update_position_others (get_current_price : nat -> string -> option Q)
  (u other : string) (ps : list Db.position) (turn : nat * Db.position) :
  other <> u ->
  positions_owned other (update_position get_current_price u ps turn)
  = positions_owned other ps.
Proof.
  intros Hne. destruct turn as [i position]. unfold update_position.
  destruct (Py.Qeqb _ 0); [reflexivity|].
  now apply update_first_others.
Qed.

Lemma update_positions_others (get_current_price : nat -> string -> option Q)
  (u other : string) (ps : list Db.position) :
  other <> u ->
  positions_owned other (update_positions get_current_price u ps)
  = positions_owned other ps.
Proof.
  intros Hne. unfold update_positions.
  generalize (imap pair (positions_of u ps)) as turns.
  intros turns. revert ps.
  induction turns as [|turn turns IH]; intros ps; [reflexivity|].
  cbn [foldl]. rewrite IH. now apply update_position_others.
Qed.

Lemma latest_from_own (u : string) (coll : list Db.snapshot) (i : nat)
  (best : option (nat * Db.timestamp)) (k : nat) :
  latest_from u coll i best = Some k ->
  (exists t, best = Some (k, t))
  \/ (i <= k)%nat /\ exists s, coll !! (k - i)%nat = Some s /\ of_user u s = true.
Proof.
  revert i best. induction coll as [|s rest IH]; intros i best H; cbn in H.
  - destruct best as [[j t]|]; [|discriminate H]. injection H as ->. left. eauto.
  - apply IH in H as [[t Hbest]|[Hle (s' & Hs' & Hown)]].
    + destruct (of_user u s) eqn:Hs; [|left; eauto].
      assert (Some (i, Db.s_timestamp s) = Some (k, t) ->
              (exists t, best = Some (k, t))
              \/ (i <= k)%nat
                 /\ exists s0, (s :: rest) !! (k - i)%nat = Some s0
                               /\ of_user u s0 = true) as Hnew.
      { intros E. injection E as <- _. right. split; [lia|].
        exists s. rewrite Nat.sub_diag. now split. }
      destruct best as [[j t']|]; [|now apply Hnew].
      destruct (t' <? Db.s_timestamp s)%Z; [now apply Hnew|left; eauto].
    + right. split; [lia|]. exists s'. split; [|exact Hown].
      replace (k - i)%nat with (S (k - S i)) by lia. exact Hs'.
Qed.

Lemma history_alter_other (f : Db.snapshot -> Db.snapshot) (other : string)
  (i : nat) (coll : list Db.snapshot) (s : Db.snapshot) :
  coll !! i = Some s -> of_user other s = false -> of_user other (f s) = false ->
  history other (alter f i coll) = history other coll.
Proof.
  unfold history. revert i. induction coll as [|x coll IH]; intros i Hi Hs Hfs;
    [discriminate Hi|].
  destruct i as [|i].
  - injection Hi as ->.
    change (alter f 0%nat (s :: coll)) with (f s :: coll).
    cbn [List.filter]. now rewrite Hs, Hfs.
  - change (alter f (S i) (x :: coll)) with (x :: alter f i coll).
    cbn [List.filter]. rewrite (IH i Hi Hs Hfs). reflexivity.
Qed.

Lemma update_cash_others (u other : string) (new_cash : Q)
  (coll : list Db.snapshot) :
  other <> u ->
  history other (update_cash u new_cash coll) = history other coll.
Proof.
  intros Hne. unfold update_cash, latest_index.
  destruct (latest_from u coll 0 None) as [i|] eqn:Hi; [|reflexivity].
  apply latest_from_own in Hi as [[t Ht]|[_ (s & Hs & Hown)]]; [discriminate Ht|].
  rewrite Nat.sub_0_r in Hs.
  assert (of_user other s = false) as Hother.
  { unfold of_user in *. apply String.eqb_eq in Hown. rewrite Hown.
    now apply eqb_other. }
  now apply (history_alter_other _ other i coll s).
Qed.

Lemma update_risk_metrics_others (u other : string)
  (now today_start : Db.timestamp) (ps : list Db.position)
  (coll : list Db.snapshot) :
  other <> u ->
  history other (update_risk_metrics u now today_start ps coll)
  = history other coll.
Proof.
  intros Hne.
  destruct (update_risk_metrics_snoc u now today_start ps coll)
    as (s & -> & Hu & _).
  rewrite history_snoc.
  rewrite (of_user_other other u s Hu (eqb_other u other Hne)).
  apply app_nil_r.
Qed.

(** X19.  The per-tenant operations of the engine leave every other tenant
    alone: refreshing the positions of [u], writing the snapshot of [u] and
    evaluating an exit of [u] change no position, no trade and no snapshot
    owned by another tenant. *)
Theorem tenant_isolation (u other : string) :
  other <> u ->
  (forall get_current_price ps,
     positions_owned other (update_positions get_current_price u ps)
     = positions_owned other ps)
  /\ (forall now today_start ps coll,
        history other (update_risk_metrics u now today_start ps coll)
        = history other coll)
  /\ (forall self symbol position a current_price tech now order_result,
        let self' :=
          fst (check_sell_signal self u symbol position a current_price tech
                 now order_result) in
        positions_owned other (positions (store self'))
        = positions_owned other (positions (store self))
        /\ trades_owned other (trades (store self'))
           = trades_owned other (trades (store self))
        /\ history other (risk_metrics (store self'))
           = history other (risk_metrics (store self))).
Proof.
  intros Hne. split; [|split].
  - intros g ps. now apply update_positions_others.
  - intros now today_start ps coll. now apply update_risk_metrics_others.
  - intros self symbol position a current_price tech now order_result self'.
    subst self'. unfold check_sell_signal.
    destruct (Py.Qeqb (Db.p_avg_price position) 0); [now repeat split|].
    match goal with
    | |- context [sell_rules ?p ?dd a tech ?h] =>
      destruct (sell_rules p dd a tech h) as [should why]
    end.
    set (positions1 := if Py.Qltb _ current_price then _ else _).
    assert (positions_owned other positions1
            = positions_owned other (positions (store self))) as Hp1.
    { subst positions1. destruct (Py.Qltb _ current_price); [|reflexivity].
      now apply update_first_others. }
    assert (forall t rest, t_user_id t = u ->
              trades_owned other (rest ++ [t]) = trades_owned other rest) as Htr.
    { intros t rest Ht. unfold trades_owned. rewrite List.filter_app.
      cbn [List.filter]. rewrite Ht, (eqb_other u other Hne). apply app_nil_r. }
    destruct should; [|cbn [fst store positions trades risk_metrics]; now repeat split].
    destruct (TradingService.success order_result);
      [|cbn [fst store positions trades risk_metrics]; now repeat split].
    destruct (find_latest u (risk_metrics (store self)));
      cbn [fst store positions trades risk_metrics];
      rewrite delete_first_others, Hp1, Htr by (reflexivity || exact Hne);
      repeat split.
    now apply update_cash_others.
Qed.

Lemma tenant_isolation_witness :
  (forall get_current_price ps,
     positions_owned "u2" (update_positions get_current_price "u1" ps)
     = positions_owned "u2" ps)
  /\ (forall now today_start ps coll,
        history "u2" (update_risk_metrics "u1" now today_start ps coll)
        = history "u2" coll)
  /\ (forall self symbol position a current_price tech now order_result,
        let self' :=
          fst (check_sell_signal self "u1" symbol position a current_price tech
                 now order_result) in
        positions_owned "u2" (positions (store self'))
        = positions_owned "u2" (positions (store self))
        /\ trades_owned "u2" (trades (store self'))
           = trades_owned "u2" (trades (store self))
        /\ history "u2" (risk_metrics (store self'))
           = history "u2" (risk_metrics (store self))).
Proof. apply (tenant_isolation "u1" "u2"). discriminate. Defined.

End TenantFacts.

(** ** Marking positions to market *)

Module MarkFacts.
Import BotEngine SnapshotFacts TenantFacts.

(** The price one refresh uses for a position, the document as the refresh
    leaves it, and the market value of the position at that price. *)
Definition price_of (quote : string -> option Q) (p : Db.position) : Q :=
  Py.get (quote (Db.p_symbol p)) (Db.p_avg_price p).

Definition marked (quote : string -> option Q) (p : Db.position)
  : Db.position :=
  if Py.Qeqb (Db.p_avg_price p) 0 then p
  else
    let pnl :=
      Db.p_quantity p / Db.p_avg_price p * price_of quote p - Db.p_quantity p in
    set_pnl (price_of quote p) pnl
      (if Py.Qltb 0 (Db.p_quantity p) then pnl / Db.p_quantity p * 100 else 0) p.

Definition market_value (quote : string -> option Q) (p : Db.position) : Q :=
  Db.p_quantity p / Db.p_avg_price p * price_of quote p.

(** What the loop turn for the document [pos] does to a document [p]. *)
Definition refresh (quote : string -> option Q) (u : string)
  (pos p : Db.position) : Db.position :=
  if Py.Qeqb (Db.p_avg_price pos) 0 then p
  else if same_position u (Db.p_symbol pos) p then
    let pnl :=
      Db.p_quantity pos / Db.p_avg_price pos * price_of quote pos
      - Db.p_quantity pos in
    set_pnl (price_of quote pos) pnl
      (if Py.Qltb 0 (Db.p_quantity pos) then pnl / Db.p_quantity pos * 100 else 0) p
  else p.

Definition owned_symbols (u : string) (ps : list Db.position) : list string :=
  map Db.p_symbol (positions_owned u ps).

Lemma owned_symbols_cons (u : string) (p : Db.position) (ps : list Db.position) :
  owned_symbols u (p :: ps)
  = if String.eqb (Db.p_user_id p) u then Db.p_symbol p :: owned_symbols u ps
    else owned_symbols u ps.
Proof.
  unfold owned_symbols, positions_owned. cbn.
  now destruct (String.eqb (Db.p_user_id p) u).
Qed.

Lemma same_position_owned (u symbol : string) (p : Db.position)
  (ps : list Db.position) :
  In p ps -> same_position u symbol p = true -> In symbol (owned_symbols u ps).
Proof.
  intros Hin Hp. unfold same_position in Hp. apply andb_true_iff in Hp as [Hu Hs].
  apply String.eqb_eq in Hs. subst symbol.
  unfold owned_symbols, positions_owned. apply in_map, filter_In. now split.
Qed.

Lemma update_first_map (f : Db.position -> Db.position) (u symbol : string)
  (ps : list Db.position) :
  List.NoDup (owned_symbols u ps) ->
  update_first f u symbol ps
  = map (fun p => if same_position u symbol p then f p else p) ps.
Proof.
  induction ps as [|p rest IH]; [reflexivity|]. intros Hnd.
  rewrite owned_symbols_cons in Hnd. cbn [update_first map].
  destruct (same_position u symbol p) eqn:Hp.
  - f_equal. rewrite <- (map_id rest) at 1. apply map_ext_in.
    intros r Hr. destruct (same_position u symbol r) eqn:Hrm; [|reflexivity].
    exfalso. pose proof (same_position_owned u symbol r rest Hr Hrm) as Hin.
    unfold same_position in Hp. apply andb_true_iff in Hp as [Hu Hs].
    rewrite Hu in Hnd. apply String.eqb_eq in Hs. subst symbol.
    apply List.NoDup_cons_iff in Hnd as [Hnot _]. contradiction.
  - f_equal. apply IH.
    destruct (String.eqb (Db.p_user_id p) u); [|exact Hnd].
    now apply List.NoDup_cons_iff in Hnd as [_ Hnd].
Qed.

Lemma refresh_key (quote : string -> option Q) (u : string)
  (pos p : Db.position) :
  Db.p_user_id (refresh quote u pos p) = Db.p_user_id p
  /\ Db.p_symbol (refresh quote u pos p) = Db.p_symbol p.
Proof.
  unfold refresh. destruct (Py.Qeqb _ 0); [now split|].
  destruct (same_position _ _ _); now split.
Qed.

Lemma owned_symbols_map (g : Db.position -> Db.position) (u : string)
  (ps : list Db.position) :
  (forall p, Db.p_user_id (g p) = Db.p_user_id p
             /\ Db.p_symbol (g p) = Db.p_symbol p) ->
  owned_symbols u (map g ps) = owned_symbols u ps.
Proof.
  intros Hg. induction ps as [|p rest IH]; [reflexivity|].
  cbn [map]. rewrite !owned_symbols_cons, IH.
  destruct (Hg p) as [-> ->]. reflexivity.
Qed.

Lemma update_position_map (quote : string -> option Q) (u : string)
  (acc : list Db.position) (i : nat) (pos : Db.position) :
  List.NoDup (owned_symbols u acc) ->
  update_position (fun _ => quote) u acc (i, pos)
  = map (refresh quote u pos) acc.
Proof.
  intros Hnd. unfold update_position, refresh. fold (price_of quote pos).
  destruct (Py.Qeqb (Db.p_avg_price pos) 0); [now rewrite map_id|].
  now apply update_first_map.
Qed.

Lemma update_positions_fold (quote : string -> option Q) (u : string)
  (turns : list (nat * Db.position)) :
  forall acc : list Db.position,
    List.NoDup (owned_symbols u acc) ->
    foldl (update_position (fun _ => quote) u) acc turns
    = map (fun p => foldl (fun x turn => refresh quote u (snd turn) x) p turns)
          acc.
Proof.
  induction turns as [|[i pos] turns IH]; intros acc Hnd.
  - cbn. now rewrite map_id.
  - cbn [foldl snd]. rewrite update_position_map by exact Hnd.
    rewrite IH.
    + now rewrite map_map.
    + rewrite owned_symbols_map; [exact Hnd|]. intros p. apply refresh_key.
Qed.

Lemma foldl_imap (h : Db.position -> Db.position -> Db.position)
  (us : list Db.position) :
  forall (j : nat -> nat) (p : Db.position),
    foldl (fun x turn => h (snd turn) x) p (imap (fun i pos => (j i, pos)) us)
    = foldl (fun x pos => h pos x) p us.
Proof.
  induction us as [|a us IH]; intros j p; [reflexivity|].
  cbn [imap foldl snd]. apply (IH (fun i => j (S i))).
Qed.

Lemma refresh_other_symbol (quote : string -> option Q) (u : string)
  (pos p : Db.position) :
  Db.p_symbol pos <> Db.p_symbol p -> refresh quote u pos p = p.
Proof.
  intros Hne. unfold refresh. destruct (Py.Qeqb _ 0); [reflexivity|].
  unfold same_position.
  destruct (String.eqb_spec (Db.p_symbol p) (Db.p_symbol pos)) as [E|_];
    [congruence|].
  now rewrite andb_false_r.
Qed.

Lemma refresh_not_owned (quote : string -> option Q) (u : string)
  (pos p : Db.position) :
  String.eqb (Db.p_user_id p) u = false -> refresh quote u pos p = p.
Proof.
  intros Hu. unfold refresh. destruct (Py.Qeqb _ 0); [reflexivity|].
  unfold same_position. now rewrite Hu.
Qed.

Lemma refresh_self (quote : string -> option Q) (u : string) (p : Db.position) :
  String.eqb (Db.p_user_id p) u = true -> refresh quote u p p = marked quote p.
Proof.
  intros Hu. unfold refresh, marked. destruct (Py.Qeqb _ 0); [reflexivity|].
  unfold same_position. now rewrite Hu, String.eqb_refl.
Qed.

Lemma marked_key (quote : string -> option Q) (p : Db.position) :
  Db.p_user_id (marked quote p) = Db.p_user_id p
  /\ Db.p_symbol (marked quote p) = Db.p_symbol p
  /\ Db.p_quantity (marked quote p) = Db.p_quantity p.
Proof. unfold marked. destruct (Py.Qeqb _ 0); now repeat split. Qed.

Lemma refresh_others (quote : string -> option Q) (u : string)
  (us : list Db.position) (x : Db.position) :
  ~ In (Db.p_symbol x) (map Db.p_symbol us) ->
  foldl (fun x pos => refresh quote u pos x) x us = x.
Proof.
  induction us as [|a us IH]; intros Hnot; [reflexivity|].
  cbn [foldl]. cbn in Hnot.
  rewrite refresh_other_symbol by tauto. apply IH. tauto.
Qed.

Lemma refresh_all (quote : string -> option Q) (u : string)
  (us : list Db.position) (p : Db.position) :
  List.NoDup (map Db.p_symbol us) -> In p us ->
  String.eqb (Db.p_user_id p) u = true ->
  foldl (fun x pos => refresh quote u pos x) p us = marked quote p.
Proof.
  intros Hnd Hin Hu. induction us as [|a us IH]; [contradiction|].
  cbn [map] in Hnd. apply List.NoDup_cons_iff in Hnd as [Hnot Hnd].
  cbn [foldl]. destruct Hin as [->|Hin].
  - rewrite refresh_self by exact Hu.
    apply refresh_others. now destruct (marked_key quote p) as (_ & -> & _).
  - rewrite refresh_other_symbol; [now apply IH|].
    intros E. apply Hnot. rewrite E. now apply in_map.
Qed.

Lemma update_positions_marks (quote : string -> option Q) (u : string)
  (ps : list Db.position) :
  (length (positions_owned u ps) <= 100)%nat ->
  List.NoDup (owned_symbols u ps) ->
  update_positions (fun _ => quote) u ps
  = map (fun p => if String.eqb (Db.p_user_id p) u then marked quote p else p) ps.
Proof.
  intros Hlen Hnd. unfold update_positions.
  rewrite update_positions_fold by exact Hnd.
  apply map_ext_in. intros p Hp.
  change (imap pair (positions_of u ps))
    with (imap (fun i pos => (id i, pos)) (positions_of u ps)).
  rewrite (foldl_imap (refresh quote u)).
  assert (positions_of u ps = positions_owned u ps) as ->.
  { unfold positions_of. fold (positions_owned u ps). now apply take_ge. }
  destruct (String.eqb (Db.p_user_id p) u) eqn:Hu.
  - apply refresh_all; [exact Hnd| |exact Hu].
    unfold positions_owned. apply filter_In. now split.
  - clear Hnd Hlen. induction (positions_owned u ps) as [|a us IH]; [reflexivity|].
    cbn [foldl]. now rewrite refresh_not_owned.
Qed.

Lemma positions_owned_marked (quote : string -> option Q) (u : string)
  (ps : list Db.position) :
  positions_owned u
    (map (fun p => if String.eqb (Db.p_user_id p) u then marked quote p else p) ps)
  = map (marked quote) (positions_owned u ps).
Proof.
  unfold positions_owned. induction ps as [|p rest IH]; [reflexivity|].
  cbn [map List.filter]. destruct (String.eqb (Db.p_user_id p) u) eqn:Hu.
  - destruct (marked_key quote p) as (-> & _). rewrite Hu. cbn [map].
    now rewrite IH.
  - rewrite Hu. exact IH.
Qed.

Lemma marked_sums (quote : string -> option Q) (us : list Db.position) :
  Forall (fun p => ~ Db.p_avg_price p == 0) us ->
  Py.sum (map Db.p_quantity (map (marked quote) us))
  + Py.sum (map (fun p => Py.get (Db.p_pnl p) 0) (map (marked quote) us))
  == Py.sum (map (market_value quote) us).
Proof.
  intros Hall. rewrite !NumericFacts.sum_foldr.
  induction Hall as [|p us Hp _ IH]; [reflexivity|].
  cbn [map foldr]. rewrite <- IH.
  unfold marked at 1 3, market_value.
  destruct (Py.Qeqb (Db.p_avg_price p) 0) eqn:Hz.
  { apply PyFacts.Qeqb_eq in Hz. contradiction. }
  cbn [set_pnl Db.p_quantity Db.p_pnl Py.get]. ring.
Qed.

(** The cash balance a tick starts from. *)
Definition cash_before (u : string) (coll : list Db.snapshot) : Q :=
  match find_latest u coll with
  | Some prev => Py.get (Db.s_cash_balance prev) 10000
  | None => 10000
  end.

(** X20.  For a tenant with at most 100 positions, one per symbol, and quotes
    that hold still during the refresh, [update_positions] rewrites each of
    the tenant's positions to its marked form: for a positive quantity and
    a non-zero average price, the P&L percentage is the move of the price
    against the average.  The snapshot that [update_risk_metrics] writes
    next records as total equity the cash balance plus the market value of
    the positions. *)
Theorem cycle_marks_to_market (quote : string -> option Q) (u : string)
  (ps : list Db.position) :
  (length (positions_owned u ps) <= 100)%nat ->
  List.NoDup (owned_symbols u ps) ->
  Forall (fun p => ~ Db.p_avg_price p == 0) (positions_owned u ps) ->
  let ps' := update_positions (fun _ => quote) u ps in
  ps' = map (fun p => if String.eqb (Db.p_user_id p) u
                      then marked quote p else p) ps
  /\ (forall p, In p (positions_owned u ps) -> 0 < Db.p_quantity p ->
        exists percent,
          Db.p_pnl_percent (marked quote p) = Some percent
          /\ percent
             == (price_of quote p - Db.p_avg_price p) / Db.p_avg_price p * 100)
  /\ (forall now today_start coll,
        exists s equity,
          update_risk_metrics u now today_start ps' coll = coll ++ [s]
          /\ Db.s_total_equity s = Some equity
          /\ equity
             == cash_before u coll
                + Py.sum (map (market_value quote) (positions_owned u ps))).
Proof.
  intros Hlen Hnd Havg ps'. subst ps'.
  rewrite (update_positions_marks quote u ps Hlen Hnd).
  split; [reflexivity|]. split.
  - intros p Hp Hq. rewrite Forall_forall in Havg.
    specialize (Havg p (proj2 (list_elem_of_In _ _) Hp)).
    unfold marked. destruct (Py.Qeqb (Db.p_avg_price p) 0) eqn:Hz.
    { apply PyFacts.Qeqb_eq in Hz. contradiction. }
    cbn [set_pnl Db.p_pnl_percent].
    destruct (PyFacts.Qltb_spec 0 (Db.p_quantity p)) as [_|Hn]; [|lra].
    eexists. split; [reflexivity|]. field. split; [exact Havg|lra].
  - intros now today_start coll. unfold update_risk_metrics.
    assert (positions_of u
              (map (fun p => if String.eqb (Db.p_user_id p) u
                             then marked quote p else p) ps)
            = map (marked quote) (positions_owned u ps)) as ->.
    { unfold positions_of. fold (positions_owned u
        (map (fun p => if String.eqb (Db.p_user_id p) u
                       then marked quote p else p) ps)).
      rewrite positions_owned_marked. apply take_ge.
      now rewrite length_map. }
    pose proof (marked_sums quote (positions_owned u ps) Havg) as Hsum.
    unfold cash_before.
    destruct (find_latest u coll) as [prev|]; eexists; eexists;
      (split; [reflexivity|]); (split; [reflexivity|]); rewrite <- Hsum; ring.
Qed.

Definition eth_of (u : string) : Db.position :=
  {| Db.p_user_id := u; Db.p_symbol := "ETH-USD"; Db.p_quantity := 250;
     Db.p_avg_price := 2500; Db.p_current_price := 2500; Db.p_pnl := None;
     Db.p_pnl_percent := None; Db.p_high_water_mark := None;
     Db.p_created_at := 0%Z |}.

Definition btc_of (u : string) : Db.position :=
  {| Db.p_user_id := u; Db.p_symbol := "BTC-USD"; Db.p_quantity := 500;
     Db.p_avg_price := 40000; Db.p_current_price := 40000; Db.p_pnl := Some 0;
     Db.p_pnl_percent := Some 0; Db.p_high_water_mark := None;
     Db.p_created_at := 0%Z |}.

Definition book : list Db.position := [btc_of "u1"; btc_of "u2"; eth_of "u1"].

Definition quotes (symbol : string) : option Q :=
  if String.eqb symbol "BTC-USD" then Some 42000
  else if String.eqb symbol "ETH-USD" then Some 2400 else None.

Lemma cycle_marks_to_market_witness :
  let ps' := update_positions (fun _ => quotes) "u1" book in
  ps' = map (fun p => if String.eqb (Db.p_user_id p) "u1"
                      then marked quotes p else p) book
  /\ (forall p, In p (positions_owned "u1" book) -> 0 < Db.p_quantity p ->
        exists percent,
          Db.p_pnl_percent (marked quotes p) = Some percent
          /\ percent
             == (price_of quotes p - Db.p_avg_price p) / Db.p_avg_price p * 100)
  /\ (forall now today_start coll,
        exists s equity,
          update_risk_metrics "u1" now today_start ps' coll = coll ++ [s]
          /\ Db.s_total_equity s = Some equity
          /\ equity
             == cash_before "u1" coll
                + Py.sum (map (market_value quotes) (positions_owned "u1" book))).
Proof.
  apply (cycle_marks_to_market quotes "u1" book).
  - vm_compute. lia.
  - vm_compute. repeat constructor; cbn; intuition discriminate.
  - vm_compute. repeat constructor; discriminate.
Defined.

End MarkFacts.

(** ** Volume profile and simulated fills *)

Module VolumeFacts.
Import TechnicalIndicators.







End VolumeFacts.

Module SimulationFacts.
Import TradingService.

(** The fixed price a simulated fill starts from. *)
Definition base_price (symbol : string) : Q :=
  if String.eqb symbol "BTC-USD" then 45000
  else if String.eqb symbol "ETH-USD" then 2500
  else 1000.

(** X22.  With the slippage drawn between 0.1% and 0.3%, a simulated order
    always succeeds; a BUY fills between 100.1% and 100.3% of the symbol's
    fixed base price and any other side between 99.7% and 99.9% of it,
    whatever the quantity. *)
Theorem simulated_fill_band (symbol side : string) (quantity slippage : Q) :
  1 # 1000 <= slippage -> slippage <= 3 # 1000 ->
  let result := _simulate_market_order symbol side quantity slippage in
  success result = true
  /\ exists fill,
       filled_price result = Some fill
       /\ if String.eqb side "BUY"
          then base_price symbol * (1001 # 1000) <= fill
               /\ fill <= base_price symbol * (1003 # 1000)
          else base_price symbol * (997 # 1000) <= fill
               /\ fill <= base_price symbol * (999 # 1000).
Proof.
  intros Hlo Hhi result. subst result. unfold _simulate_market_order.
  fold (base_price symbol). cbn [success filled_price].
  split; [reflexivity|]. eexists. split; [reflexivity|].
  assert (0 < base_price symbol) as Hb.
  { unfold base_price. destruct (String.eqb symbol "BTC-USD"); [reflexivity|].
    destruct (String.eqb symbol "ETH-USD"); reflexivity. }
  assert (forall k : Z,
            Py.round (base_price symbol * (k # 1000)) 2
            == base_price symbol * (k # 1000)) as Hexact.
  { intros k. unfold base_price.
    destruct (String.eqb symbol "BTC-USD");
      [|destruct (String.eqb symbol "ETH-USD")].
    - assert (45000 * (k # 1000) == inject_Z (45 * k)) as E
        by (unfold Qeq; cbn; lia).
      rewrite (NumericFacts.round_comp _ _ 2 E), E.
      apply NumericFacts.round_integer.
    - assert (2500 * (k # 1000) == (250 * k # 100)) as E
        by (unfold Qeq; cbn; lia).
      rewrite (NumericFacts.round_comp _ _ 2 E), E.
      apply NumericFacts.round_cents.
    - assert (1000 * (k # 1000) == inject_Z k) as E
        by (unfold Qeq; cbn; lia).
      rewrite (NumericFacts.round_comp _ _ 2 E), E.
      apply NumericFacts.round_integer. }
  destruct (String.eqb side "BUY"); split.
  - rewrite <- (Hexact 1001%Z). apply NumericFacts.round_mono. nra.
  - rewrite <- (Hexact 1003%Z). apply NumericFacts.round_mono. nra.
  - rewrite <- (Hexact 997%Z). apply NumericFacts.round_mono. nra.
  - rewrite <- (Hexact 999%Z). apply NumericFacts.round_mono. nra.
Qed.

Lemma simulated_fill_band_witness :
  let result := _simulate_market_order "BTC-USD" "SELL" 500 (2 # 1000) in
  success result = true
  /\ exists fill,
       filled_price result = Some fill
       /\ if String.eqb "SELL" "BUY"
          then base_price "BTC-USD" * (1001 # 1000) <= fill
               /\ fill <= base_price "BTC-USD" * (1003 # 1000)
          else base_price "BTC-USD" * (997 # 1000) <= fill
               /\ fill <= base_price "BTC-USD" * (999 # 1000).
Proof.
  apply (simulated_fill_band "BTC-USD" "SELL" 500 (2 # 1000)); discriminate.
Defined.

End SimulationFacts.

(** ** Tail risk and the risk assessment *)

Module TailRiskFacts.
Import AdvancedRiskManager.

(** *** Sorting *)

Lemma insert_sorted_In (x y : Q) (xs : list Q) :
  In y (Py.insert_sorted x xs) <-> y = x \/ In y xs.
Proof.
  induction xs as [|a xs IH]; cbn; [intuition|].
  destruct (Py.Qleb x a); cbn; [intuition|]. rewrite IH. intuition.
Qed.

Lemma sorted_In (y : Q) (xs : list Q) : In y (Py.sorted xs) <-> In y xs.
Proof.
  unfold Py.sorted. induction xs as [|a xs IH]; cbn; [tauto|].
  rewrite insert_sorted_In, IH. intuition.
Qed.

Lemma insert_sorted_length (x : Q) (xs : list Q) :
  length (Py.insert_sorted x xs) = S (length xs).
Proof.
  induction xs as [|a xs IH]; cbn; [reflexivity|].
  destruct (Py.Qleb x a); cbn; [reflexivity|]. now rewrite IH.
Qed.

Lemma sorted_length (xs : list Q) : length (Py.sorted xs) = length xs.
Proof.
  unfold Py.sorted. induction xs as [|a xs IH]; cbn; [reflexivity|].
  now rewrite insert_sorted_length, IH.
Qed.

Lemma insert_sorted_ascending (x : Q) (xs : list Q) :
  StronglySorted Qle xs -> StronglySorted Qle (Py.insert_sorted x xs).
Proof.
  induction 1 as [|a xs Hs IH Ha]; cbn; [repeat constructor|].
  destruct (PyFacts.Qleb_spec x a) as [Hle|Hgt].
  - constructor; [now constructor|]. constructor; [exact Hle|].
    rewrite List.Forall_forall in *. intros y Hy. specialize (Ha y Hy). lra.
  - constructor; [exact IH|].
    rewrite List.Forall_forall in *. intros y Hy.
    apply insert_sorted_In in Hy as [->|Hy]; [lra|now apply Ha].
Qed.

Lemma sorted_ascending (xs : list Q) : StronglySorted Qle (Py.sorted xs).
Proof.
  unfold Py.sorted. induction xs as [|a xs IH]; cbn; [constructor|].
  now apply insert_sorted_ascending.
Qed.

Lemma floor_of_fraction (x : Q) : 0 <= x -> x < 1 -> Qfloor x = 0%Z.
Proof.
  intros H0 H1. pose proof (Qfloor_le x) as Hle. pose proof (Qlt_floor x) as Hlt.
  assert (inject_Z (Qfloor x) < inject_Z 1) as Ha
    by (change (inject_Z 1) with 1; lra).
  assert (inject_Z 0 < inject_Z (Qfloor x + 1)) as Hb
    by (change (inject_Z 0) with 0; lra).
  rewrite <- Zlt_Qlt in Ha, Hb. lia.
Qed.

(** *** The 5% tail of ten to twenty returns *)

Lemma tail_is_worst (returns : list Q) (worst : Q) :
  (10 <= length returns <= 20)%nat ->
  In worst returns -> (forall r, In r returns -> worst <= r) ->
  let var := Py.percentile returns ((1 - (95 # 100)) * 100) in
  worst <= var /\ forall r, In r returns -> r <= var -> r <= worst.
Proof.
  intros [Hlo Hhi] Hin Hmin var. subst var. unfold Py.percentile.
  set (n1 := inject_Z (Z.of_nat (length returns - 1))).
  set (gamma := n1 * ((1 - (95 # 100)) * 100 / 100)).
  assert (9 <= n1 /\ n1 <= 19) as [Hn9 Hn19].
  { unfold n1. change 9 with (inject_Z 9). change 19 with (inject_Z 19).
    rewrite <- !Zle_Qle. lia. }
  assert (gamma == n1 / 20) as Hg by (unfold gamma; field).
  assert (0 < gamma /\ gamma < 1) as [Hg0 Hg1].
  { rewrite Hg. split; [apply Qlt_shift_div_l|apply Qlt_shift_div_r]; lra. }
  rewrite (floor_of_fraction gamma) by lra.
  change (Z.to_nat 0) with 0%nat. cbn [Nat.add].
  replace (Nat.min 1 (length returns - 1)) with 1%nat by lia.
  pose proof (sorted_length returns) as Hlen.
  pose proof (sorted_ascending returns) as Hasc.
  pose proof (sorted_In) as Hmem.
  destruct (Py.sorted returns) as [|s0 [|s1 rest]] eqn:Hs;
    [cbn in Hlen; lia|cbn in Hlen; lia|].
  cbn [nth].
  apply StronglySorted_inv in Hasc as [Hasc1 H0].
  apply StronglySorted_inv in Hasc1 as [_ H1].
  rewrite List.Forall_forall in H0, H1.
  assert (s0 <= s1) as H01 by (apply H0; now left).
  assert (s0 <= worst) as Hs0w.
  { assert (In worst (s0 :: s1 :: rest)) as Hw by (rewrite <- Hs; now apply Hmem).
    destruct Hw as [->|Hw]; [apply Qle_refl|now apply H0]. }
  assert (worst <= s0) as Hws0.
  { apply Hmin. apply (Hmem s0 returns). rewrite Hs. now left. }
  assert (inject_Z 0 == 0) as Hz by reflexivity.
  split.
  - rewrite Hz. nra.
  - intros r Hr Hvar.
    assert (In r (s0 :: s1 :: rest)) as Hrs by (rewrite <- Hs; now apply Hmem).
    destruct Hrs as [<-|Hrs]; [exact Hs0w|].
    assert (s1 <= r) as Hs1r.
    { destruct Hrs as [<-|Hrs]; [apply Qle_refl|now apply H1]. }
    rewrite Hz in Hvar.
    assert (r <= s0) by nra. lra.
Qed.

Lemma mean_of_equal (xs : list Q) (m : Q) :
  xs <> [] -> Forall (fun x => x == m) xs -> Py.mean xs == m.
Proof.
  intros Hne Hall.
  assert (m <= Py.mean xs <= m) as [H1 H2].
  { apply NumericFacts.mean_bounds; [exact Hne|].
    eapply Forall_impl; [exact Hall|]. cbn. intros x Hx. rewrite Hx. lra. }
  lra.
Qed.

(** The mean of the tail that the 5% quantile cuts off. *)
Lemma tail_mean_is_worst (returns : list Q) (worst : Q) :
  (10 <= length returns <= 20)%nat ->
  In worst returns -> (forall r, In r returns -> worst <= r) ->
  Py.mean (List.filter
             (fun r => Py.Qleb r (Py.percentile returns ((1 - (95 # 100)) * 100)))
             returns)
  == worst.
Proof.
  intros Hlen Hin Hmin.
  destruct (tail_is_worst returns worst Hlen Hin Hmin) as [Hvar Htail].
  apply mean_of_equal.
  - intros Hnil.
    assert (In worst (List.filter
              (fun r => Py.Qleb r (Py.percentile returns ((1 - (95 # 100)) * 100)))
              returns)) as Hw.
    { apply filter_In. split; [exact Hin|]. now apply PyFacts.Qleb_le. }
    rewrite Hnil in Hw. contradiction.
  - apply Forall_forall. intros r Hr.
    apply list_elem_of_In, filter_In in Hr as [Hr Hle].
    apply PyFacts.Qleb_le in Hle.
    specialize (Htail r Hr Hle). specialize (Hmin r Hr). lra.
Qed.

(** X23.  On ten to twenty returns, the conditional value at risk at 95% is
    the single worst return, rounded to four digits: the 5% quantile falls
    between the two smallest returns, so the tail it cuts off holds the
    minimum alone. *)
Theorem cvar_is_worst_return (returns : list Q) (worst : Q) :
  (10 <= length returns <= 20)%nat ->
  In worst returns -> (forall r, In r returns -> worst <= r) ->
  calculate_cvar returns (95 # 100) = Py.round worst 4.
Proof.
  intros Hlen Hin Hmin. unfold calculate_cvar.
  destruct (Nat.ltb_spec (length returns) 10) as [Hlt|_]; [lia|].
  change (Py.Qltb ((1 - (95 # 100)) * 100) 0
          || Py.Qltb 100 ((1 - (95 # 100)) * 100)) with false. cbv iota.
  apply NumericFacts.round_comp. now apply tail_mean_is_worst.
Qed.

Definition ten_returns : list Q :=
  [12 # 10; - (31 # 10); 5; 2; - (4 # 10); 5; 1; - 3; 22 # 10; 5].

Lemma cvar_is_worst_return_witness :
  calculate_cvar ten_returns (95 # 100) = Py.round (- (31 # 10)) 4.
Proof.
  apply (cvar_is_worst_return ten_returns (- (31 # 10))).
  - vm_compute. lia.
  - unfold ten_returns. cbn. tauto.
  - unfold ten_returns. intros r Hr. cbn in Hr.
    repeat (destruct Hr as [<-|Hr]; [discriminate|]). contradiction.
Defined.

(** *** The risk assessment *)

(** The returns the assessment hands to [calculate_cvar]. *)
Definition recent_returns (recent_trades : list (option Q)) : list Q :=
  omap (fun t => t) (Py.last_n 20 recent_trades).

Lemma recent_returns_length (recent_trades : list (option Q)) :
  (length (recent_returns recent_trades) <= 20)%nat.
Proof.
  unfold recent_returns.
  assert (length (Py.last_n 20 recent_trades) <= 20)%nat as H
    by (unfold Py.last_n; rewrite length_drop; lia).
  revert H. generalize (Py.last_n 20 recent_trades) as l. intros l.
  assert (length (omap (fun t : option Q => t) l) <= length l)%nat; [|lia].
  induction l as [|[x|] l IH]; cbn; lia.
Qed.

Lemma heat_percent_nonneg (positions : list Db.position) (equity : Q) :
  Forall (fun p => 0 <= Db.p_quantity p) positions ->
  0 <= heat_percent (calculate_portfolio_heat positions equity).
Proof.
  intros Hall. unfold calculate_portfolio_heat.
  destruct positions as [|pos rest]; [cbn; lra|].
  destruct (PyFacts.Qleb_spec equity 0) as [_|Hpos]; [cbn; lra|].
  set (positions := pos :: rest) in *.
  assert (forall acc : Q * nat, 0 <= fst acc ->
            0 <= fst (foldl (fun acc pos =>
                               (fst acc + Db.p_quantity pos * (3 # 100),
                                S (snd acc))) acc positions)) as Hloop.
  { clearbody positions. induction Hall as [|p ps Hp _ IH]; intros acc Hacc;
      [exact Hacc|].
    cbn [foldl]. apply IH. cbn [fst]. nra. }
  specialize (Hloop (0, O) (Qle_refl 0)).
  destruct (foldl _ (0, O) positions) as [total_risk at_risk]. cbn [fst] in Hloop.
  cbn [heat_percent].
  destruct (PyFacts.Qltb_spec 0 equity) as [_|Hn]; [|lra].
  apply Qle_trans with (Py.round (inject_Z 0) 2).
  - rewrite NumericFacts.round_integer. apply Qle_refl.
  - apply NumericFacts.round_mono. change (inject_Z 0) with 0.
    apply Qmult_le_0_compat; [|lra]. apply Qle_shift_div_l; lra.
Qed.

(** X24.  With a positive total equity and no negative quantities the
    assessment always comes back, with a score between 0 and 100, and new
    positions are allowed only below a score of 75 and a heat of 15.  The
    tail-risk term weighs the CVaR, a percentage, by 40: once ten trades carry
    a P&L percentage, a single loss of 2.5% or more among those of the last
    twenty pins the score at 100, the assessment at "high", and refuses new
    positions. *)
Theorem one_loss_pins_risk_score (equity_metrics : RiskManager.risk_metrics)
  (positions : list Db.position) (recent_trades : list (option Q)) :
  0 < Py.get (RiskManager.rm_total_equity equity_metrics) 10000 ->
  Forall (fun p => 0 <= Db.p_quantity p) positions ->
  exists a,
    get_risk_assessment equity_metrics positions recent_trades = Some a
    /\ 0 <= risk_score a /\ risk_score a <= 100
    /\ (allow_new_positions a = true ->
        heat_percent (ra_portfolio_heat a) < 15 /\ risk_score a <= 75
        /\ assessment a <> "high")
    /\ (forall worst,
          (10 <= length (recent_returns recent_trades))%nat ->
          In worst (recent_returns recent_trades) ->
          (forall r, In r (recent_returns recent_trades) -> worst <= r) ->
          worst <= - (5 # 2) ->
          risk_score a == 100 /\ assessment a = "high"
          /\ allow_new_positions a = false).
Proof.
  intros Heq Hq. unfold get_risk_assessment. fold (recent_returns recent_trades).
  set (total_equity := Py.get (RiskManager.rm_total_equity equity_metrics) 10000) in *.
  set (max_equity := Py.get (RiskManager.rm_max_equity equity_metrics) 10000).
  set (daily_pnl := Py.get (RiskManager.rm_daily_pnl equity_metrics) 0).
  set (heat := calculate_portfolio_heat positions total_equity).
  set (tail :=
         match recent_returns recent_trades with
         | [] => 0
         | _ :: _ => calculate_cvar (recent_returns recent_trades) (95 # 100)
         end).
  set (dd := if Py.Qltb 0 max_equity
             then (max_equity - total_equity) / max_equity * 100 else 0).
  assert (Py.Qeqb total_equity 0 = false) as ->.
  { destruct (Py.Qeqb total_equity 0) eqn:E; [|reflexivity].
    apply PyFacts.Qeqb_eq in E. lra. }
  rewrite andb_false_r.
  set (heat_term := heat_percent heat / 15 * 30).
  set (dd_term := Py.abs dd / 10 * 30).
  set (tail_term := if Py.Qltb tail 0 then Py.abs tail * 40 else 0).
  set (loss_term := if Py.Qltb daily_pnl 0
                    then Py.abs daily_pnl / total_equity * 100 * 20 else 0).
  set (raw := heat_term + dd_term + tail_term + loss_term).
  assert (0 <= heat_term) as Hheat.
  { unfold heat_term. pose proof (heat_percent_nonneg positions total_equity Hq).
    fold heat in H. apply Qmult_le_0_compat; [|lra]. apply Qle_shift_div_l; lra. }
  assert (0 <= dd_term) as Hdd.
  { unfold dd_term. pose proof (PyFacts.abs_nonneg dd).
    apply Qmult_le_0_compat; [|lra]. apply Qle_shift_div_l; lra. }
  assert (0 <= tail_term) as Htail.
  { unfold tail_term. pose proof (PyFacts.abs_nonneg tail).
    destruct (Py.Qltb tail 0); lra. }
  assert (0 <= loss_term) as Hloss.
  { unfold loss_term. pose proof (PyFacts.abs_nonneg daily_pnl).
    destruct (Py.Qltb daily_pnl 0); [|lra].
    apply Qmult_le_0_compat; [|lra]. apply Qmult_le_0_compat; [|lra].
    apply Qle_shift_div_l; lra. }
  assert (0 <= raw) as Hraw by (unfold raw; lra).
  set (score := Py.min raw 100).
  assert (0 <= score /\ score <= 100) as [Hs0 Hs100].
  { unfold score, Py.min. destruct (PyFacts.Qltb_spec 100 raw); lra. }
  eexists. split; [reflexivity|].
  cbn [risk_score assessment ra_portfolio_heat allow_new_positions].
  assert (forall lo hi : Z, inject_Z lo <= score -> score <= inject_Z hi ->
            inject_Z lo <= Py.round score 2 /\ Py.round score 2 <= inject_Z hi)
    as Hround.
  { intros lo hi Hlo Hhi. split.
    - rewrite <- (NumericFacts.round_integer lo 2). now apply NumericFacts.round_mono.
    - rewrite <- (NumericFacts.round_integer hi 2). now apply NumericFacts.round_mono. }
  split; [apply (Hround 0%Z 100%Z); assumption|].
  split; [apply (Hround 0%Z 100%Z); assumption|].
  split.
  - intros Hallow. apply andb_true_iff in Hallow as [H75 H15].
    apply PyFacts.Qltb_lt in H75, H15.
    split; [exact H15|]. split.
    + apply (Hround 0%Z 75%Z); [assumption|]. change (inject_Z 75) with 75. lra.
    + destruct (PyFacts.Qltb_spec score 30); [discriminate|].
      destruct (PyFacts.Qltb_spec score 60); [discriminate|].
      destruct (PyFacts.Qltb_spec score 80); [discriminate|]. lra.
  - intros worst Hlen Hin Hmin Hloss25.
    assert (tail = Py.round worst 4) as Htailv.
    { unfold tail. destruct (recent_returns recent_trades) as [|r rs] eqn:Hrs;
        [contradiction|].
      rewrite <- Hrs in *. unfold calculate_cvar.
      destruct (Nat.ltb_spec (length (recent_returns recent_trades)) 10)
        as [Hlt|_]; [lia|].
      change (Py.Qltb ((1 - (95 # 100)) * 100) 0
              || Py.Qltb 100 ((1 - (95 # 100)) * 100)) with false. cbv iota.
      apply NumericFacts.round_comp, tail_mean_is_worst; try assumption.
      split; [exact Hlen|apply recent_returns_length]. }
    assert (tail <= - (5 # 2)) as Htl.
    { rewrite Htailv.
      apply Qle_trans with (Py.round (- (250 # 100)) 4).
      - apply NumericFacts.round_mono. lra.
      - vm_compute. discriminate. }
    assert (100 <= tail_term) as Hpin.
    { unfold tail_term. destruct (PyFacts.Qltb_spec tail 0) as [_|Hn]; [|lra].
      unfold Py.abs. destruct (PyFacts.Qltb_spec tail 0) as [_|Hn]; lra. }
    assert (score == 100) as Hscore.
    { unfold score, Py.min. destruct (PyFacts.Qltb_spec 100 raw) as [_|Hn];
        [reflexivity|]. unfold raw in *. lra. }
    split; [|split].
    + rewrite (NumericFacts.round_comp _ _ 2 Hscore).
      apply (NumericFacts.round_integer 100 2).
    + destruct (PyFacts.Qltb_spec score 30); [lra|].
      destruct (PyFacts.Qltb_spec score 60); [lra|].
      destruct (PyFacts.Qltb_spec score 80); [lra|reflexivity].
    + destruct (PyFacts.Qltb_spec score 75); [lra|reflexivity].
Qed.

Definition healthy : RiskManager.risk_metrics :=
  {| RiskManager.rm_total_equity := Some 10000;
     RiskManager.rm_max_equity := Some 10000;
     RiskManager.rm_daily_pnl := Some 0;
     RiskManager.rm_cash_balance := Some 10000 |}.

Lemma one_loss_pins_risk_score_witness :
  exists a,
    get_risk_assessment healthy [] (map Some ten_returns) = Some a
    /\ 0 <= risk_score a /\ risk_score a <= 100
    /\ (allow_new_positions a = true ->
        heat_percent (ra_portfolio_heat a) < 15 /\ risk_score a <= 75
        /\ assessment a <> "high")
    /\ (forall worst,
          (10 <= length (recent_returns (map Some ten_returns)))%nat ->
          In worst (recent_returns (map Some ten_returns)) ->
          (forall r, In r (recent_returns (map Some ten_returns)) -> worst <= r) ->
          worst <= - (5 # 2) ->
          risk_score a == 100 /\ assessment a = "high"
          /\ allow_new_positions a = false).
Proof.
  apply (one_loss_pins_risk_score healthy [] (map Some ten_returns)).
  - reflexivity.
  - constructor.
Defined.

End TailRiskFacts.

(** ** The decision step *)

Module EngineFacts.
Import BotEngine.

(** *** What a decision step can write *)

Lemma update_first_length (f : Db.position -> Db.position)
  (u symbol : string) (ps : list Db.position) :
  length (update_first f u symbol ps) = length ps.
Proof.
  induction ps as [|p rest IH]; [reflexivity|]. cbn [update_first].
  destruct (same_position u symbol p); cbn [length]; [reflexivity|].
  now rewrite IH.
Qed.

Lemma delete_first_length (u symbol : string) (ps : list Db.position) :
  (length (delete_first u symbol ps) <= length ps)%nat.
Proof.
  induction ps as [|p rest IH]; [reflexivity|]. cbn [delete_first].
  destruct (same_position u symbol p); cbn [length]; lia.
Qed.

Lemma check_sell_signal_writes (self : t) (user_id symbol : string)
  (position : Db.position) (a : analysis) (current_price : Q)
  (tech : tech_signals) (now : Db.timestamp)
  (order_result : TradingService.order_result) :
  let r :=
    check_sell_signal self user_id symbol position a current_price tech now
      order_result in
  price_history_cache (fst r) = price_history_cache self
  /\ (submitted (fst r) = submitted self
      \/ submitted (fst r)
         = submitted self ++ [(symbol, "SELL", Db.p_quantity position)])
  /\ (length (positions (store (fst r))) <= length (positions (store self)))%nat
  /\ (trades (store (fst r)) = trades (store self)
      \/ exists t,
           trades (store (fst r)) = trades (store self) ++ [t]
           /\ t_side t = "SELL" /\ t_user_id t = user_id
           /\ t_symbol t = symbol /\ t_quantity t = Db.p_quantity position).
Proof.
  intros r. subst r. unfold check_sell_signal.
  destruct (Py.Qeqb (Db.p_avg_price position) 0).
  { cbn [fst]. split; [reflexivity|]. split; [now left|]. split; [lia|now left]. }
  match goal with
  | |- context [sell_rules ?p ?dd a tech ?h] =>
    destruct (sell_rules p dd a tech h) as [should why]
  end.
  set (positions1 := if Py.Qltb _ current_price then _ else _).
  assert (length positions1 = length (positions (store self))) as Hp1.
  { subst positions1. destruct (Py.Qltb _ current_price); [|reflexivity].
    apply update_first_length. }
  pose proof (delete_first_length user_id symbol positions1) as Hdel.
  destruct should.
  - destruct (TradingService.success order_result).
    + destruct (find_latest user_id (risk_metrics (store self)));
        cbn [fst store positions trades submitted price_history_cache];
        (split; [reflexivity|]); (split; [now right|]); (split; [lia|]);
        right; eexists; (split; [reflexivity|]); now repeat split.
    + cbn [fst store positions trades submitted price_history_cache].
      split; [reflexivity|]. split; [now right|]. split; [lia|now left].
  - cbn [fst store positions trades submitted price_history_cache].
    split; [reflexivity|]. split; [now left|]. split; [lia|now left].
Qed.

(** X25.  One decision step for a symbol caches the historical prices and
    never buys.  Without a position of the tenant in the symbol it changes
    nothing else; with one it submits at most one market order, a SELL of
    the position's quantity, adds no position, and records at most one
    trade, a SELL of that quantity. *)
Theorem decision_step_only_sells (self : t) (user_id symbol : string)
  (price : option Q) (historical_prices : list Q)
  (bands : TechnicalIndicators.bollinger) (ai : AIAnalysisService.analysis)
  (now : Db.timestamp) (order_result : TradingService.order_result) :
  let r :=
    analyze_and_trade self user_id symbol price historical_prices bands ai now
      order_result in
  price_history_cache (fst r)
  = <[symbol := historical_prices]> (price_history_cache self)
  /\ match List.find (same_position user_id symbol) (positions (store self)) with
     | None =>
       store (fst r) = store self /\ submitted (fst r) = submitted self
       /\ exists log, snd r = entry_evaluated log
     | Some position =>
       (exists outcome, snd r = exit_evaluated outcome)
       /\ (submitted (fst r) = submitted self
           \/ submitted (fst r)
              = submitted self ++ [(symbol, "SELL", Db.p_quantity position)])
       /\ (length (positions (store (fst r)))
           <= length (positions (store self)))%nat
       /\ (trades (store (fst r)) = trades (store self)
           \/ exists t,
                trades (store (fst r)) = trades (store self) ++ [t]
                /\ t_side t = "SELL" /\ t_user_id t = user_id
                /\ t_symbol t = symbol
                /\ t_quantity t = Db.p_quantity position)
     end.
Proof.
  intros r. subst r. unfold analyze_and_trade.
  cbn [store submitted price_history_cache].
  destruct (List.find (same_position user_id symbol) (positions (store self)))
    as [position|].
  - match goal with
    | |- context [check_sell_signal ?s user_id symbol position ?a ?p ?t now order_result] =>
      pose proof (check_sell_signal_writes s user_id symbol position a p t now
                    order_result) as Hw;
      destruct (check_sell_signal s user_id symbol position a p t now order_result)
        as [self' outcome]
    end.
    cbn [fst snd store submitted price_history_cache positions trades] in *.
    destruct Hw as (Hc & Hs & Hp & Ht).
    split; [exact Hc|]. split; [eauto|]. split; [exact Hs|]. split; [exact Hp|exact Ht].
  - match goal with
    | |- context [check_buy_signal ?s user_id symbol ?a ?m ?p ?ps] =>
      pose proof (EntryExitFacts.check_buy_signal_inert s user_id symbol a m p ps)
        as Hi;
      destruct (check_buy_signal s user_id symbol a m p ps) as [self' log]
    end.
    cbn [fst snd] in *. subst self'.
    cbn [store submitted price_history_cache].
    split; [reflexivity|]. split; [reflexivity|]. split; [reflexivity|eauto].
Qed.

(** *** The combined confidence *)

Lemma agree_three (a b c : string) :
  (1 <? length (remove_dups [a; b; c]))%nat
  = negb (String.eqb a b && String.eqb b c).
Proof.
  destruct (String.eqb_spec a b) as [->|Hab];
    destruct (String.eqb_spec b c) as [->|Hbc]; cbn [andb negb remove_dups];
    repeat (case_decide; cbn [length remove_dups]);
    try reflexivity; exfalso;
    repeat match goal with
           | H : _ ∈ _ |- _ => rewrite ?elem_of_cons, ?elem_of_nil in H
           | H : ¬ _ ∈ _ |- _ => rewrite ?not_elem_of_cons, ?elem_of_nil in H
           end; intuition congruence.
Qed.

(** The weighted confidence before the adjustment. *)
Definition weighted (ai tech mtf : Q) : Q :=
  ai * (4 # 10) + tech * (3 # 10) + mtf * (3 # 10).

Lemma combine_confidence_cases (ai tech mtf : Q) (ts ma cs : string) :
  combine_confidence ai tech mtf ts ma cs
  = if String.eqb ts ma && String.eqb ma cs
    then Py.min (weighted ai tech mtf * (115 # 100)) 95
    else weighted ai tech mtf * (75 # 100).
Proof.
  unfold combine_confidence, weighted. rewrite agree_three.
  now destruct (String.eqb ts ma && String.eqb ma cs).
Qed.

(** X26.  The three signals either all agree or not, so exactly one of the
    two adjustments applies: agreement raises the weighted confidence by 15%,
    capped at 95, and any disagreement cuts it by 25%.  With confidences of
    at most 100 the result never exceeds 95, and under disagreement it stays
    below 75. *)
Theorem combined_confidence_adjustment (ai tech mtf : Q) (ts ma cs : string) :
  0 <= ai <= 100 -> 0 <= tech <= 100 -> 0 <= mtf <= 100 ->
  let c := combine_confidence ai tech mtf ts ma cs in
  (ts = ma /\ ma = cs -> c == Qmin (weighted ai tech mtf * (115 # 100)) 95)
  /\ (~ (ts = ma /\ ma = cs) -> c == weighted ai tech mtf * (75 # 100) /\ c <= 75)
  /\ 0 <= c <= 95.
Proof.
  intros Ha Ht Hm c. subst c. rewrite combine_confidence_cases.
  assert (0 <= weighted ai tech mtf <= 100) as Hw by (unfold weighted; lra).
  destruct (String.eqb_spec ts ma) as [E1|N1];
    [destruct (String.eqb_spec ma cs) as [E2|N2]|]; cbn [andb].
  - split; [intros _; apply PyFacts.py_min_Qmin|].
    split; [tauto|].
    unfold Py.min. destruct (PyFacts.Qltb_spec 95 (weighted ai tech mtf * (115 # 100)));
      lra.
  - split; [tauto|]. split; [intros _|]; lra.
  - split; [tauto|]. split; [intros _|]; lra.
Qed.

Lemma combined_confidence_adjustment_witness :
  let c := combine_confidence 80 65 70 "BUY" "BUY" "HOLD" in
  ("BUY" = "BUY" /\ "BUY" = "HOLD" -> c == Qmin (weighted 80 65 70 * (115 # 100)) 95)
  /\ (~ ("BUY" = "BUY" /\ "BUY" = "HOLD") ->
      c == weighted 80 65 70 * (75 # 100) /\ c <= 75)
  /\ 0 <= c <= 95.
Proof.
  apply (combined_confidence_adjustment 80 65 70 "BUY" "BUY" "HOLD");
    split; discriminate.
Defined.

(** *** An outage of the AI service *)

Lemma outage_confidence (tech mtf : Q) (ts ma : string) :
  tech <= 80 -> mtf <= 95 -> (ts = "HOLD" -> tech == 50) ->
  combine_confidence 0 tech mtf ts ma "HOLD" < 60.
Proof.
  intros Ht Hm Hhold. rewrite combine_confidence_cases. unfold weighted.
  destruct (String.eqb_spec ts ma) as [E1|N1];
    [destruct (String.eqb_spec ma "HOLD") as [E2|N2]|]; cbn [andb]; try lra.
  assert (tech == 50) as E by (apply Hhold; congruence).
  pose proof (PyFacts.min_le_l ((0 * (4 # 10) + tech * (3 # 10) + mtf * (3 # 10))
                                * (115 # 100)) 95).
  lra.
Qed.

Lemma tech_confidence_shape (rsi : Q) (m : TechnicalIndicators.macd_result)
  (bands : TechnicalIndicators.bollinger) (current_price : Q) (regime : string) :
  let s := TechnicalIndicators.generate_trading_signals rsi m bands
             current_price regime in
  TechnicalIndicators.ts_confidence s <= 80
  /\ (TechnicalIndicators.ts_signal s = "HOLD" ->
      TechnicalIndicators.ts_confidence s == 50).
Proof.
  intros s. pose proof (SignalFacts.signal_shape_holds rsi m bands current_price
                          regime) as H.
  fold s in H. unfold SignalFacts.signal_shape in H.
  rewrite !andb_true_iff, !orb_true_iff, !andb_true_iff in H.
  rewrite !String.eqb_eq, !PyFacts.Qleb_le, !PyFacts.Qltb_lt, !PyFacts.Qeqb_eq in H.
  split; [tauto|]. intros E. rewrite E in H.
  destruct H as [_ [[((H & _) & _)|((H & _) & _)]|((_ & _) & H)]];
    [discriminate H|discriminate H|exact H].
Qed.

Lemma sell_rules_combined (pnl_percent drawdown_from_high : Q) (a : analysis)
  (tech : tech_signals) (hours_held : Q) :
  snd (sell_rules pnl_percent drawdown_from_high a tech hours_held) = combined_sell ->
  60 < Py.get (a_combined_confidence a) 0.
Proof.
  unfold sell_rules.
  assert (forall rule : bool * sell_reason,
            (snd rule = combined_sell -> 60 < Py.get (a_combined_confidence a) 0) ->
            snd (let '(should_sell, why) := rule in
                 if Py.Qltb 24 hours_held && Py.Qltb pnl_percent 2
                 then (true, time_based_exit) else (should_sell, why))
            = combined_sell ->
            60 < Py.get (a_combined_confidence a) 0) as Hlast.
  { intros [should why] Hrule.
    destruct (Py.Qltb 24 hours_held && Py.Qltb pnl_percent 2); [discriminate|].
    exact Hrule. }
  apply Hlast.
  repeat match goal with
         | |- context [if Py.Qltb 60 ?c then _ else _] =>
           destruct (PyFacts.Qltb_spec 60 c)
         | |- context [if ?b then _ else _] => destruct b
         end; cbn [snd]; intros E; try discriminate E; assumption.
Qed.

Lemma check_sell_signal_reason (self : t) (user_id symbol : string)
  (position : Db.position) (a : analysis) (current_price : Q)
  (tech : tech_signals) (now : Db.timestamp)
  (order_result : TradingService.order_result) :
  Py.get (a_combined_confidence a) 0 <= 60 ->
  let outcome :=
    snd (check_sell_signal self user_id symbol position a current_price tech
           now order_result) in
  outcome <> sold combined_sell /\ outcome <> order_failed combined_sell.
Proof.
  intros Hc outcome. subst outcome. unfold check_sell_signal.
  destruct (Py.Qeqb (Db.p_avg_price position) 0); [split; discriminate|].
  match goal with
  | |- context [sell_rules ?p ?dd a tech ?h] =>
    pose proof (sell_rules_combined p dd a tech h) as Hr;
    destruct (sell_rules p dd a tech h) as [should why]
  end.
  cbn [snd] in Hr.
  assert (why <> combined_sell) as Hwhy by (intros E; apply Hr in E; lra).
  destruct should; [|split; discriminate].
  destruct (TradingService.success order_result).
  - destruct (find_latest user_id (risk_metrics (store self))); cbn [snd];
      split; congruence.
  - cbn [snd]. split; congruence.
Qed.

(** X27.  When the call to the AI service raises, its fallback analysis
    (HOLD at confidence 0) keeps the combined confidence below 60 whatever
    the indicators say.  The entry evaluation then stops at the risk gate, on
    the floor, the loss or the confidence check, and the exit evaluation
    never sells on the combined AI and technical rule; the other exit rules
    stay in force. *)
Theorem ai_outage_blocks_entries (self : t) (user_id symbol : string)
  (price : option Q) (historical_prices : list Q)
  (bands : TechnicalIndicators.bollinger) (message : string)
  (now : Db.timestamp) (order_result : TradingService.order_result) :
  let ai := AIAnalysisService.analyze_market (AIAnalysisService.raised message) in
  let r :=
    analyze_and_trade self user_id symbol price historical_prices bands ai now
      order_result in
  match snd r with
  | entry_evaluated log =>
    exists reason,
      log = not_approved reason
      /\ (reason = "Capital floor breach - trading halted"
          \/ reason = "Daily loss limit reached"
          \/ reason = "Signal confidence too low")
  | exit_evaluated outcome =>
    outcome <> sold combined_sell /\ outcome <> order_failed combined_sell
  end.
Proof.
  intros ai r. subst ai r. unfold analyze_and_trade.
  cbn [AIAnalysisService.analyze_market AIAnalysisService.confidence
       AIAnalysisService.signal AIAnalysisService.buy_recommendation
       AIAnalysisService.ai_analysis AIAnalysisService.regime].
  set (rsi := TechnicalIndicators.calculate_rsi historical_prices 14).
  set (macd := TechnicalIndicators.calculate_macd historical_prices 12 26 9).
  set (regime := TechnicalIndicators.detect_market_regime historical_prices rsi
                   macd bands).
  set (tech := TechnicalIndicators.generate_trading_signals rsi macd bands
                 (Py.get price 0) regime).
  destruct (tech_confidence_shape rsi macd bands (Py.get price 0) regime)
    as [Ht Hhold].
  fold tech in Ht, Hhold.
  cbn [store submitted price_history_cache].
  set (existing := List.find (same_position user_id symbol) (positions (store self))).
  set (held := match existing with Some _ => true | None => false end).
  pose proof (TimeframeFacts.recommendation_confidence_le_95 historical_prices held)
    as Hm.
  set (mtf := MultiTimeframeAnalysis.get_trading_recommendation
                (MultiTimeframeAnalysis.analyze_timeframes historical_prices) held)
    in *.
  pose proof (outage_confidence (TechnicalIndicators.ts_confidence tech)
                (MultiTimeframeAnalysis.confidence mtf)
                (TechnicalIndicators.ts_signal tech)
                (action_name (MultiTimeframeAnalysis.rec_action mtf))
                Ht Hm Hhold) as Hlow.
  set (combined := combine_confidence 0 (TechnicalIndicators.ts_confidence tech)
                     (MultiTimeframeAnalysis.confidence mtf)
                     (TechnicalIndicators.ts_signal tech)
                     (action_name (MultiTimeframeAnalysis.rec_action mtf)) "HOLD")
    in *.
  destruct existing as [position|].
  - match goal with
    | |- context [check_sell_signal ?s user_id symbol position ?a ?p ?t now order_result] =>
      pose proof (check_sell_signal_reason s user_id symbol position a p t now
                    order_result) as Hw;
      destruct (check_sell_signal s user_id symbol position a p t now order_result)
        as [self' outcome]
    end.
    cbn [snd a_combined_confidence Py.get] in *. apply Hw. lra.
  - match goal with
    | |- context [check_buy_signal ?s user_id symbol ?a ?m ?p ?ps] =>
      assert (exists reason,
                snd (check_buy_signal s user_id symbol a m p ps)
                = not_approved reason
                /\ (reason = "Capital floor breach - trading halted"
                    \/ reason = "Daily loss limit reached"
                    \/ reason = "Signal confidence too low")) as Hgate;
      [|destruct (check_buy_signal s user_id symbol a m p ps) as [self' log];
        exact Hgate]
    end.
    unfold check_buy_signal, RiskManager.validate_trade, as_signal.
    cbn [RiskManager.approved RiskManager.reason RiskManager.sig_confidence
         a_confidence Py.get].
    destruct (PyFacts.Qleb_spec 60 combined) as [Hge|_]; [lra|].
    rewrite andb_false_r. cbn [andb negb snd].
    eexists. split; [reflexivity|].
    unfold RiskManager._get_rejection_reason.
    destruct (RiskManager.fc_allow_trading _); cbn [negb]; [|now left].
    destruct (RiskManager.lc_allow_trading _); cbn [negb]; [|right; now left].
    right. now right.
Qed.

End EngineFacts.

(** ** Equity across a sale *)

Module SaleFacts.
Import BotEngine SnapshotFacts TenantFacts.

(** *** The latest snapshot after a cash write *)

Lemma latest_from_alter_cash (u : string) (new_cash : Q)
  (coll : list Db.snapshot) :
  forall (k i : nat) (best : option (nat * Db.timestamp)),
    latest_from u (alter (set_cash new_cash) k coll) i best
    = latest_from u coll i best.
Proof.
  induction coll as [|s coll IH]; intros k i best; [reflexivity|].
  destruct k as [|k].
  - change (alter (set_cash new_cash) 0%nat (s :: coll))
      with (set_cash new_cash s :: coll).
    reflexivity.
  - change (alter (set_cash new_cash) (S k) (s :: coll))
      with (s :: alter (set_cash new_cash) k coll).
    cbn [latest_from]. apply IH.
Qed.

Lemma find_latest_update_cash (u : string) (new_cash : Q)
  (coll : list Db.snapshot) :
  find_latest u (update_cash u new_cash coll)
  = set_cash new_cash <$> find_latest u coll.
Proof.
  unfold find_latest, update_cash, latest_index.
  destruct (latest_from u coll 0 None) as [i|] eqn:Hi.
  - rewrite latest_from_alter_cash, Hi. apply list_lookup_alter_eq.
  - now rewrite Hi.
Qed.

(** *** The positions after a sale *)

Lemma sum_app_one (xs : list Q) (x : Q) : Py.sum (x :: xs) == x + Py.sum xs.
Proof. apply NumericFacts.sum_cons. Qed.

Lemma owned_without_sold (f : Db.position -> Db.position) (g : Db.position -> Q)
  (u symbol : string) (ps : list Db.position) (position : Db.position) :
  (forall p, same_position u symbol (f p) = same_position u symbol p) ->
  List.find (same_position u symbol) ps = Some position ->
  Py.sum (map g (positions_owned u
                   (delete_first u symbol (update_first f u symbol ps))))
  + g position
  == Py.sum (map g (positions_owned u ps)).
Proof.
  intros Hf. unfold positions_owned.
  induction ps as [|p rest IH]; [discriminate|]. cbn [List.find update_first].
  destruct (same_position u symbol p) eqn:Hp.
  - intros E. injection E as <-. cbn [delete_first]. rewrite Hf, Hp.
    cbn [List.filter]. rewrite (same_position_user u symbol p Hp), String.eqb_refl.
    cbn [map]. rewrite sum_app_one. ring.
  - intros Hfind. cbn [delete_first]. rewrite Hp. cbn [List.filter].
    destruct (String.eqb (Db.p_user_id p) u); cbn [map].
    + rewrite !sum_app_one, <- (IH Hfind). ring.
    + exact (IH Hfind).
Qed.

Lemma delete_first_owned_length (u symbol : string) (ps : list Db.position) :
  (length (positions_owned u (delete_first u symbol ps))
   <= length (positions_owned u ps))%nat.
Proof.
  unfold positions_owned. induction ps as [|p rest IH]; [reflexivity|].
  cbn [delete_first]. destruct (same_position u symbol p) eqn:Hp; cbn [List.filter];
    destruct (String.eqb (Db.p_user_id p) u); cbn [length]; lia.
Qed.

Lemma update_first_owned_length (f : Db.position -> Db.position)
  (u symbol : string) (ps : list Db.position) :
  (forall p, Db.p_user_id (f p) = Db.p_user_id p) ->
  length (positions_owned u (update_first f u symbol ps))
  = length (positions_owned u ps).
Proof.
  intros Hf. unfold positions_owned. induction ps as [|p rest IH]; [reflexivity|].
  cbn [update_first]. destruct (same_position u symbol p); cbn [List.filter].
  - rewrite Hf. now destruct (String.eqb (Db.p_user_id p) u).
  - destruct (String.eqb (Db.p_user_id p) u); cbn [length]; now rewrite IH.
Qed.

(** The total equity that a tick would record on the given collections. *)
Definition equity_at (u : string) (ps : list Db.position)
  (coll : list Db.snapshot) : Q :=
  match find_latest u coll with
  | Some prev => Py.get (Db.s_cash_balance prev) 10000
  | None => 10000
  end
  + Py.sum (map Db.p_quantity (positions_of u ps))
  + Py.sum (map (fun p => Py.get (Db.p_pnl p) 0) (positions_of u ps)).

Lemma update_risk_metrics_equity (u : string) (now today_start : Db.timestamp)
  (ps : list Db.position) (coll : list Db.snapshot) :
  exists s,
    update_risk_metrics u now today_start ps coll = coll ++ [s]
    /\ Db.s_total_equity s = Some (equity_at u ps coll).
Proof.
  unfold update_risk_metrics, equity_at.
  destruct (find_latest u coll); eexists; split; reflexivity.
Qed.

(** X28.  A completed sale moves the equity by the difference between what
    the fill realises and what the position was carried at.  For a tenant
    with at most 100 positions, when the exit of the first position of the
    symbol ends in a recorded sale, the total equity the next tick records
    is the one it would have recorded without the sale, plus the proceeds
    [quantity / avg_price * filled_price], minus the quantity and the P&L
    booked on the position. *)
Theorem sale_moves_equity_by_realised_difference (self self' : t)
  (u symbol : string) (position : Db.position) (a : analysis)
  (current_price : Q) (tech : tech_signals) (now : Db.timestamp)
  (order_result : TradingService.order_result) (why : sell_reason) :
  (length (positions_owned u (positions (store self))) <= 100)%nat ->
  List.find (same_position u symbol) (positions (store self)) = Some position ->
  check_sell_signal self u symbol position a current_price tech now order_result
  = (self', sold why) ->
  let filled :=
    Py.get (TradingService.filled_price order_result) current_price in
  let proceeds := Db.p_quantity position / Db.p_avg_price position * filled in
  equity_at u (positions (store self')) (risk_metrics (store self'))
  == equity_at u (positions (store self)) (risk_metrics (store self))
     + (proceeds - (Db.p_quantity position + Py.get (Db.p_pnl position) 0))
  /\ forall later today_start,
       exists s,
         update_risk_metrics u later today_start (positions (store self'))
           (risk_metrics (store self'))
         = risk_metrics (store self') ++ [s]
         /\ Db.s_total_equity s
            = Some (equity_at u (positions (store self'))
                      (risk_metrics (store self'))).
Proof.
  intros Hlen Hfind Hsold filled proceeds.
  split; [|intros later today_start; apply update_risk_metrics_equity].
  revert Hsold. unfold check_sell_signal.
  destruct (Py.Qeqb (Db.p_avg_price position) 0); [discriminate|].
  match goal with
  | |- context [sell_rules ?p ?dd a tech ?h] =>
    destruct (sell_rules p dd a tech h) as [should reason]
  end.
  destruct should; [|discriminate].
  destruct (TradingService.success order_result); [|discriminate].
  destruct (find_latest u (risk_metrics (store self))) as [latest|] eqn:Hlatest;
    [|discriminate].
  intros E. injection E as <- _. cbn [store positions risk_metrics].
  unfold equity_at. rewrite find_latest_update_cash, Hlatest.
  cbn [fmap option_fmap option_map set_cash Db.s_cash_balance Py.get].
  fold filled. fold proceeds.
  set (high := Py.get (Db.p_high_water_mark position) (Db.p_avg_price position)).
  assert (exists f : Db.position -> Db.position,
            (forall p, same_position u symbol (f p) = same_position u symbol p)
            /\ (forall p, Db.p_user_id (f p) = Db.p_user_id p)
            /\ (if Py.Qltb high current_price
                then update_first
                       (set_high_water_mark
                          (if Py.Qltb high current_price then current_price else high))
                       u symbol (positions (store self))
                else positions (store self))
               = update_first f u symbol (positions (store self)))
    as (f & Hsame & Huser & ->).
  { destruct (Py.Qltb high current_price).
    - eexists. split; [|split; [|reflexivity]]; intros p; reflexivity.
    - exists (fun p => p). split; [|split]; try (intros p; reflexivity).
      clear. induction (positions (store self)) as [|p rest IH]; [reflexivity|].
      cbn [update_first]. destruct (same_position u symbol p); [reflexivity|].
      now rewrite <- IH. }
  assert (forall ps, (length (positions_owned u ps) <= 100)%nat ->
            positions_of u ps = positions_owned u ps) as Hall.
  { intros ps H. unfold positions_of. fold (positions_owned u ps).
    now apply take_ge. }
  rewrite (Hall (positions (store self)) Hlen).
  rewrite Hall.
  2:{ etransitivity; [apply delete_first_owned_length|].
      now rewrite update_first_owned_length. }
  pose proof (owned_without_sold f Db.p_quantity u symbol _ position Hsame Hfind)
    as Hq.
  pose proof (owned_without_sold f (fun p => Py.get (Db.p_pnl p) 0) u symbol _
                position Hsame Hfind) as Hp.
  cbn beta in Hp. rewrite <- Hq, <- Hp. ring.
Qed.

Definition marked_btc : Db.position :=
  {| Db.p_user_id := "u1"; Db.p_symbol := "BTC-USD"; Db.p_quantity := 500;
     Db.p_avg_price := 40000; Db.p_current_price := 42000; Db.p_pnl := Some 25;
     Db.p_pnl_percent := Some 5; Db.p_high_water_mark := None;
     Db.p_created_at := 0%Z |}.

Definition opening_snapshot : Db.snapshot :=
  {| Db.s_user_id := "u1"; Db.s_total_equity := Some 10000;
     Db.s_max_equity := Some 10000; Db.s_equity_floor := 9700;
     Db.s_current_drawdown := 0; Db.s_daily_pnl := Some 0;
     Db.s_positions_value := 500; Db.s_cash_balance := Some 9500;
     Db.s_timestamp := 0%Z |}.

Definition engine_before_sale : t :=
  {| store := {| positions := [marked_btc]; trades := [];
                 risk_metrics := [opening_snapshot] |};
     submitted := []; price_history_cache := ∅ |}.

Definition calm_analysis : analysis :=
  {| a_confidence := Some 50; a_buy_recommendation := Some false;
     a_heat_percent := Some 1; a_signal := Some "HOLD";
     a_combined_confidence := Some 40; a_rsi := Some 55;
     a_tech_regime := Some "ranging"; a_ai_analysis := None;
     a_regime := None |}.

Definition calm_signals : tech_signals :=
  {| ts_signal := Some "HOLD"; ts_confidence := Some 50 |}.

Definition filled_42000 : TradingService.order_result :=
  {| TradingService.success := true; TradingService.filled_price := Some 42000 |}.

Definition engine_after_sale : t :=
  fst (check_sell_signal engine_before_sale "u1" "BTC-USD" marked_btc
         calm_analysis 42000 calm_signals 60000000%Z filled_42000).

Lemma sale_moves_equity_by_realised_difference_witness :
  let filled := Py.get (TradingService.filled_price filled_42000) 42000 in
  let proceeds := Db.p_quantity marked_btc / Db.p_avg_price marked_btc * filled in
  equity_at "u1" (positions (store engine_after_sale))
    (risk_metrics (store engine_after_sale))
  == equity_at "u1" (positions (store engine_before_sale))
       (risk_metrics (store engine_before_sale))
     + (proceeds - (Db.p_quantity marked_btc + Py.get (Db.p_pnl marked_btc) 0))
  /\ forall later today_start,
       exists s,
         update_risk_metrics "u1" later today_start
           (positions (store engine_after_sale))
           (risk_metrics (store engine_after_sale))
         = risk_metrics (store engine_after_sale) ++ [s]
         /\ Db.s_total_equity s
            = Some (equity_at "u1" (positions (store engine_after_sale))
                      (risk_metrics (store engine_after_sale))).
Proof.
  apply (sale_moves_equity_by_realised_difference engine_before_sale
           engine_after_sale "u1" "BTC-USD" marked_btc calm_analysis 42000
           calm_signals 60000000%Z filled_42000 profit_target).
  - vm_compute. lia.
  - reflexivity.
  - vm_compute. reflexivity.
Defined.

End SaleFacts.

(** ** Correlation *)

Module CorrelationRangeFacts.
Import AdvancedRiskManager.

(** *** The Cauchy-Schwarz inequality on the sums of products *)


Lemma dot_nil_r (xs : list Q) : dot xs [] == 0.
Proof. unfold dot. now destruct xs. Qed.







(** *** The rounded coefficient *)






End CorrelationRangeFacts.

(** ** The trading cycle *)

Module CycleFacts.
Import BotEngine.

(** The side of a submitted market order. *)
Definition side_of (o : string * string * Q) : string := snd (fst o).

(** What a decision step or a cycle may do to the engine: append SELL
    orders, no more than [n] of them, and only drop positions. *)
Definition only_sold (n : nat) (before after : t) : Prop :=
  exists sells,
    submitted after = submitted before ++ sells
    /\ Forall (fun o => side_of o = "SELL") sells
    /\ (length sells <= n)%nat
    /\ (length (positions (store after))
        <= length (positions (store before)))%nat
    /\ length (risk_metrics (store after))
       = length (risk_metrics (store before)).

Lemma only_sold_refl (self : t) : only_sold 0 self self.
Proof.
  exists []. rewrite app_nil_r. split; [reflexivity|]. split; [constructor|].
  cbn [length]. repeat split; lia.
Qed.

Lemma only_sold_weaken (n m : nat) (a b : t) :
  (n <= m)%nat -> only_sold n a b -> only_sold m a b.
Proof.
  intros Hnm (s & H & F & L & P & R). exists s. repeat split; try assumption. lia.
Qed.

Lemma only_sold_trans (n m : nat) (a b c : t) :
  only_sold n a b -> only_sold m b c -> only_sold (n + m) a c.
Proof.
  intros (s1 & H1 & F1 & L1 & P1 & R1) (s2 & H2 & F2 & L2 & P2 & R2).
  exists (s1 ++ s2). split; [now rewrite H2, H1, app_assoc|].
  split; [now apply Forall_app|]. rewrite length_app.
  split; [lia|]. split; [lia|congruence].
Qed.

Lemma update_cash_length (u : string) (new_cash : Q) (coll : list Db.snapshot) :
  length (update_cash u new_cash coll) = length coll.
Proof.
  unfold update_cash. destruct (latest_index u coll); [|reflexivity].
  apply length_alter.
Qed.

Lemma check_sell_signal_only_sold (self : t) (user_id symbol : string)
  (position : Db.position) (a : analysis) (current_price : Q)
  (tech : tech_signals) (now : Db.timestamp)
  (order_result : TradingService.order_result) :
  only_sold 1 self
    (fst (check_sell_signal self user_id symbol position a current_price tech
            now order_result)).
Proof.
  unfold check_sell_signal.
  destruct (Py.Qeqb (Db.p_avg_price position) 0).
  { cbn [fst]. apply only_sold_weaken with 0%nat; [lia|apply only_sold_refl]. }
  match goal with
  | |- context [sell_rules ?p ?dd a tech ?h] =>
    destruct (sell_rules p dd a tech h) as [should why]
  end.
  set (positions1 := if Py.Qltb _ current_price then _ else _).
  assert (length positions1 = length (positions (store self))) as Hp1.
  { subst positions1. destruct (Py.Qltb _ current_price); [|reflexivity].
    apply EngineFacts.update_first_length. }
  pose proof (EngineFacts.delete_first_length user_id symbol positions1) as Hdel.
  assert (Forall (fun o => side_of o = "SELL")
            [(symbol, "SELL", Db.p_quantity position)]) as Hsell
    by (repeat constructor).
  destruct should.
  - destruct (TradingService.success order_result).
    + destruct (find_latest user_id (risk_metrics (store self)));
        cbn [fst]; eexists; cbn [store positions risk_metrics submitted];
        (split; [reflexivity|]); (split; [exact Hsell|]);
        rewrite ?update_cash_length; cbn [length]; repeat split; lia.
    + cbn [fst]. eexists. cbn [store positions risk_metrics submitted].
      split; [reflexivity|]. split; [exact Hsell|]. cbn [length].
      repeat split; lia.
  - cbn [fst]. exists []. cbn [store positions risk_metrics submitted].
    rewrite app_nil_r. split; [reflexivity|]. split; [constructor|].
    cbn [length]. repeat split; lia.
Qed.

Lemma analyze_and_trade_only_sold (self : t) (user_id symbol : string)
  (price : option Q) (historical_prices : list Q)
  (bands : TechnicalIndicators.bollinger) (ai : AIAnalysisService.analysis)
  (now : Db.timestamp) (order_result : TradingService.order_result) :
  only_sold 1 self
    (fst (analyze_and_trade self user_id symbol price historical_prices bands
            ai now order_result)).
Proof.
  unfold analyze_and_trade.
  destruct (List.find (same_position user_id symbol) (positions (store _)))
    as [position|].
  - match goal with
    | |- context [check_sell_signal ?s user_id symbol position ?a ?p ?t now order_result] =>
      pose proof (check_sell_signal_only_sold s user_id symbol position a p t now
                    order_result) as Hw;
      destruct (check_sell_signal s user_id symbol position a p t now order_result)
        as [self' outcome]
    end.
    exact Hw.
  - match goal with
    | |- context [check_buy_signal ?s user_id symbol ?a ?m ?p ?ps] =>
      pose proof (EntryExitFacts.check_buy_signal_inert s user_id symbol a m p ps)
        as Hi;
      destruct (check_buy_signal s user_id symbol a m p ps) as [self' log]
    end.
    cbn [fst] in *. subst self'.
    exists []. cbn [store submitted]. rewrite app_nil_r.
    split; [reflexivity|]. split; [constructor|]. cbn [length].
    repeat split; lia.
Qed.

Lemma update_positions_length (get_current_price : nat -> string -> option Q)
  (u : string) (ps : list Db.position) :
  length (update_positions get_current_price u ps) = length ps.
Proof.
  unfold update_positions.
  generalize (imap pair (positions_of u ps)) as turns. intros turns. revert ps.
  induction turns as [|[i position] turns IH]; intros ps; [reflexivity|].
  cbn [foldl]. rewrite IH. unfold update_position.
  destruct (Py.Qeqb _ 0); [reflexivity|]. apply EngineFacts.update_first_length.
Qed.

(** The symbols a configuration asks for. *)
Definition symbols_of (config : bot_config) : list string :=
  Py.get (symbols config) ["BTC-USD"; "ETH-USD"].

(** X30.  A trading cycle of a tenant without an active configuration
    changes nothing.  An active cycle appends exactly one snapshot, and
    whatever the market, the indicators and the AI service answer, every
    market order it submits is a SELL, at most one per configured symbol,
    and it opens no position: it never buys. *)
Theorem trading_cycle_never_buys (self : t) (user_id : string)
  (get_current_price : nat -> string -> option Q)
  (now today_start : Db.timestamp) (answers : nat -> string -> market) :
  trading_cycle self user_id None get_current_price now today_start answers
  = self
  /\ forall config : bot_config,
       let self' :=
         trading_cycle self user_id (Some config) get_current_price now
           today_start answers in
       if Py.get (is_active config) false then
         exists sells,
           submitted self' = submitted self ++ sells
           /\ Forall (fun o => side_of o = "SELL") sells
           /\ (length sells <= length (symbols_of config))%nat
           /\ (length (positions (store self'))
               <= length (positions (store self)))%nat
           /\ length (risk_metrics (store self'))
              = S (length (risk_metrics (store self)))
       else self' = self.
Proof.
  split; [reflexivity|]. intros config self'. subst self'. unfold trading_cycle.
  destruct (Py.get (is_active config) false); [|reflexivity].
  cbn [negb]. fold (symbols_of config).
  set (start :=
         {| store := {| positions := update_positions get_current_price user_id
                                       (positions (store self));
                        trades := trades (store self);
                        risk_metrics := _ |};
            submitted := submitted self;
            price_history_cache := price_history_cache self |}).
  assert (forall (turns : list (nat * string)) (st : t),
            only_sold (length turns) st
              (foldl
                 (fun self turn =>
                    let m := answers (fst turn) (snd turn) in
                    fst (analyze_and_trade self user_id (snd turn) (m_price m)
                           (m_historical_prices m) (m_bands m) (m_ai m) (m_now m)
                           (m_order_result m)))
                 st turns)) as Hloop.
  { induction turns as [|turn turns IH]; intros st; [apply only_sold_refl|].
    cbn [foldl length]. change (S (length turns)) with (1 + length turns)%nat.
    eapply only_sold_trans; [apply analyze_and_trade_only_sold|apply IH]. }
  specialize (Hloop (imap pair (symbols_of config)) start).
  rewrite length_imap in Hloop.
  destruct Hloop as (sells & Hs & Hf & Hl & Hp & Hr).
  exists sells. split; [exact Hs|]. split; [exact Hf|]. split; [exact Hl|].
  split.
  - etransitivity; [exact Hp|]. subst start. cbn [store positions].
    now rewrite update_positions_length.
  - etransitivity; [exact Hr|]. subst start. cbn [store risk_metrics].
    destruct (SnapshotFacts.update_risk_metrics_snoc user_id now today_start
                (update_positions get_current_price user_id (positions (store self)))
                (risk_metrics (store self))) as (s & -> & _).
    rewrite length_app. cbn. lia.
Qed.

End CycleFacts.
